(** * qutebrowser: application lifecycle, main window and download model

    A shallow embedding of

      - [qutebrowser/app.py]                  ([Module app]),
      - [qutebrowser/widgets/mainwindow.py]   ([Module mainwindow]),
      - [qutebrowser/models/downloadmodel.py] ([Module downloadmodel]),

    Python code is embedded in a state-and-exception monad over one record
    [world] that holds the process-wide mutable state: the attributes of the
    [Application] singleton, the global object registry, the Qt run-loop's
    pending zero-delay timers, the installed signal handlers, the files of
    the data directory and a trace of log records and external calls.

    What the code outside these files answers (Qt, [base64], the [save]
    methods of the registered objects, the user in front of a dialog) is
    given by the record [env] and by the objects in the registry; [os.path]
    is [posixpath]; [objreg] is the name-keyed registry of the
    specification.  The object listing of the crash report is a function of
    what Qt and the registries return: the widgets, the tree of Qt objects
    and the dumps of the registries. *)

From Stdlib Require Import ZArith String Ascii List Lia Bool DecimalString.
From Stdlib Require OrderedTypeEx.
From Stdlib.Strings Require Import Byte.
From stdpp Require Import base gmap strings list sorting.
Import ListNotations.
Open Scope string_scope.
Open Scope list_scope.

(** ** Python exceptions and outcomes *)

Module py.

(** The exception classes that the three source files raise or catch; all
    of them derive from [Exception]. *)
Inductive exn : Type :=
| KeyError (key : string)
| AttributeError
| TypeError
| ValueError
| BinasciiError                       (* binascii.Error, a ValueError *)
| UnboundLocalError (var : string)
| PermissionError
| FileNotFoundError
| OSError
| DuplicateSectionError (section : string).

(** [except Exception]. *)
Definition is_Exception (e : exn) : bool := true.

Definition is_KeyError (e : exn) : bool :=
  match e with KeyError _ => true | _ => false end.
Definition is_AttributeError (e : exn) : bool :=
  match e with AttributeError => true | _ => false end.
Definition is_TypeError (e : exn) : bool :=
  match e with TypeError => true | _ => false end.
Definition is_BinasciiError (e : exn) : bool :=
  match e with BinasciiError => true | _ => false end.
Definition is_PermissionError (e : exn) : bool :=
  match e with PermissionError => true | _ => false end.
Definition is_FileNotFoundError (e : exn) : bool :=
  match e with FileNotFoundError => true | _ => false end.
Definition is_DuplicateSectionError (e : exn) : bool :=
  match e with DuplicateSectionError _ => true | _ => false end.

(** What a call into code outside the model does: it returns a value or
    raises an [Exception]. *)
Inductive result (A : Type) : Type :=
| Ok (a : A)
| Err (e : exn).
Arguments Ok {A} a.
Arguments Err {A} e.

(** What a piece of the embedded code does: it returns a value, raises an
    [Exception], or raises the [SystemExit] of [sys.exit(code)], which no
    [except] clause of the sources catches. *)
Inductive outcome (A : Type) : Type :=
| Ret (a : A)
| Exc (e : exn)
| Exit (code : Z).
Arguments Ret {A} a.
Arguments Exc {A} e.
Arguments Exit {A} code.

(** The monad: a computation maps a state to an outcome and the state it
    leaves behind; a raised exception keeps the mutations done before it. *)
Definition M (S A : Type) : Type := S -> outcome A * S.

Definition ret {S A} (a : A) : M S A := fun s => (Ret a, s).
Definition raise {S A} (e : exn) : M S A := fun s => (Exc e, s).
Definition bind {S A B} (m : M S A) (k : A -> M S B) : M S B :=
  fun s => match m s with
           | (Ret a, s') => k a s'
           | (Exc e, s') => (Exc e, s')
           | (Exit c, s') => (Exit c, s')
           end.
Definition get {S} : M S S := fun s => (Ret s, s).
Definition gets {S A} (f : S -> A) : M S A := fun s => (Ret (f s), s).
Definition modify {S} (f : S -> S) : M S unit := fun s => (Ret tt, f s).
Definition lift {S A} (r : result A) : M S A :=
  fun s => match r with
           | Ok a => (Ret a, s)
           | Err e => (Exc e, s)
           end.

(** An [except <classes>: handler] clause. *)
Definition clause (S A : Type) : Type := (exn -> bool) * (exn -> M S A).

(** The first clause whose classes match handles the exception; without a
    match it propagates. *)
Fixpoint dispatch {S A} (clauses : list (clause S A)) (e : exn) : M S A :=
  match clauses with
  | [] => raise e
  | (handles, handler) :: rest =>
      if handles e then handler e else dispatch rest e
  end.

(** [try: body except ...: ...]. *)
Definition try_except {S A} (body : M S A) (clauses : list (clause S A))
    : M S A :=
  fun s => match body s with
           | (Ret a, s') => (Ret a, s')
           | (Exc e, s') => dispatch clauses e s'
           | (Exit c, s') => (Exit c, s')
           end.

(** [try: body except ...: ... else: orelse]; the [else] suite runs outside
    the protection of the [try]. *)
Definition try_except_else {S A B} (body : M S A)
    (clauses : list (clause S B)) (orelse : A -> M S B) : M S B :=
  fun s => match body s with
           | (Ret a, s') => orelse a s'
           | (Exc e, s') => dispatch clauses e s'
           | (Exit c, s') => (Exit c, s')
           end.

(** [pass]. *)
Definition pass {S} : exn -> M S unit := fun _ => ret tt.

Definition when {S} (b : bool) (m : M S unit) : M S unit :=
  if b then m else ret tt.

(** [for x in l: body x]. *)
Fixpoint for_each {S A} (l : list A) (body : A -> M S unit) : M S unit :=
  match l with
  | [] => ret tt
  | x :: l' => bind (body x) (fun _ => for_each l' body)
  end.

End py.
Export py.

(** The monad is used through stdpp's [mret]/[mbind] notations:
    [x ← m; k] and [m;; k]. *)
#[export] Instance M_ret {S} : MRet (M S) := fun A => @ret S A.
#[export] Instance M_bind {S} : MBind (M S) := fun A B k m => @bind S A B m k.

(** ** [os.path] on POSIX ([posixpath]) *)

Module posixpath.

Definition slash : ascii := "/"%char.

(** [(p[:i], p[i:])] with [i = p.rfind('/') + 1]. *)
Fixpoint rsplit (p : string) : string * string :=
  match p with
  | EmptyString => ("", "")
  | String c r =>
      let '(h, t) := rsplit r in
      match h with
      | EmptyString =>
          if Ascii.eqb c slash then (String c EmptyString, r)
          else ("", String c t)
      | _ => (String c h, t)
      end
  end.

Fixpoint all_slashes (p : string) : bool :=
  match p with
  | EmptyString => true
  | String c r => Ascii.eqb c slash && all_slashes r
  end.

(** [p.rstrip('/')]. *)
Fixpoint rstrip_slashes (p : string) : string :=
  match p with
  | EmptyString => ""
  | String c r =>
      if all_slashes (String c r) then "" else String c (rstrip_slashes r)
  end.

Definition basename (p : string) : string := snd (rsplit p).

Definition dirname (p : string) : string :=
  let head := fst (rsplit p) in
  if negb (all_slashes head) then rstrip_slashes head else head.

Definition startswith_slash (p : string) : bool :=
  match p with String c _ => Ascii.eqb c slash | EmptyString => false end.

Fixpoint endswith_slash (p : string) : bool :=
  match p with
  | EmptyString => false
  | String c EmptyString => Ascii.eqb c slash
  | String _ r => endswith_slash r
  end.

(** [os.path.join(a, b)]. *)
Definition join (a b : string) : string :=
  if startswith_slash b then b
  else match a with
       | EmptyString => b
       | _ => if endswith_slash a then a +:+ b else a +:+ "/" +:+ b
       end.

(** [p.split('/')]. *)
Fixpoint split (p : string) : list string :=
  match p with
  | EmptyString => [""]
  | String c r =>
      if Ascii.eqb c slash then "" :: split r
      else match split r with
           | [] => [String c EmptyString]
           | x :: xs => String c x :: xs
           end
  end.

(** The loop of [normpath] over the components; [acc] is [new_comps] in
    reverse. *)
Fixpoint norm_comps (absolute : bool) (comps : list string)
    (acc : list string) : list string :=
  match comps with
  | [] => rev acc
  | comp :: rest =>
      if String.eqb comp "" || String.eqb comp "."
      then norm_comps absolute rest acc
      else if negb (String.eqb comp "..")
      then norm_comps absolute rest (comp :: acc)
      else match acc with
           | [] => if absolute then norm_comps absolute rest acc
                   else norm_comps absolute rest (comp :: acc)
           | top :: acc' =>
               if String.eqb top ".."
               then norm_comps absolute rest (comp :: acc)
               else norm_comps absolute rest acc'
           end
  end.

Fixpoint join_slash (l : list string) : string :=
  match l with
  | [] => ""
  | [x] => x
  | x :: xs => x +:+ "/" +:+ join_slash xs
  end.

(** Number of leading slashes kept by [normpath]: two exactly when the path
    starts with two but not three slashes. *)
Definition initial_slashes (p : string) : string :=
  match p with
  | String a (String b (String c _)) =>
      if Ascii.eqb a slash
      then if Ascii.eqb b slash && negb (Ascii.eqb c slash) then "//" else "/"
      else ""
  | String a (String b EmptyString) =>
      if Ascii.eqb a slash then if Ascii.eqb b slash then "//" else "/" else ""
  | String a EmptyString => if Ascii.eqb a slash then "/" else ""
  | EmptyString => ""
  end.

Definition normpath (p : string) : string :=
  match p with
  | EmptyString => "."
  | _ =>
      let ini := initial_slashes p in
      let absolute := negb (String.eqb ini "") in
      let path := ini +:+ join_slash (norm_comps absolute (split p) []) in
      match path with EmptyString => "." | _ => path end
  end.

(** [os.path.abspath(p)] for a process whose working directory is [cwd]. *)
Definition abspath (cwd p : string) : string :=
  if startswith_slash p then normpath p else normpath (join cwd p).

End posixpath.

(** ** Data model *)

(** [QRect(x, y, w, h)]. *)
Record rect : Type := QRect { rect_x : Z; rect_y : Z; rect_w : Z; rect_h : Z }.

(** A tab of the tabbed browser, seen through
    [tab.cur_url.toString(QUrl.RemovePassword | QUrl.FullyEncoded)]. *)
Record tab : Type := Tab { cur_url_toString : result string }.

(** An item of the download manager's [downloads] list. *)
Record download : Type := Download { download_str : string }.

(** The [MainWindow] widget; [geometry = None] while no geometry has been
    set on the widget. *)
Record main_window : Type := {
  windowTitle : string;
  geometry : option rect;
}.

(** The objects that live in the object registry.  A [save] field is what
    calling the object's [save()] does. *)
Inductive obj : Type :=
| Saveable (save : result unit)
| StateConfig (sections : gmap string (gmap string string))
              (save : result unit)
| Prompter (question_active : bool)
| TabbedBrowser (tabs : list tab)
| DownloadManager (downloads : list download)
| MainWindow (w : main_window)
| StatusCommand (history : list string)
| Opaque (repr : string).

(** Log records and calls into code outside the three files. *)
Inductive arg : Type :=
| AStr (s : string)
| AInt (z : Z)
| AList (l : list string)
| AGeometry (g : option rect)
| ANone.

Inductive level : Type := DEBUG | INFO | WARNING | EXCEPTION.

Inductive event : Type :=
| Log (logger : string) (lvl : level) (fmt : string) (args : list arg)
| Call (callee : string) (args : list arg).

(** Callables handed to [QTimer.singleShot(0, ...)]. *)
Inductive callback : Type :=
| CbShutdown (status : Z)     (* functools.partial(self.shutdown, status) *)
| CbStage2 (status : Z)       (* functools.partial(self._shutdown, status) *)
| CbExit (status : Z).        (* functools.partial(self.exit, status) *)

(** The handlers [signal.signal] installs. *)
Inductive sighandler : Type :=
| interrupt_handler
| interrupt_forcefully_handler
| interrupt_really_forcefully_handler.

Definition SIGINT : Z := 2.
Definition SIGTERM : Z := 15.

(** An open text file object. *)
Record file : Type := File { name : string; closed : bool }.

(** Where [faulthandler] writes. *)
Inductive fault_target : Type :=
| fault_disabled
| fault_stderr
| fault_file (logname : string).

Inductive exc_class : Type :=
| BdbQuit                      (* bdb.BdbQuit, an Exception *)
| BaseExceptionOnly (cls : string)   (* KeyboardInterrupt, SystemExit, ... *)
| ExceptionClass (cls : string).     (* any other subclass of Exception *)

Inductive dialog : Type :=
| FatalCrashDialog (data : string)
| ExceptionCrashDialog (pages history : list string) (exc : exc_class)
                       (objects : string).

Inductive dialog_code : Type := Rejected | Accepted.

(** [self._quit_status]. *)
Record quit_status : Type := {
  qs_crash : bool;
  qs_tabs : bool;
  qs_main : bool;
}.

(** The mutable state of the process. *)
Record world : Type := {
  (* attributes of the Application instance *)
  _quit_status : quit_status;
  _shutting_down : bool;
  _crashdlg : option dialog;
  _crashlogfile : option file;
  (* Qt *)
  lastWindowClosed_connected : bool;  (* lastWindowClosed -> self.shutdown *)
  message_handler : bool;             (* a custom Qt message handler is set *)
  timers : list callback;             (* pending QTimer.singleShot(0, ...) *)
  exit_status : option Z;             (* QApplication::exit was called *)
  (* the rest of the process *)
  registry : gmap string obj;         (* objreg's global registry *)
  sighandlers : gmap Z sighandler;
  faulthandler : fault_target;
  faulthandler_signals : list string; (* faulthandler.register'ed signals *)
  files : gmap string string;         (* text files by path *)
  children : list (list string * option string);  (* subprocess.Popen *)
  trace : list event;
}.

Definition set_quit_status (f : quit_status -> quit_status) (w : world) :=
  {| _quit_status := f (_quit_status w); _shutting_down := _shutting_down w;
     _crashdlg := _crashdlg w; _crashlogfile := _crashlogfile w;
     lastWindowClosed_connected := lastWindowClosed_connected w;
     message_handler := message_handler w; timers := timers w;
     exit_status := exit_status w; registry := registry w;
     sighandlers := sighandlers w; faulthandler := faulthandler w;
     faulthandler_signals := faulthandler_signals w; files := files w;
     children := children w; trace := trace w |}.
Definition set_shutting_down (b : bool) (w : world) :=
  {| _quit_status := _quit_status w; _shutting_down := b;
     _crashdlg := _crashdlg w; _crashlogfile := _crashlogfile w;
     lastWindowClosed_connected := lastWindowClosed_connected w;
     message_handler := message_handler w; timers := timers w;
     exit_status := exit_status w; registry := registry w;
     sighandlers := sighandlers w; faulthandler := faulthandler w;
     faulthandler_signals := faulthandler_signals w; files := files w;
     children := children w; trace := trace w |}.
Definition set_crashdlg (d : option dialog) (w : world) :=
  {| _quit_status := _quit_status w; _shutting_down := _shutting_down w;
     _crashdlg := d; _crashlogfile := _crashlogfile w;
     lastWindowClosed_connected := lastWindowClosed_connected w;
     message_handler := message_handler w; timers := timers w;
     exit_status := exit_status w; registry := registry w;
     sighandlers := sighandlers w; faulthandler := faulthandler w;
     faulthandler_signals := faulthandler_signals w; files := files w;
     children := children w; trace := trace w |}.
Definition set_crashlogfile (f : option file) (w : world) :=
  {| _quit_status := _quit_status w; _shutting_down := _shutting_down w;
     _crashdlg := _crashdlg w; _crashlogfile := f;
     lastWindowClosed_connected := lastWindowClosed_connected w;
     message_handler := message_handler w; timers := timers w;
     exit_status := exit_status w; registry := registry w;
     sighandlers := sighandlers w; faulthandler := faulthandler w;
     faulthandler_signals := faulthandler_signals w; files := files w;
     children := children w; trace := trace w |}.
Definition set_lastWindowClosed_connected (b : bool) (w : world) :=
  {| _quit_status := _quit_status w; _shutting_down := _shutting_down w;
     _crashdlg := _crashdlg w; _crashlogfile := _crashlogfile w;
     lastWindowClosed_connected := b;
     message_handler := message_handler w; timers := timers w;
     exit_status := exit_status w; registry := registry w;
     sighandlers := sighandlers w; faulthandler := faulthandler w;
     faulthandler_signals := faulthandler_signals w; files := files w;
     children := children w; trace := trace w |}.
Definition set_message_handler (b : bool) (w : world) :=
  {| _quit_status := _quit_status w; _shutting_down := _shutting_down w;
     _crashdlg := _crashdlg w; _crashlogfile := _crashlogfile w;
     lastWindowClosed_connected := lastWindowClosed_connected w;
     message_handler := b; timers := timers w;
     exit_status := exit_status w; registry := registry w;
     sighandlers := sighandlers w; faulthandler := faulthandler w;
     faulthandler_signals := faulthandler_signals w; files := files w;
     children := children w; trace := trace w |}.
Definition set_timers (f : list callback -> list callback) (w : world) :=
  {| _quit_status := _quit_status w; _shutting_down := _shutting_down w;
     _crashdlg := _crashdlg w; _crashlogfile := _crashlogfile w;
     lastWindowClosed_connected := lastWindowClosed_connected w;
     message_handler := message_handler w; timers := f (timers w);
     exit_status := exit_status w; registry := registry w;
     sighandlers := sighandlers w; faulthandler := faulthandler w;
     faulthandler_signals := faulthandler_signals w; files := files w;
     children := children w; trace := trace w |}.
Definition set_exit_status (c : option Z) (w : world) :=
  {| _quit_status := _quit_status w; _shutting_down := _shutting_down w;
     _crashdlg := _crashdlg w; _crashlogfile := _crashlogfile w;
     lastWindowClosed_connected := lastWindowClosed_connected w;
     message_handler := message_handler w; timers := timers w;
     exit_status := c; registry := registry w;
     sighandlers := sighandlers w; faulthandler := faulthandler w;
     faulthandler_signals := faulthandler_signals w; files := files w;
     children := children w; trace := trace w |}.
Definition set_registry (f : gmap string obj -> gmap string obj) (w : world) :=
  {| _quit_status := _quit_status w; _shutting_down := _shutting_down w;
     _crashdlg := _crashdlg w; _crashlogfile := _crashlogfile w;
     lastWindowClosed_connected := lastWindowClosed_connected w;
     message_handler := message_handler w; timers := timers w;
     exit_status := exit_status w; registry := f (registry w);
     sighandlers := sighandlers w; faulthandler := faulthandler w;
     faulthandler_signals := faulthandler_signals w; files := files w;
     children := children w; trace := trace w |}.
Definition set_sighandlers (f : gmap Z sighandler -> gmap Z sighandler)
    (w : world) :=
  {| _quit_status := _quit_status w; _shutting_down := _shutting_down w;
     _crashdlg := _crashdlg w; _crashlogfile := _crashlogfile w;
     lastWindowClosed_connected := lastWindowClosed_connected w;
     message_handler := message_handler w; timers := timers w;
     exit_status := exit_status w; registry := registry w;
     sighandlers := f (sighandlers w); faulthandler := faulthandler w;
     faulthandler_signals := faulthandler_signals w; files := files w;
     children := children w; trace := trace w |}.
Definition set_faulthandler (t : fault_target) (w : world) :=
  {| _quit_status := _quit_status w; _shutting_down := _shutting_down w;
     _crashdlg := _crashdlg w; _crashlogfile := _crashlogfile w;
     lastWindowClosed_connected := lastWindowClosed_connected w;
     message_handler := message_handler w; timers := timers w;
     exit_status := exit_status w; registry := registry w;
     sighandlers := sighandlers w; faulthandler := t;
     faulthandler_signals := faulthandler_signals w; files := files w;
     children := children w; trace := trace w |}.
Definition set_faulthandler_signals (f : list string -> list string)
    (w : world) :=
  {| _quit_status := _quit_status w; _shutting_down := _shutting_down w;
     _crashdlg := _crashdlg w; _crashlogfile := _crashlogfile w;
     lastWindowClosed_connected := lastWindowClosed_connected w;
     message_handler := message_handler w; timers := timers w;
     exit_status := exit_status w; registry := registry w;
     sighandlers := sighandlers w; faulthandler := faulthandler w;
     faulthandler_signals := f (faulthandler_signals w); files := files w;
     children := children w; trace := trace w |}.
Definition set_files (f : gmap string string -> gmap string string)
    (w : world) :=
  {| _quit_status := _quit_status w; _shutting_down := _shutting_down w;
     _crashdlg := _crashdlg w; _crashlogfile := _crashlogfile w;
     lastWindowClosed_connected := lastWindowClosed_connected w;
     message_handler := message_handler w; timers := timers w;
     exit_status := exit_status w; registry := registry w;
     sighandlers := sighandlers w; faulthandler := faulthandler w;
     faulthandler_signals := faulthandler_signals w; files := f (files w);
     children := children w; trace := trace w |}.
Definition set_children
    (f : list (list string * option string) ->
         list (list string * option string)) (w : world) :=
  {| _quit_status := _quit_status w; _shutting_down := _shutting_down w;
     _crashdlg := _crashdlg w; _crashlogfile := _crashlogfile w;
     lastWindowClosed_connected := lastWindowClosed_connected w;
     message_handler := message_handler w; timers := timers w;
     exit_status := exit_status w; registry := registry w;
     sighandlers := sighandlers w; faulthandler := faulthandler w;
     faulthandler_signals := faulthandler_signals w; files := files w;
     children := f (children w); trace := trace w |}.
Definition set_trace (f : list event -> list event) (w : world) :=
  {| _quit_status := _quit_status w; _shutting_down := _shutting_down w;
     _crashdlg := _crashdlg w; _crashlogfile := _crashlogfile w;
     lastWindowClosed_connected := lastWindowClosed_connected w;
     message_handler := message_handler w; timers := timers w;
     exit_status := exit_status w; registry := registry w;
     sighandlers := sighandlers w; faulthandler := faulthandler w;
     faulthandler_signals := faulthandler_signals w; files := files w;
     children := children w; trace := f (trace w) |}.

(** What the process is started with and what the code outside the three
    files answers when called. *)
Record env : Type := {
  sys_argv0 : string;                 (* sys.argv[0] *)
  sys_argv_tail : list string;        (* sys.argv[1:] *)
  sys_executable : string;
  sys_frozen : bool;                  (* hasattr(sys, 'frozen') *)
  sys_stderr_present : bool;          (* sys.__stderr__ is not None *)
  qutebrowser_file : string;          (* qutebrowser.__file__ *)
  getcwd : string;                    (* os.getcwd() *)
  data_dir : string;   (* utils.get_standard_dir(QStandardPaths.DataLocation) *)
  remove_permitted : string -> bool;  (* os.remove may unlink this path *)
  sigusr1_traceback : bool;
      (* hasattr(faulthandler, 'register') and hasattr(signal, 'SIGUSR1') *)
  args_debug_exit : bool;             (* self._args.debug_exit *)
  auto_save_config : bool;     (* config.get('general', 'auto-save-config') *)
  quickmarks_save : result unit;     (* quickmarks.save() *)
  all_objects : result string;        (* self.get_all_objects() *)
  crashdlg_exec : dialog_code;        (* what the user answers in exec_() *)
  b64encode : list byte -> string;    (* base64.b64encode(..).decode('ASCII') *)
  b64decode : string -> result (list byte);
      (* base64.b64decode(.., validate=True) *)
  saveGeometry : main_window -> list byte;      (* QWidget.saveGeometry *)
  restoreGeometry : list byte -> result (option rect);
      (* QWidget.restoreGeometry: [Some r] is True with the geometry now r,
         [None] is False *)
}.

Definition sys_argv (e : env) : list string := sys_argv0 e :: sys_argv_tail e.

(** Primitive effects. *)
Definition emit (ev : event) : M world unit :=
  modify (set_trace (fun t => t ++ [ev])).
Definition log (logger : string) (lvl : level) (fmt : string)
    (args : list arg) : M world unit :=
  emit (Log logger lvl fmt args).
Definition call (callee : string) (args : list arg) : M world unit :=
  emit (Call callee args).

(** [QTimer.singleShot(0, cb)]. *)
Definition singleShot (cb : callback) : M world unit :=
  modify (set_timers (fun q => q ++ [cb])).

(** [signal.signal(signum, handler)]. *)
Definition signal_signal (signum : Z) (h : sighandler) : M world unit :=
  modify (set_sighandlers (insert signum h)).

(** [sys.exit(code)]. *)
Definition sys_exit {A} (code : Z) : M world A := fun w => (Exit code, w).

(** [os.path.exists], [open(path, 'r', encoding='ascii').read()],
    [open(path, 'w', encoding='ascii')] and [os.remove] on the files of the
    process, which hold ASCII text. *)
Definition os_path_exists (path : string) : M world bool :=
  gets (fun w => bool_decide (is_Some (files w !! path))).

Definition read_text (path : string) : M world string :=
  fun w => match files w !! path with
           | Some data => (Ret data, w)
           | None => (Exc FileNotFoundError, w)
           end.

Definition open_w (path : string) : M world file :=
  modify (set_files (insert path ""));;
  mret (File path false).

Definition os_remove (e : env) (path : string) : M world unit :=
  fun w => match files w !! path with
           | None => (Exc FileNotFoundError, w)
           | Some _ =>
               if remove_permitted e path
               then (Ret tt, set_files (delete path) w)
               else (Exc PermissionError, w)
           end.

(** ** [qutebrowser.utils.objreg] *)

Module objreg.

(** Modelled from the spec: [objreg.get(name)] is absent from the sources
    at hand; it returns the handle registered under [name] in the global
    scope or fails with the not-found error, a [KeyError]. *)
Definition get (name : string) : M world obj :=
  fun w => match registry w !! name with
           | Some o => (Ret o, w)
           | None => (Exc (KeyError name), w)
           end.

(** Modelled from the spec: [objreg.get(name, None)], the non-failing variant
    of the absent [objreg.get] that returns an optional result. *)
Definition get_default (name : string) : M world (option obj) :=
  gets (fun w => registry w !! name).

(** Modelled from the spec: the absent [objreg.clear()] removes all entries
    of the global scope. *)
Definition clear : M world unit := modify (set_registry (fun _ => ∅)).

(** Modelled from the spec: the absent [objreg.register(name, obj)] stores
    the handle under [name] in the global scope; by default a key that
    exists is overwritten, which is logged as a warning.  The wording of
    the warning is not in the sources at hand. *)
Definition register (name : string) (o : obj) : M world unit :=
  existing ← get_default name;
  when (bool_decide (is_Some existing))
    (log "objreg" WARNING "Overwriting {}" [AStr name]);;
  modify (set_registry (insert name o)).

End objreg.

(** Attribute access on registry objects; an object of another class has no
    such attribute. *)
Definition attr_save (o : obj) : M world (result unit) :=
  match o with
  | Saveable s | StateConfig _ s => mret s
  | _ => raise AttributeError
  end.

Definition attr_downloads (o : obj) : M world (list download) :=
  match o with
  | DownloadManager ds => mret ds
  | _ => raise AttributeError
  end.

Definition attr_history (o : obj) : M world (list string) :=
  match o with
  | StatusCommand h => mret h
  | _ => raise AttributeError
  end.

Definition attr_widgets (o : obj) : M world (list tab) :=
  match o with
  | TabbedBrowser ts => mret ts
  | _ => raise AttributeError
  end.

(** ** [qutebrowser/models/downloadmodel.py] *)

Module downloadmodel.

Record QModelIndex : Type := {
  isValid : bool;
  row : Z;
  column : Z;
}.

(** The default argument [QModelIndex()]: the invalid index. *)
Definition QModelIndex_default : QModelIndex :=
  {| isValid := false; row := (-1)%Z; column := (-1)%Z |}.

(** The values of [Qt.ItemFlag]. *)
Definition ItemIsSelectable : Z := 1.
Definition ItemIsEditable : Z := 2.
Definition ItemIsEnabled : Z := 32.

(** [DownloadModel.flags]. *)
Definition flags (_index : QModelIndex) : M world Z :=
  mret ItemIsEnabled.

(** [DownloadModel.rowCount]. *)
Definition rowCount (parent : QModelIndex) : M world Z :=
  if isValid parent then
    (* We don't have children *)
    mret 0%Z
  else
    try_except_else (objreg.get "download-manager")
      [(is_KeyError, fun _ => mret 0%Z)]
      (fun download_manager =>
         downloads ← attr_downloads download_manager;
         mret (Z.of_nat (length downloads))).

(** *** The rest of the model class *)

(** The values of [Qt.ItemDataRole] and [Qt.Orientation] that the model
    tests for. *)
Definition DisplayRole : Z := 0.
Definition BackgroundRole : Z := 8.
Definition ForegroundRole : Z := 9.
Definition UserRole : Z := 256.
Definition Horizontal : Z := 1.

(** [Role = usertypes.enum('Role', ['item'], start=Qt.UserRole,
    is_int=True)]. *)
Definition Role_item : Z := UserRole.

(** What [data] returns: [QVariant()], a [str], a colour or the download
    item itself. *)
Inductive variant : Type :=
| QVariant_invalid
| VStr (s : string)
| VColor (c : string)
| VItem (item : download).

(** The colours that the view asks for: [config.get('colors',
    'downloads.fg')] and [item.bg_color()]. *)
Record colors : Type := {
  downloads_fg : string;
  bg_color : download -> string;
}.

(** [l[i]] on a Python list: a negative index counts from the end. *)
Inductive subscript (A : Type) : Type :=
| Item (a : A)
| IndexError.
Arguments Item {A} a.
Arguments IndexError {A}.

Definition getitem {A} (l : list A) (i : Z) : subscript A :=
  let n := Z.of_nat (length l) in
  let j := if (i <? 0)%Z then (i + n)%Z else i in
  if (0 <=? j)%Z && (j <? n)%Z then
    match nth_error l (Z.to_nat j) with
    | Some a => Item a
    | None => IndexError
    end
  else IndexError.

(** Modelled from the spec: [qtutils.ensure_valid] is absent from the
    sources at hand; it checks the validity of an index before any row
    access and raises (a [ValueError]) for an invalid one. *)
Definition ensure_valid (index : QModelIndex) : M world unit :=
  if isValid index then mret tt else raise ValueError.

(** [QAbstractListModel.index(row, column)]: the index of a cell inside the
    model (one column, [rowCount()] rows), the invalid index otherwise. *)
Definition index (r c : Z) : M world QModelIndex :=
  n ← rowCount QModelIndex_default;
  if (0 <=? r)%Z && (r <? n)%Z && (c =? 0)%Z
  then mret {| isValid := true; row := r; column := c |}
  else mret QModelIndex_default.

(** [DownloadModel.__init__]: the five signals of the download manager are
    connected to the notifications of the model. *)
Definition __init__ : M world unit :=
  download_manager ← objreg.get "download-manager";
  match download_manager with
  | DownloadManager _ =>
      call "download_about_to_be_added.connect" [AStr "beginInsertRows"];;
      call "download_added.connect" [AStr "endInsertRows"];;
      call "download_about_to_be_finished.connect" [AStr "beginRemoveRows"];;
      call "download_finished.connect" [AStr "endRemoveRows"];;
      call "data_changed.connect" [AStr "on_data_changed"]
  | _ => raise AttributeError
  end.

(** [DownloadModel.on_data_changed]. *)
Definition on_data_changed (idx : Z) : M world unit :=
  model_idx ← index idx 0;
  ensure_valid model_idx;;
  call "dataChanged.emit" [AInt (row model_idx); AInt (row model_idx)].

(** [DownloadModel.last_index]. *)
Definition last_index : M world QModelIndex :=
  n ← rowCount QModelIndex_default;
  index (n - 1) 0.

(** [DownloadModel.headerData]. *)
Definition headerData (section orientation role : Z) : string :=
  if (section =? 0)%Z && (orientation =? Horizontal)%Z &&
     (role =? DisplayRole)%Z
  then "Downloads" else "".

(** [DownloadModel.data]; [parent] is [index.parent()].  The result is
    [IndexError] when the list subscript raises it. *)
Definition data (c : colors) (index parent : QModelIndex) (role : Z)
    : M world (subscript variant) :=
  ensure_valid index;;
  if isValid parent || negb (column index =? 0)%Z then
    mret (Item QVariant_invalid)
  else
    download_manager ← objreg.get "download-manager";
    downloads ← attr_downloads download_manager;
    match getitem downloads (row index) with
    | IndexError => mret IndexError
    | Item item =>
        if (role =? DisplayRole)%Z then mret (Item (VStr (download_str item)))
        else if (role =? ForegroundRole)%Z
        then mret (Item (VColor (downloads_fg c)))
        else if (role =? BackgroundRole)%Z
        then mret (Item (VColor (bg_color c item)))
        else if (role =? Role_item)%Z then mret (Item (VItem item))
        else mret (Item QVariant_invalid)
    end.

End downloadmodel.

(** ** [qutebrowser/widgets/mainwindow.py] *)

Module mainwindow.

Definition setWindowTitle (t : string) (self : main_window) : main_window :=
  {| windowTitle := t; geometry := geometry self |}.

Definition setGeometry (r : rect) (self : main_window) : main_window :=
  {| windowTitle := windowTitle self; geometry := Some r |}.

(** [MainWindow._set_default_geometry]. *)
Definition _set_default_geometry (self : main_window) : main_window :=
  setGeometry (QRect 50 50 800 600) self.

(** [state_config[section][key]]. *)
Definition getitem2 (o : obj) (section key : string) : M world string :=
  match o with
  | StateConfig sections _ =>
      match sections !! section with
      | None => raise (KeyError section)
      | Some sec =>
          match sec !! key with
          | None => raise (KeyError key)
          | Some v => mret v
          end
      end
  | _ => raise TypeError
  end.

(** The freshly constructed widget, before [__init__] has set anything. *)
Definition QWidget_new : main_window :=
  {| windowTitle := ""; geometry := None |}.

(** [MainWindow.__init__], up to the log record of the initial geometry.
    The composition of the sub-views that follows does not touch the
    geometry; it is recorded as one call.  [ok] is [None] while the local
    variable is unbound. *)
Definition __init__ (e : env) : M world main_window :=
  let self := setWindowTitle "qutebrowser" QWidget_new in
  state_config ← objreg.get "state-config";
  self ← try_except_else
    (data ← getitem2 state_config "geometry" "mainwindow";
     log "init" DEBUG "Restoring mainwindow from {}" [AStr data];;
     lift (b64decode e data))
    [(is_KeyError, fun _ =>
        (* First start *)
        mret (_set_default_geometry self));
     (is_BinasciiError, fun _ =>
        log "init" EXCEPTION "Error while reading geometry" [];;
        mret (_set_default_geometry self))]
    (fun geom =>
       '(ok, self) ← try_except
         (r ← lift (restoreGeometry e geom);
          match r with
          | Some g => mret (Some true, setGeometry g self)
          | None => mret (Some false, self)
          end)
         [(is_KeyError, fun _ =>
             log "init" EXCEPTION "Error while restoring geometry." [];;
             mret (None, _set_default_geometry self))];
       match ok with
       | None => raise (UnboundLocalError "ok")
       | Some ok =>
           if negb ok then
             log "init" WARNING "Error while restoring geometry." [];;
             mret (_set_default_geometry self)
           else mret self
       end);
  log "init" DEBUG "Initial mainwindow geometry: {}"
      [AGeometry (geometry self)];;
  call "MainWindow: compose sub-views" [];;
  mret self.

(** What [closeEvent] does with the event: [e.accept()] or [e.ignore()]. *)
Inductive close_event : Type := accepted | ignored.

(** Python's truth value of what [message.ask] returns: [True], [False], or
    [None] for a question that was not answered. *)
Definition confirmed (answer : option bool) : bool :=
  match answer with Some true => true | _ => false end.

(** [MainWindow.closeEvent]; [confirm_quit] is [config.get('ui',
    'confirm-quit')], [count] is [self._tabbed_browser.count()] and [answer]
    is what the user answers should [message.ask] be called. *)
Definition closeEvent (confirm_quit : string) (count : Z)
    (answer : option bool) : M world close_event :=
  if String.eqb confirm_quit "never" then mret accepted
  else if String.eqb confirm_quit "multiple-tabs" && (count <=? 1)%Z
  then mret accepted
  else
    call "message.ask"
      [AStr "Close {} {}?"; AInt count;
       AStr (if (count =? 1)%Z then "tab" else "tabs")];;
    if confirmed answer then mret accepted else mret ignored.

End mainwindow.

(** ** [qutebrowser/app.py] *)

Module app.

(** Modelled from the spec: [Prompter.shutdown()] is absent from the sources
    at hand; it reports whether a modal question prompt is currently active,
    and ends that question. *)
Definition prompter_shutdown (prompter : obj) : M world bool :=
  match prompter with
  | Prompter active =>
      modify (set_registry (insert "prompter" (Prompter false)));;
      mret active
  | _ => raise AttributeError
  end.

(** Modelled from the spec: [TabbedBrowser.shutdown()] is absent from the
    sources at hand; it closes all open tabs. *)
Definition tabbed_browser_shutdown (tabbed_browser : obj) : M world unit :=
  match tabbed_browser with
  | TabbedBrowser _ =>
      call "TabbedBrowser.shutdown" [];;
      modify (set_registry (insert "tabbed-browser" (TabbedBrowser [])))
  | _ => raise AttributeError
  end.

(** [Application.exit]. *)
Definition exit (status : Z) : M world unit :=
  log "destroy" DEBUG "Now calling QApplication::exit." [];;
  modify (set_exit_status (Some status)).

(** [QApplication.quit()], that is [exit(0)] of the C++ class. *)
Definition quit : M world unit := modify (set_exit_status (Some 0%Z)).

(** [Application._init_crashlogfile]. *)
Definition _init_crashlogfile (e : env) : M world unit :=
  let path := data_dir e in
  let logname := posixpath.join path "crash.log" in
  f ← open_w logname;
  modify (set_crashlogfile (Some f));;
  modify (set_faulthandler (fault_file (name f)));;
  when (sigusr1_traceback e)
    (* If available, we also want a traceback on SIGUSR1. *)
    (modify (set_faulthandler_signals (fun l => l ++ ["SIGUSR1"]))).

(** Python's truth value of a [str]. *)
Definition truthy (s : string) : bool := negb (String.eqb s "").

(** [Application._handle_segfault]. *)
Definition _handle_segfault (e : env) : M world unit :=
  let path := data_dir e in
  let logname := posixpath.join path "crash.log" in
  (* First check if an old logfile exists. *)
  ex ← os_path_exists logname;
  if ex : bool then
    data ← read_text logname;
    if truthy data then
      (* Crashlog exists and has data in it, so something crashed
         previously. *)
      try_except_else (os_remove e logname)
        [(is_PermissionError, fun _ =>
            log "init" WARNING "Could not remove crash log!" [])]
        (fun _ => _init_crashlogfile e);;
      modify (set_crashdlg (Some (FatalCrashDialog data)));;
      call "FatalCrashDialog.show" []
    else
      (* Crashlog exists but without data. *)
      log "init" WARNING
        "Empty crash log detected. This means either another instance is running (then ignore this warning) or the file is lying here because of some earlier crash (then delete {})."
        [AStr logname];;
      modify (set_crashlogfile None)
  else
    (* There's no log file, so we can use this to display crashes to the
       user on the next start. *)
    _init_crashlogfile e.

(** The loop of [_recover_pages] over the tabs; [pages] is the list built
    so far. *)
Fixpoint recover_loop (tabs : list tab) (pages : list string)
    : M world (list string) :=
  match tabs with
  | [] => mret pages
  | t :: rest =>
      pages ← try_except
        (url ← lift (cur_url_toString t);
         if truthy url then mret (pages ++ [url]) else mret pages)
        [(is_Exception, fun _ =>
            log "destroy" EXCEPTION "Error while recovering tab" [];;
            mret pages)];
      recover_loop rest pages
  end.

(** [Application._recover_pages]. *)
Definition _recover_pages : M world (list string) :=
  try_except_else (objreg.get "tabbed-browser")
    [(is_KeyError, fun _ => mret [])]
    (fun tabbed_browser =>
       tabs ← attr_widgets tabbed_browser;
       recover_loop tabs []).

(** [state_config.add_section(section)] on the registered state config. *)
Definition add_section (section : string) : M world unit :=
  o ← objreg.get "state-config";
  match o with
  | StateConfig sections save =>
      match sections !! section with
      | Some _ => raise (DuplicateSectionError section)
      | None =>
          modify (set_registry (insert "state-config"
                    (StateConfig (<[section := ∅]> sections) save)))
      end
  | _ => raise AttributeError
  end.

(** [state_config[section][key] = value] on the registered state config. *)
Definition setitem2 (section key value : string) : M world unit :=
  o ← objreg.get "state-config";
  match o with
  | StateConfig sections save =>
      match sections !! section with
      | None => raise (KeyError section)
      | Some sec =>
          modify (set_registry (insert "state-config"
                    (StateConfig (<[section := <[key := value]> sec]> sections)
                                 save)))
      end
  | _ => raise TypeError
  end.

(** [Application._save_geometry]. *)
Definition _save_geometry (e : env) : M world unit :=
  _ ← objreg.get "state-config";
  mw ← objreg.get "main-window";
  data ← match mw with
         | MainWindow w => mret (saveGeometry e w)
         | _ => raise AttributeError
         end;
  let geom := b64encode e data in
  try_except (add_section "geometry") [(is_DuplicateSectionError, pass)];;
  setitem2 "geometry" "mainwindow" geom.

(** [Application._destroy_crashlogfile]. *)
Definition _destroy_crashlogfile (e : env) : M world unit :=
  crashlogfile ← gets _crashlogfile;
  match crashlogfile with
  | None => mret tt
  | Some f =>
      (if sys_stderr_present e
       then modify (set_faulthandler fault_stderr)
       else modify (set_faulthandler fault_disabled));;
      modify (set_crashlogfile (Some (File (name f) true)));;
      try_except (os_remove e (name f))
        [(fun x => is_PermissionError x || is_FileNotFoundError x, fun _ =>
            log "destroy" EXCEPTION "Could not remove crash log!" [])]
  end.

(** The entries of [to_save] in [_shutdown].  The classes of the registry
    objects are outside the sources, so the [__qualname__] of a bound [save]
    is written with the registry key of its object. *)
Inductive handler : Type :=
| bound_save (qualname : string) (save : result unit)
      (* the bound method [o.save] of a registry object *)
| save_geometry                     (* self._save_geometry *)
| quickmarks_save_fn.               (* quickmarks.save *)

Definition qualname (h : handler) : string :=
  match h with
  | bound_save q _ => q
  | save_geometry => "Application._save_geometry"
  | quickmarks_save_fn => "quickmarks.save"
  end.

(** [handler()]; the call itself is recorded in the trace. *)
Definition run_handler (e : env) (h : handler) : M world unit :=
  call "handler" [AStr (qualname h)];;
  match h with
  | bound_save _ save => lift save
  | save_geometry => _save_geometry e
  | quickmarks_save_fn => lift (quickmarks_save e)
  end.

(** [to_save.append((what, o.save))] for the object registered as [key],
    when there is one. *)
Definition append_registered (key what qn : string)
    (to_save : list (string * handler)) : M world (list (string * handler)) :=
  try_except_else (objreg.get key)
    [(is_KeyError, fun _ => mret to_save)]
    (fun o => save ← attr_save o;
              mret (to_save ++ [(what, bound_save qn save)])).

(** The construction of [to_save] in [_shutdown]. *)
Definition build_to_save (e : env) (config_obj : obj)
    : M world (list (string * handler)) :=
  let to_save := [] in
  to_save ←
    (if auto_save_config e then
       save ← attr_save config_obj;
       let to_save := to_save ++ [("config", bound_save "config.save" save)] in
       append_registered "key-config" "keyconfig" "key-config.save" to_save
     else mret to_save);
  let to_save := to_save ++ [("window geometry", save_geometry);
                             ("quickmarks", quickmarks_save_fn)] in
  to_save ← append_registered "command-history" "command history"
              "command-history.save" to_save;
  to_save ← append_registered "state-config" "window geometry"
              "state-config.save" to_save;
  to_save ← append_registered "cookie-jar" "cookies" "cookie-jar.save" to_save;
  mret to_save.

(** The [for what, handler in to_save] loop of [_shutdown]. *)
Definition save_all (e : env) (to_save : list (string * handler))
    : M world unit :=
  for_each to_save (fun '(what, h) =>
    log "destroy" DEBUG "Saving {} (handler: {})" [AStr what; AStr (qualname h)];;
    try_except (run_handler e h)
      [(is_AttributeError, fun _ =>
          log "destroy" WARNING "Could not save {}." [AStr what];;
          log "destroy" DEBUG "{}" [AStr "AttributeError"])]).

(** The [# Save everything] part of [_shutdown]. *)
Definition save_everything (e : env) : M world unit :=
  try_except_else (objreg.get "config")
    [(is_KeyError, fun _ =>
        log "destroy" DEBUG
          "Config not initialized yet, so not saving anything." [])]
    (fun config_obj =>
       to_save ← build_to_save e config_obj;
       save_all e to_save).

(** [Application._shutdown]: second stage of shutdown. *)
Definition _shutdown (e : env) (status : Z) : M world unit :=
  log "destroy" DEBUG "Stage 2 of shutting down..." [];;
  when (args_debug_exit e)
    (call "print" [AStr "Now logging shutdown."];;
     call "debug.trace_lines" [];;
     call "gc.set_debug" []);;
  (* Remove eventfilter *)
  try_except
    (log "destroy" DEBUG "Removing eventfilter..." [];;
     _ ← objreg.get "mode-manager";
     call "removeEventFilter" [AStr "mode-manager"])
    [(is_KeyError, pass)];;
  (* Close all tabs *)
  try_except
    (log "destroy" DEBUG "Closing tabs..." [];;
     tabbed_browser ← objreg.get "tabbed-browser";
     tabbed_browser_shutdown tabbed_browser)
    [(is_KeyError, pass)];;
  (* Save everything *)
  save_everything e;;
  (* Re-enable faulthandler to stdout, then remove crash log *)
  log "destroy" DEBUG "Deactiving crash log..." [];;
  _destroy_crashlogfile e;;
  (* If we don't kill our custom handler here we might get segfaults *)
  log "destroy" DEBUG "Deactiving message handler..." [];;
  modify (set_message_handler false);;
  log "destroy" DEBUG "Cleaning up object registry..." [];;
  objreg.clear;;
  (* Now we can hopefully quit without segfaults *)
  log "destroy" DEBUG "Deferring QApplication::exit..." [];;
  singleShot (CbExit status).

(** [Application.shutdown]: first stage of shutdown. *)
Definition shutdown (e : env) (status : Z) : M world unit :=
  shutting_down ← gets _shutting_down;
  if shutting_down : bool then mret tt
  else
    modify (set_shutting_down true);;
    log "destroy" DEBUG "Shutting down with status {}..." [AInt status];;
    prompter ← objreg.get_default "prompter";
    active ← match prompter with
             | None => mret false
             | Some p => prompter_shutdown p
             end;
    if active : bool then
      log "destroy" DEBUG
        "Deferring real shutdown because question was active." [];;
      singleShot (CbStage2 status)
    else
      _shutdown e status.

(** The [for tab in ...widgets()] loop of [restart]. *)
Fixpoint restart_pages (tabs : list tab) (pages : list string)
    : M world (list string) :=
  match tabs with
  | [] => mret pages
  | t :: rest =>
      urlstr ← lift (cur_url_toString t);
      restart_pages rest (if truthy urlstr then pages ++ [urlstr] else pages)
  end.

(** [arg.startswith('-')]. *)
Definition is_option (a : string) : bool := String.prefix "-" a.

(** The launch vector and working directory that [restart] re-derives from
    how the process was started. *)
Definition launch (e : env) : list string * option string :=
  if String.eqb (posixpath.basename (sys_argv0 e)) "qutebrowser" then
    (* Launched via launcher script *)
    ([sys_argv0 e], None)
  else if sys_frozen e then
    ([sys_executable e],
     Some (posixpath.abspath (getcwd e)
             (posixpath.dirname (sys_executable e))))
  else
    ([sys_executable e; "-m"; "qutebrowser"],
     Some (posixpath.join
             (posixpath.abspath (getcwd e)
                (posixpath.dirname (qutebrowser_file e)))
             "..")).

(** The argument vector that [restart] builds. *)
Definition restart_args (e : env) (pages : list string) : list string :=
  let args := fst (launch e) in
  (* We only want to preserve options on a restart. *)
  let args := args ++ List.filter is_option (sys_argv_tail e) in
  (* Add all open pages so they get reopened. *)
  args ++ pages.

(** [subprocess.Popen(args)] and [subprocess.Popen(args, cwd=cwd)]. *)
Definition Popen (args : list string) (cwd : option string) : M world unit :=
  modify (set_children (fun c => c ++ [(args, cwd)])).

(** [Application.restart]. *)
Definition restart (e : env) (do_shutdown : bool)
    (pages : option (list string)) : M world unit :=
  pages ← match pages with
          | Some pages => mret pages
          | None =>
              tabbed_browser ← objreg.get "tabbed-browser";
              tabs ← attr_widgets tabbed_browser;
              restart_pages tabs []
          end;
  log "destroy" DEBUG "sys.executable: {}" [AStr (sys_executable e)];;
  log "destroy" DEBUG "sys.path: {}" [];;
  log "destroy" DEBUG "sys.argv: {}" [AList (sys_argv e)];;
  log "destroy" DEBUG "frozen: {}" [AStr (if sys_frozen e then "True" else "False")];;
  let args := restart_args e pages in
  let cwd := snd (launch e) in
  log "destroy" DEBUG "args: {}" [AList args];;
  log "destroy" DEBUG "cwd: {}" [match cwd with Some d => AStr d | None => ANone end];;
  (* Open a new process and immediately shutdown the existing one *)
  Popen args cwd;;
  when do_shutdown (shutdown e 0).

(** [exctype is bdb.BdbQuit or not issubclass(exctype, Exception)]. *)
Definition benign (exctype : exc_class) : bool :=
  match exctype with
  | BdbQuit => true
  | BaseExceptionOnly _ => true
  | ExceptionClass _ => false
  end.

(** [l[-5:]]. *)
Definition last5 {A} (l : list A) : list A := skipn (length l - 5) l.

(** [self.lastWindowClosed.disconnect(self.shutdown)]. *)
Definition disconnect_lastWindowClosed : M world unit :=
  connected ← gets lastWindowClosed_connected;
  if connected : bool then modify (set_lastWindowClosed_connected false)
  else raise TypeError.

(** [Application._exception_hook]. *)
Definition _exception_hook (e : env) (exctype : exc_class) : M world unit :=
  if benign exctype then
    (* pdb exit, KeyboardInterrupt, ... *)
    try_except (shutdown e 0)
      [(is_Exception, fun _ =>
          log "init" EXCEPTION "Error while shutting down" [];;
          quit)]
  else
    call "sys.__excepthook__" [];;
    modify (set_quit_status (fun q =>
      {| qs_crash := false; qs_tabs := qs_tabs q; qs_main := qs_main q |}));;
    pages ← try_except _recover_pages
      [(is_Exception, fun _ =>
          log "destroy" EXCEPTION "Error while recovering pages" [];;
          mret [])];
    history ← try_except
      (o ← objreg.get "status-command";
       h ← attr_history o;
       mret (last5 h))
      [(is_Exception, fun _ =>
          log "destroy" EXCEPTION "Error while getting history: {}" [];;
          mret [])];
    objects ← try_except (lift (all_objects e))
      [(is_Exception, fun _ =>
          log "destroy" EXCEPTION "Error while getting objects" [];;
          mret "")];
    try_except disconnect_lastWindowClosed
      [(is_TypeError, fun _ =>
          log "destroy" EXCEPTION "Error while preventing shutdown" [])];;
    call "QApplication.closeAllWindows" [];;
    modify (set_crashdlg
              (Some (ExceptionCrashDialog pages history exctype objects)));;
    call "ExceptionCrashDialog.exec_" [];;
    let ret := crashdlg_exec e in
    when (match ret with Accepted => true | Rejected => false end)
      (* restore *)
      (restart e false (Some pages));;
    (* We might risk a segfault here, but that's better than continuing to
       run in some undefined state, so we only do the most needed shutdown
       here. *)
    modify (set_message_handler false);;
    _destroy_crashlogfile e;;
    sys_exit 1.

(** [Application.interrupt]. *)
Definition interrupt (signum : Z) : M world unit :=
  log "destroy" INFO "SIGINT/SIGTERM received, shutting down!" [];;
  log "destroy" INFO "Do the same again to forcefully quit." [];;
  signal_signal SIGINT interrupt_forcefully_handler;;
  signal_signal SIGTERM interrupt_forcefully_handler;;
  (* If we call shutdown directly here, we get a segfault. *)
  singleShot (CbShutdown (128 + signum)).

(** [Application.interrupt_forcefully]. *)
Definition interrupt_forcefully (signum : Z) : M world unit :=
  log "destroy" INFO "Forceful quit requested, goodbye cruel world!" [];;
  log "destroy" INFO "Do the same again to quit with even more force." [];;
  signal_signal SIGINT interrupt_really_forcefully_handler;;
  signal_signal SIGTERM interrupt_really_forcefully_handler;;
  singleShot (CbExit (128 + signum)).

(** [Application.interrupt_really_forcefully]. *)
Definition interrupt_really_forcefully (signum : Z) : M world unit :=
  log "destroy" INFO "WHY ARE YOU DOING THIS TO ME? :(" [];;
  sys_exit (128 + signum).

(** [Application._python_hacks]. *)
Definition _python_hacks : M world unit :=
  signal_signal SIGINT interrupt_handler;;
  signal_signal SIGTERM interrupt_handler;;
  call "usertypes.Timer" [AStr "python_hacks"];;
  call "timer.start" [AInt 500];;
  call "timer.timeout.connect" [];;
  objreg.register "python-hack-timer" (Opaque "python_hacks").

(** *** The object listing of the crash report *)

(** ['\n']. *)
Definition nl : string := String (ascii_of_nat 10) EmptyString.

(** ['    ' * depth]. *)
Fixpoint indent (depth : nat) : string :=
  match depth with
  | O => ""
  | S depth => ("    " ++ indent depth)%string
  end.

(** ['{}'.format(n)] for [n = len(...)]. *)
Definition format_len {A} (l : list A) : string :=
  NilZero.string_of_uint (Nat.to_uint (length l)).

(** [sorted(l, key=key)] for a key that is a [str]: Python compares strings
    by code point and its sort is stable. *)
Fixpoint insert_sorted {A} (key : A -> string) (x : A) (l : list A)
    : list A :=
  match l with
  | [] => [x]
  | y :: rest =>
      if String.leb (key x) (key y) then x :: y :: rest
      else y :: insert_sorted key x rest
  end.

Fixpoint sorted {A} (key : A -> string) (l : list A) : list A :=
  match l with
  | [] => []
  | x :: rest => insert_sorted key x (sorted key rest)
  end.

(** [Application._get_widgets]; a widget is seen through its [repr], and
    [allWidgets] is what [self.allWidgets()] returns. *)
Definition _get_widgets (allWidgets : list string) : list string :=
  let widgets := sorted (fun e => e) allWidgets in
  map (fun w => w) widgets.

(** A [QObject]: its [repr] and its children. *)
#[warnings="-register-all"] Inductive qobject : Type :=
| QObject (qrepr : string) (kids : list qobject).

Definition qrepr (o : qobject) : string :=
  match o with QObject r _ => r end.

(** [obj.findChildren(QObject)] of Qt, whose default is to search
    recursively: all descendants of [obj], each before its own
    descendants. *)
Fixpoint findChildren (obj : qobject) : list qobject :=
  match obj with
  | QObject _ ks =>
      (fix children_of (ks : list qobject) : list qobject :=
         match ks with
         | [] => []
         | k :: rest => k :: findChildren k ++ children_of rest
         end) ks
  end.

(** [Application._get_pyqt_objects]; the result is the list [lines] after
    the call.  [limit] is how deep the calls of the method may nest before
    the interpreter reaches its recursion limit: [None] is the
    [RecursionError] of a call nested deeper than that. *)
Fixpoint _get_pyqt_objects (limit : nat) (lines : list string)
    (obj : qobject) (depth : nat) : option (list string) :=
  match limit with
  | O => None
  | S limit =>
      fold_left
        (fun lines kid =>
           match lines with
           | None => None
           | Some lines =>
               let lines := lines ++ [(indent depth ++ qrepr kid)%string] in
               _get_pyqt_objects limit lines kid (depth + 1)
           end)
        (findChildren obj) (Some lines)
  end.

(** [Application._get_registered_objects]; [meta_registry] is
    [objreg.meta_registry.items()] with each registry as what its
    [dump_objects()] returns. *)
Definition _get_registered_objects
    (meta_registry : list (string * list string)) : list string :=
  let blocks := map (fun '(name, registry) => (name, registry)) meta_registry in
  fold_left
    (fun lines '(name, data) =>
       let lines := lines ++ [""] in
       let lines := lines ++ [(name ++ " object registry - " ++
                               format_len data ++ " objects:")%string] in
       fold_left (fun lines line => lines ++ [("    " ++ line)%string])
         data lines)
    (sorted fst blocks) [].

(** [Application.get_all_objects]. *)
Definition get_all_objects (limit : nat) (allWidgets : list string)
    (self : qobject) (meta_registry : list (string * list string))
    : option string :=
  let output := [""] in
  let widget_lines := _get_widgets allWidgets in
  let widget_lines := map (fun e => ("    " ++ e)%string) widget_lines in
  let widget_lines :=
    ("Qt widgets - " ++ format_len widget_lines ++ " objects")%string
    :: widget_lines in
  let output := output ++ widget_lines in
  match _get_pyqt_objects limit [] self 0 with
  | None => None
  | Some pyqt_lines =>
      let pyqt_lines := map (fun e => ("    " ++ e)%string) pyqt_lines in
      let pyqt_lines :=
        ("Qt objects - " ++ format_len pyqt_lines ++ " objects:")%string
        :: pyqt_lines in
      let output := output ++ pyqt_lines in
      let output := output ++ [""] in
      let output := output ++ _get_registered_objects meta_registry in
      Some (String.concat nl output)
  end.

(** *** The run loop and signal delivery *)

(** Calling what was handed to [QTimer.singleShot]. *)
Definition run_callback (e : env) (cb : callback) : M world unit :=
  match cb with
  | CbShutdown status => shutdown e status
  | CbStage2 status => _shutdown e status
  | CbExit status => exit status
  end.

(** The interpreter delivers signal [signum] to the installed handler. *)
Definition deliver (signum : Z) : M world unit :=
  h ← gets (fun w => sighandlers w !! signum);
  match h with
  | None => mret tt
  | Some interrupt_handler => interrupt signum
  | Some interrupt_forcefully_handler => interrupt_forcefully signum
  | Some interrupt_really_forcefully_handler =>
      interrupt_really_forcefully signum
  end.

(** One iteration of the run loop: the oldest pending zero-delay timer
    fires.  Nothing fires once [QApplication::exit] has made the loop
    return. *)
Definition tick (e : env) : M world unit :=
  w ← get;
  match exit_status w, timers w with
  | None, cb :: rest =>
      modify (set_timers (fun _ => rest));;
      run_callback e cb
  | _, _ => mret tt
  end.

(** What can happen to the running application, as far as shutdown is
    concerned: something calls the [shutdown] slot, the run loop iterates,
    a signal is delivered, or an exception reaches [sys.excepthook]. *)
Inductive action : Type :=
| CallShutdown (status : Z)
| Tick
| Signal (signum : Z)
| Uncaught (exctype : exc_class).

Definition step (e : env) (a : action) (w : world) : world :=
  match a with
  | CallShutdown status => snd (shutdown e status w)
  | Tick => snd (tick e w)
  | Signal signum => snd (deliver signum w)
  | Uncaught exctype => snd (_exception_hook e exctype w)
  end.

Definition run (e : env) (acts : list action) (w : world) : world :=
  fold_left (fun w a => step e a w) acts w.

(** How often Stage 2 has been entered: the records of its first log
    line. *)
Definition is_stage2_record (ev : event) : bool :=
  match ev with
  | Log "destroy" DEBUG "Stage 2 of shutting down..." [] => true
  | _ => false
  end.

Definition stage2_runs (w : world) : nat :=
  length (List.filter is_stage2_record (trace w)).

Definition is_CbStage2 (cb : callback) : bool :=
  match cb with CbStage2 _ => true | _ => false end.

(** Deferred Stage-2 calls still waiting in the run loop. *)
Definition stage2_pending (w : world) : nat :=
  length (List.filter is_CbStage2 (timers w)).

End app.

(** ** Sample processes *)

Module sample.

(** The state that [Application.__init__] starts from: its attribute
    defaults, nothing registered, nothing scheduled. *)
Definition fresh : world :=
  {| _quit_status := {| qs_crash := true; qs_tabs := false; qs_main := false |};
     _shutting_down := false;
     _crashdlg := None;
     _crashlogfile := None;
     lastWindowClosed_connected := false;
     message_handler := true;
     timers := [];
     exit_status := None;
     registry := ∅;
     sighandlers := ∅;
     faulthandler := fault_stderr;
     faulthandler_signals := [];
     files := ∅;
     children := [];
     trace := [] |}.

(** A base64 codec stand-in for the samples: it knows one blob. *)
Definition blob : list byte := [x01; x02; x03].
Definition sample_b64encode (_ : list byte) : string := "AQID".
Definition sample_b64decode (s : string) : result (list byte) :=
  if String.eqb s "AQID" then Ok blob else Err BinasciiError.

(** A process started by the interpreter from a script named [prog] in a
    source checkout: [python3 prog --debug]. *)
Definition module_env : env :=
  {| sys_argv0 := "prog";
     sys_argv_tail := ["--debug"];
     sys_executable := "/usr/bin/python3";
     sys_frozen := false;
     sys_stderr_present := true;
     qutebrowser_file := "/home/user/src/qutebrowser/__init__.py";
     getcwd := "/home/user";
     data_dir := "/home/user/.local/share/qutebrowser";
     remove_permitted := fun _ => true;
     sigusr1_traceback := true;
     args_debug_exit := false;
     auto_save_config := true;
     quickmarks_save := Ok tt;
     all_objects := Ok "";
     crashdlg_exec := Rejected;
     b64encode := sample_b64encode;
     b64decode := sample_b64decode;
     saveGeometry := fun _ => blob;
     restoreGeometry := fun _ => Ok (Some (QRect 0 0 1024 768)) |}.

(** The same process started in another way. *)
Definition started_as (argv0 executable : string) (frozen : bool) (e : env)
    : env :=
  {| sys_argv0 := argv0;
     sys_argv_tail := sys_argv_tail e;
     sys_executable := executable;
     sys_frozen := frozen;
     sys_stderr_present := sys_stderr_present e;
     qutebrowser_file := qutebrowser_file e;
     getcwd := getcwd e;
     data_dir := data_dir e;
     remove_permitted := remove_permitted e;
     sigusr1_traceback := sigusr1_traceback e;
     args_debug_exit := args_debug_exit e;
     auto_save_config := auto_save_config e;
     quickmarks_save := quickmarks_save e;
     all_objects := all_objects e;
     crashdlg_exec := crashdlg_exec e;
     b64encode := b64encode e;
     b64decode := b64decode e;
     saveGeometry := saveGeometry e;
     restoreGeometry := restoreGeometry e |}.

(** The same process where [os.remove] is refused everywhere. *)
Definition readonly (e : env) : env :=
  {| sys_argv0 := sys_argv0 e;
     sys_argv_tail := sys_argv_tail e;
     sys_executable := sys_executable e;
     sys_frozen := sys_frozen e;
     sys_stderr_present := sys_stderr_present e;
     qutebrowser_file := qutebrowser_file e;
     getcwd := getcwd e;
     data_dir := data_dir e;
     remove_permitted := fun _ => false;
     sigusr1_traceback := sigusr1_traceback e;
     args_debug_exit := args_debug_exit e;
     auto_save_config := auto_save_config e;
     quickmarks_save := quickmarks_save e;
     all_objects := all_objects e;
     crashdlg_exec := crashdlg_exec e;
     b64encode := b64encode e;
     b64decode := b64decode e;
     saveGeometry := saveGeometry e;
     restoreGeometry := restoreGeometry e |}.

(** The same process with a user who gives [answer] in the crash dialog. *)
Definition answering (answer : dialog_code) (e : env) : env :=
  {| sys_argv0 := sys_argv0 e;
     sys_argv_tail := sys_argv_tail e;
     sys_executable := sys_executable e;
     sys_frozen := sys_frozen e;
     sys_stderr_present := sys_stderr_present e;
     qutebrowser_file := qutebrowser_file e;
     getcwd := getcwd e;
     data_dir := data_dir e;
     remove_permitted := remove_permitted e;
     sigusr1_traceback := sigusr1_traceback e;
     args_debug_exit := args_debug_exit e;
     auto_save_config := auto_save_config e;
     quickmarks_save := quickmarks_save e;
     all_objects := all_objects e;
     crashdlg_exec := answer;
     b64encode := b64encode e;
     b64decode := b64decode e;
     saveGeometry := saveGeometry e;
     restoreGeometry := restoreGeometry e |}.

(** The same process with a Qt whose [restoreGeometry] answers [r]. *)
Definition restoring (r : result (option rect)) (e : env) : env :=
  {| sys_argv0 := sys_argv0 e;
     sys_argv_tail := sys_argv_tail e;
     sys_executable := sys_executable e;
     sys_frozen := sys_frozen e;
     sys_stderr_present := sys_stderr_present e;
     qutebrowser_file := qutebrowser_file e;
     getcwd := getcwd e;
     data_dir := data_dir e;
     remove_permitted := remove_permitted e;
     sigusr1_traceback := sigusr1_traceback e;
     args_debug_exit := args_debug_exit e;
     auto_save_config := auto_save_config e;
     quickmarks_save := quickmarks_save e;
     all_objects := all_objects e;
     crashdlg_exec := crashdlg_exec e;
     b64encode := b64encode e;
     b64decode := b64decode e;
     saveGeometry := saveGeometry e;
     restoreGeometry := fun _ => r |}.

(** The same process with a [base64.b64decode] that answers [r]. *)
Definition decoding (r : result (list byte)) (e : env) : env :=
  {| sys_argv0 := sys_argv0 e;
     sys_argv_tail := sys_argv_tail e;
     sys_executable := sys_executable e;
     sys_frozen := sys_frozen e;
     sys_stderr_present := sys_stderr_present e;
     qutebrowser_file := qutebrowser_file e;
     getcwd := getcwd e;
     data_dir := data_dir e;
     remove_permitted := remove_permitted e;
     sigusr1_traceback := sigusr1_traceback e;
     args_debug_exit := args_debug_exit e;
     auto_save_config := auto_save_config e;
     quickmarks_save := quickmarks_save e;
     all_objects := all_objects e;
     crashdlg_exec := crashdlg_exec e;
     b64encode := b64encode e;
     b64decode := fun _ => r;
     saveGeometry := saveGeometry e;
     restoreGeometry := restoreGeometry e |}.

Definition registered (key : string) (o : obj) (w : world) : world :=
  set_registry (insert key o) w.

Definition with_downloads (ds : list download) (w : world) : world :=
  registered "download-manager" (DownloadManager ds) w.

Definition with_marker (data : string) (w : world) : world :=
  set_files (insert "/home/user/.local/share/qutebrowser/crash.log" data) w.


(** The signal handlers as [_python_hacks] installs them. *)
Definition signals_installed (w : world) : world :=
  set_sighandlers (insert SIGTERM interrupt_handler)
    (set_sighandlers (insert SIGINT interrupt_handler) w).

End sample.

(** * Properties *)

Import downloadmodel mainwindow app.

(** ** Vocabulary of the statements *)

(** The path of the crash marker. *)
Definition crash_logname (e : env) : string :=
  posixpath.join (data_dir e) "crash.log".

(** [preserves I m]: running [m] from a state in [I] ends in a state in
    [I], whether [m] returns, raises or exits. *)
Definition preserves {A} (I : world -> Prop) (m : M world A) : Prop :=
  forall w, I w -> I (snd (m w)).

(** The crash marker, and the fault capture of this process, are as in [w0],
    and the process holds no handle on the marker. *)
Definition marker_untouched (w0 : world) (w : world) : Prop :=
  files w = files w0 /\ faulthandler w = faulthandler w0 /\
  faulthandler_signals w = faulthandler_signals w0 /\
  _crashlogfile w = None.

(** Unfolding the monad and the primitive effects. *)
Create HintDb py.
#[export] Hint Unfold mbind mret M_bind M_ret bind ret raise get gets modify
  lift when try_except try_except_else pass emit log call singleShot
  signal_signal sys_exit os_path_exists read_text open_w os_remove
  objreg.get objreg.get_default objreg.clear : py.

Ltac py_unfold := autounfold with py in *.

(** Unfolding the notations and the primitive effects down to [bind] and
    [modify]. *)
Ltac frame_unfold :=
  cbv beta delta [mbind mret M_bind M_ret pass emit log call singleShot
                  signal_signal objreg.clear objreg.get_default Popen
                  app.exit quit].

(** The child processes spawned so far are [c]. *)
Definition children_are (c : list (list string * option string)) (w : world)
    : Prop := children w = c.

(** How the code logs a failure: a record of level [WARNING] or
    [EXCEPTION]. *)
Definition is_failure_record (ev : event) : bool :=
  match ev with
  | Log _ WARNING _ _ | Log _ EXCEPTION _ _ => true
  | _ => false
  end.

Definition failures (t : list event) : list event :=
  List.filter is_failure_record t.

(** The persisted geometry entry [state_config['geometry']['mainwindow']],
    when there is one. *)
Definition geometry_entry (sections : gmap string (gmap string string))
    : option string :=
  sec ← sections !! "geometry"; sec !! "mainwindow".

(** The fixed default rectangle. *)
Definition default_rect : rect := QRect 50 50 800 600.

(** The save handlers that the loop of [_shutdown] has called, by
    [__qualname__], oldest first. *)
Definition handler_call (ev : event) : option string :=
  match ev with
  | Call "handler" [AStr q] => Some q
  | _ => None
  end.

Definition handler_calls (t : list event) : list string :=
  omap handler_call t.

(** The pages that can be recovered from the open tabs: the non-empty URLs
    of the tabs whose URL can be read. *)
Definition recoverable_url (t : tab) : option string :=
  match cur_url_toString t with
  | Ok url => if truthy url then Some url else None
  | Err _ => None
  end.

Definition recovered (reg : gmap string obj) : list string :=
  match reg !! "tabbed-browser" with
  | Some (TabbedBrowser tabs) => omap recoverable_url tabs
  | _ => []
  end.

(** [logged l w]: the state [w] with the events [l] added to its trace. *)
Definition logged (l : list event) (w : world) : world :=
  set_trace (fun t => t ++ l) w.

(** Events that are neither the call of a save handler nor the record of
    Stage 2 beginning. *)
Definition quiet (l : list event) : Prop :=
  handler_calls l = [] /\ List.filter is_stage2_record l = [].

(** The crash marker as the process sees it: the files, where fault capture
    writes and the handle. *)
Definition marker_of (w : world)
    : gmap string string * fault_target * option file :=
  (files w, faulthandler w, _crashlogfile w).

(** No part of the graceful shutdown has run between [w0] and [w]: the
    latch, the run loop, the registry and the record of Stage 2 and of its
    save handlers are as they were. *)
Definition graceful_shutdown_not_run (w0 w : world) : Prop :=
  _shutting_down w = _shutting_down w0 /\
  timers w = timers w0 /\
  exit_status w = exit_status w0 /\
  registry w = registry w0 /\
  stage2_runs w = stage2_runs w0 /\
  handler_calls (trace w) = handler_calls (trace w0).

(** Stage 2 has been entered [n] times, [k] deferred Stage-2 calls wait in
    the run loop and the latch is [b]. *)
Definition stage2_state (n k : nat) (b : bool) (w : world) : Prop :=
  stage2_runs w = n /\ stage2_pending w = k /\ _shutting_down w = b.

(** The invariant of the shutdown latch: Stage 2 has run or is scheduled at
    most once, and not at all while the latch is open. *)
Definition latch_invariant (w : world) : Prop :=
  (_shutting_down w = false -> stage2_runs w = 0 /\ stage2_pending w = 0) /\
  stage2_runs w + stage2_pending w <= 1.

(** What [o.save()] does, for a registry object that has a [save]. *)
Definition save_of (o : obj) : option (result unit) :=
  match o with
  | Saveable s | StateConfig _ s => Some s
  | _ => None
  end.

(** A save that returns, or raises [AttributeError]. *)
Definition tolerated (s : result unit) : bool :=
  match s with
  | Ok _ | Err AttributeError => true
  | Err _ => false
  end.

(** Under [key] there is nothing, or an object whose [save] is tolerated. *)
Definition tolerated_at (reg : gmap string obj) (key : string) : bool :=
  match reg !! key with
  | None => true
  | Some o => match save_of o with
              | Some s => tolerated s
              | None => false
              end
  end.

(** [_save_geometry] finds what it needs: a state config and a main
    window. *)
Definition geometry_ready (reg : gmap string obj) : bool :=
  match reg !! "state-config", reg !! "main-window" with
  | Some (StateConfig _ _), Some (MainWindow _) => true
  | _, _ => false
  end.

(** No save handler raises anything but [AttributeError]. *)
Definition saves_tolerable (e : env) (reg : gmap string obj) : bool :=
  tolerated (quickmarks_save e) &&
  tolerated_at reg "config" && tolerated_at reg "key-config" &&
  tolerated_at reg "command-history" && tolerated_at reg "state-config" &&
  tolerated_at reg "cookie-jar" &&
  (geometry_ready reg || bool_decide (reg !! "config" = None)).

(** The tabbed browser, when registered, is one. *)
Definition tabs_closable (reg : gmap string obj) : bool :=
  match reg !! "tabbed-browser" with
  | None | Some (TabbedBrowser _) => true
  | Some _ => false
  end.

(** The entry of [to_save] for the object registered as [key]. *)
Definition registered_save (reg : gmap string obj) (key what qn : string)
    : list (string * handler) :=
  match reg !! key with
  | Some o => match save_of o with
              | Some s => [(what, bound_save qn s)]
              | None => []
              end
  | None => []
  end.

(** The list [to_save] for a registry with a config. *)
Definition to_save_list (e : env) (reg : gmap string obj)
    : list (string * handler) :=
  (if auto_save_config e
   then registered_save reg "config" "config" "config.save" ++
        registered_save reg "key-config" "keyconfig" "key-config.save"
   else []) ++
  [("window geometry", save_geometry); ("quickmarks", quickmarks_save_fn)] ++
  registered_save reg "command-history" "command history"
    "command-history.save" ++
  registered_save reg "state-config" "window geometry" "state-config.save" ++
  registered_save reg "cookie-jar" "cookies" "cookie-jar.save".

(** The handlers that Stage 2 has to call, by [__qualname__]. *)
Definition expected_saves (e : env) (reg : gmap string obj) : list string :=
  match reg !! "config" with
  | None => []
  | Some _ => map (fun p => qualname (snd p)) (to_save_list e reg)
  end.

(** Whether calling the handler raises (then [AttributeError], for a
    tolerated one). *)
Definition handler_fails (e : env) (h : handler) : bool :=
  match h with
  | bound_save _ (Err _) => true
  | bound_save _ (Ok _) => false
  | save_geometry => false
  | quickmarks_save_fn =>
      match quickmarks_save e with Err _ => true | Ok _ => false end
  end.

(** What the handlers that fail were to save. *)
Definition expected_failures (e : env) (reg : gmap string obj)
    : list string :=
  match reg !! "config" with
  | None => []
  | Some _ =>
      map fst (List.filter (fun p => handler_fails e (snd p))
                 (to_save_list e reg))
  end.

(** The [Could not save ...] warnings in a trace. *)
Definition could_not_save_record (ev : event) : option string :=
  match ev with
  | Log "destroy" WARNING "Could not save {}." [AStr what] => Some what
  | _ => None
  end.

Definition could_not_save (t : list event) : list string :=
  omap could_not_save_record t.

(** The handler does not raise anything but [AttributeError]. *)
Definition handler_tolerable (e : env) (h : handler) : bool :=
  match h with
  | bound_save _ s => tolerated s
  | save_geometry => true
  | quickmarks_save_fn => tolerated (quickmarks_save e)
  end.

(** A process in which saving the command history fails with an
    [OSError]. *)
Definition history_unwritable : world :=
  sample.registered "config" (Saveable (Ok tt))
    (sample.registered "state-config" (StateConfig ∅ (Ok tt))
       (sample.registered "main-window"
          (MainWindow {| windowTitle := "qutebrowser";
                         geometry := Some default_rect |})
          (sample.registered "command-history" (Saveable (Err OSError))
             (sample.registered "cookie-jar" (Saveable (Ok tt))
                sample.fresh)))).

(** The same process with a command history whose [save] is missing. *)
Definition history_uninitialised : world :=
  sample.registered "command-history" (Saveable (Err AttributeError))
    history_unwritable.

(** The run loop, the save handlers called and the save failures logged are
    [t], [c] and [f]. *)
Definition persistence_state (t : list callback) (c f : list string)
    (w : world) : Prop :=
  timers w = t /\ handler_calls (trace w) = c /\
  could_not_save (trace w) = f.

(** The installed signal handlers are [h]. *)
Definition handlers_are (h : gmap Z sighandler) (w : world) : Prop :=
  sighandlers w = h.


(** ** Vocabulary for the rest of the code *)

(** The backing list of the download model: the downloads of the registered
    download manager. *)
Definition backing (w : world) : list download :=
  match registry w !! "download-manager" with
  | Some (DownloadManager ds) => ds
  | _ => []
  end.

(** The download manager, when registered, is one. *)
Definition manager_ok (w : world) : bool :=
  match registry w !! "download-manager" with
  | None | Some (DownloadManager _) => true
  | Some _ => false
  end.

(** Row [r] is a row of the backing list. *)
Definition in_model (w : world) (r : Z) : Prop :=
  (0 <= r < Z.of_nat (length (backing w)))%Z.

(** The colours of the samples. *)
Definition sample_colors : colors :=
  {| downloads_fg := "white";
     bg_color := fun d => if String.eqb (download_str d) "a" then "green"
                          else "red" |}.

(** The index of the cell at row [r] and column [c]. *)
Definition cell (r c : Z) : QModelIndex :=
  {| isValid := true; row := r; column := c |}.

(** [closeEvent] accepts without asking: the setting is [never], or it is
    [multiple-tabs] and at most one tab is open. *)
Definition quits_unasked (confirm_quit : string) (count : Z) : Prop :=
  confirm_quit = "never" \/ (confirm_quit = "multiple-tabs" /\ (count <= 1)%Z).

(** A tab whose URL cannot be read. *)
Definition unreadable (t : tab) : bool :=
  match cur_url_toString t with Err _ => true | Ok _ => false end.

(** The tabs of the registered tabbed browser. *)
Definition open_tabs (reg : gmap string obj) : list tab :=
  match reg !! "tabbed-browser" with
  | Some (TabbedBrowser tabs) => tabs
  | _ => []
  end.

(** What [_recover_pages] logs: one record for each unreadable tab. *)
Definition recovery_failures (tabs : list tab) : list event :=
  map (fun _ => Log "destroy" EXCEPTION "Error while recovering tab" [])
      (List.filter unreadable tabs).

(** The sections of the state config once the geometry [geom] is stored. *)
Definition with_geometry (geom : string)
    (sections : gmap string (gmap string string))
    : gmap string (gmap string string) :=
  <["geometry" := <["mainwindow" := geom]> (default ∅ (sections !! "geometry"))]>
    sections.

(** A process with a state config and a main window. *)
Definition with_window (sections : gmap string (gmap string string))
    (w : world) : world :=
  sample.registered "state-config" (StateConfig sections (Ok tt))
    (sample.registered "main-window"
       (MainWindow {| windowTitle := "qutebrowser";
                      geometry := Some (QRect 0 0 1024 768) |}) w).

(** The state in which [_init_crashlogfile] leaves the process: an empty
    marker, a handle on it and fault capture pointed at it. *)
Definition capturing (e : env) (w : world) : world :=
  let logname := crash_logname e in
  let w1 := set_faulthandler (fault_file logname)
              (set_crashlogfile (Some (File logname false))
                 (set_files (insert logname "") w)) in
  if sigusr1_traceback e
  then set_faulthandler_signals (fun l => l ++ ["SIGUSR1"]) w1
  else w1.

(** [os.remove(path)] would succeed: the file exists and may be deleted. *)
Definition removable (e : env) (w : world) (path : string) : bool :=
  bool_decide (is_Some (files w !! path)) && remove_permitted e path.

(** [never_exits m]: [m] does not end in [SystemExit], from any state. *)
Definition never_exits {A} (m : M world A) : Prop :=
  forall w c, fst (m w) <> Exit c.

(** The status that [QApplication::exit] was called with is [x]. *)
Definition exit_status_is (x : option Z) (w : world) : Prop :=
  exit_status w = x.

(** How far the signal handlers have escalated. *)
Definition force (h : sighandler) : nat :=
  match h with
  | interrupt_handler => 0
  | interrupt_forcefully_handler => 1
  | interrupt_really_forcefully_handler => 2
  end.

(** [SIGINT] and [SIGTERM] are both handled by [h], and no other signal is
    handled. *)
Definition paired (h : sighandler) (w : world) : Prop :=
  forall s, sighandlers w !! s
            = if bool_decide (s = SIGINT \/ s = SIGTERM) then Some h
              else None.

(** The delivery of [SIGINT] or [SIGTERM]. *)
Definition is_termination (a : action) : bool :=
  match a with
  | Signal s => bool_decide (s = SIGINT \/ s = SIGTERM)
  | _ => false
  end.

Definition terminations (acts : list action) : nat :=
  length (List.filter is_termination acts).

(** The shutdown latch is set. *)
Definition latched (w : world) : Prop := _shutting_down w = true.

(** The crash dialog of the process is [d]. *)
Definition crashdlg_is (d : option dialog) (w : world) : Prop :=
  _crashdlg w = d.

(** No question is being asked: there is no prompter, or it is idle. *)
Definition prompter_idle (reg : gmap string obj) : bool :=
  match reg !! "prompter" with
  | None | Some (Prompter false) => true
  | Some _ => false
  end.

(** The handler that each of the handlers installs in its place. *)
Definition escalate (h : sighandler) : sighandler :=
  match h with
  | interrupt_handler => interrupt_forcefully_handler
  | _ => interrupt_really_forcefully_handler
  end.

(** What the view shows in row [r]: [data] for the display role at the cell
    of row [r]. *)
Definition display (c : colors) (r : Z) (w : world)
    : outcome (subscript variant) :=
  fst (data c (cell r 0) QModelIndex_default DisplayRole w).

(** [l.insert(i, x)] and [del l[i]] on a Python list, for an index inside
    the list. *)
Definition list_insert_at {A} (i : nat) (x : A) (l : list A) : list A :=
  take i l ++ x :: drop i l.

Definition list_remove_at {A} (i : nat) (l : list A) : list A :=
  take i l ++ drop (S i) l.

(** The command history and the object dump that the crash dialog gets. *)
Definition crash_history (reg : gmap string obj) : list string :=
  match reg !! "status-command" with
  | Some (StatusCommand h) => last5 h
  | _ => []
  end.

Definition crash_objects (e : env) : string :=
  match all_objects e with Ok s => s | Err _ => "" end.

(** The [save] of every registered object that Stage 2 saves is
    tolerated. *)
Definition bound_saves_tolerable (reg : gmap string obj) : bool :=
  tolerated_at reg "config" && tolerated_at reg "key-config" &&
  tolerated_at reg "command-history" && tolerated_at reg "state-config" &&
  tolerated_at reg "cookie-jar".

(** The first of the two objects that [_save_geometry] looks up and does
    not find. *)
Definition missing_for_geometry (reg : gmap string obj) : option string :=
  match reg !! "state-config", reg !! "main-window" with
  | None, _ => Some "state-config"
  | Some _, None => Some "main-window"
  | Some _, Some _ => None
  end.

(** The bound [save] of a registry object, with a tolerated result. *)
Definition bound_tolerable (h : handler) : bool :=
  match h with
  | bound_save _ s => tolerated s
  | _ => false
  end.

Definition shutdown_or_tick (a : action) : bool :=
  match a with
  | CallShutdown _ | Tick => true
  | _ => false
  end.

(** Stage 2 is run with a config, but [_save_geometry] does not find
    [key]. *)
Definition stage2_stuck (reg : gmap string obj) (key : string) : Prop :=
  tabs_closable reg = true /\ reg !! "config" <> None /\
  bound_saves_tolerable reg = true /\ missing_for_geometry reg = Some key.

(** A process that shuts down after the config has been initialised and
    before the main window exists. *)
Definition before_main_window : world :=
  sample.registered "config" (Saveable (Ok tt))
    (sample.registered "state-config" (StateConfig ∅ (Ok tt)) sample.fresh).

(** ** Vocabulary for the object listing *)

(** ['{}'.format(n)] for a natural number. *)
Definition format_nat (n : nat) : string :=
  NilZero.string_of_uint (Nat.to_uint n).

(** [['    ' + e for e in lines]]. *)
Definition indented (lines : list string) : list string :=
  map (fun e => ("    " ++ e)%string) lines.

(** The lines of one registry in the listing: an empty line, the header
    and one indented line for each object. *)
Definition registry_block (b : string * list string) : list string :=
  "" :: (fst b ++ " object registry - " ++ format_nat (length (snd b)) ++
         " objects:")%string :: indented (snd b).

(** The order of [sorted(..., key=key)]. *)
Definition key_le {A} (key : A -> string) (a b : A) : Prop :=
  String.leb (key a) (key b) = true.

(** The height of the tree below an object. *)
Fixpoint height (o : qobject) : nat :=
  match o with
  | QObject _ ks =>
      (fix height_of (ks : list qobject) : nat :=
         match ks with
         | [] => 0
         | k :: rest => Nat.max (S (height k)) (height_of rest)
         end) ks
  end.

(** The number of lines that [_get_pyqt_objects] appends for an object:
    every child is listed, then listed a second time with everything below
    it as a descendant of the object itself. *)
Fixpoint weight (o : qobject) : nat :=
  match o with
  | QObject _ ks =>
      (fix weight_of (ks : list qobject) : nat :=
         match ks with
         | [] => 0
         | k :: rest => S (2 * weight k) + weight_of rest
         end) ks
  end.

(** The lines that [_get_pyqt_objects] appends for an object at [depth]. *)
Fixpoint listing (depth : nat) (o : qobject) : list string :=
  match o with
  | QObject _ ks =>
      (fix listing_of (ks : list qobject) : list string :=
         match ks with
         | [] => []
         | k :: rest =>
             (indent depth ++ qrepr k)%string ::
             listing (S depth) k ++ listing depth k ++ listing_of rest
         end) ks
  end.

(** The line for the object [k] at [depth]. *)
Definition pyqt_line (depth : nat) (k : qobject) : string :=
  (indent depth ++ qrepr k)%string.

(** The loop of [_get_pyqt_objects] over a list of objects. *)
Definition pyqt_loop (limit : nat) (depth : nat) (objs : list qobject)
    (lines : option (list string)) : option (list string) :=
  fold_left
    (fun lines kid =>
       match lines with
       | None => None
       | Some lines =>
           _get_pyqt_objects limit
             (lines ++ [(indent depth ++ qrepr kid)%string]) kid (depth + 1)
       end) objs lines.

(** An application object with a chain of three nested objects and one
    more child. *)
Definition sample_objects : qobject :=
  QObject "app"
    [QObject "a" [QObject "b" [QObject "c" []]]; QObject "d" []].

(** The shutdown trigger of the last closed window is connected or not. *)
Definition trigger_is (b : bool) (w : world) : Prop :=
  lastWindowClosed_connected w = b.
(** ** The download model *)

(** C10: for every index and whatever the state of the process,
    [DownloadModel.flags] returns exactly [Qt.ItemIsEnabled]; the selectable
    and the editable bit of the returned flags are clear, and the call
    changes nothing. *)
Theorem C10_flags_only_enabled (w : world) (index : QModelIndex) :
  flags index w = (Ret ItemIsEnabled, w) /\
  Z.land ItemIsEnabled ItemIsSelectable = 0%Z /\
  Z.land ItemIsEnabled ItemIsEditable = 0%Z.
Proof. repeat split. Qed.

(** C6: for every state of the registry and every parentless (invalid)
    parent index, [rowCount] returns the length of the registered download
    manager's [downloads] list, and returns 0 without raising when no
    download manager is registered yet; the state is left as it was. *)
Theorem C6_rowCount_backing_length (w : world) (parent : QModelIndex) :
  isValid parent = false ->
  (registry w !! "download-manager" = None ->
   rowCount parent w = (Ret 0%Z, w)) /\
  (forall ds, registry w !! "download-manager" = Some (DownloadManager ds) ->
   rowCount parent w = (Ret (Z.of_nat (length ds)), w)).
Proof.
  intros Hparent. unfold rowCount. rewrite Hparent.
  unfold try_except_else, objreg.get. split.
  - intros ->. reflexivity.
  - intros ds ->. reflexivity.
Qed.

Lemma C6_rowCount_witness :
  rowCount QModelIndex_default sample.fresh = (Ret 0%Z, sample.fresh) /\
  rowCount QModelIndex_default
    (sample.with_downloads [Download "a"; Download "b"] sample.fresh)
  = (Ret 2%Z, sample.with_downloads [Download "a"; Download "b"] sample.fresh).
Proof.
  split.
  - apply (proj1 (C6_rowCount_backing_length sample.fresh QModelIndex_default
                    eq_refl)).
    reflexivity.
  - apply (proj2 (C6_rowCount_backing_length
                    (sample.with_downloads [Download "a"; Download "b"]
                       sample.fresh)
                    QModelIndex_default eq_refl)
                 [Download "a"; Download "b"]).
    reflexivity.
Defined.

(** ** The crash marker at startup *)





(** ** Frame reasoning: what a computation leaves invariant *)

Section Preserves.
Context (I : world -> Prop).

Lemma preserves_ret {A} (a : A) : preserves I (ret a).
Proof. intros w H. exact H. Qed.

Lemma preserves_raise {A} (x : exn) : preserves I (@raise world A x).
Proof. intros w H. exact H. Qed.

Lemma preserves_sys_exit {A} (c : Z) : preserves I (@sys_exit A c).
Proof. intros w H. exact H. Qed.

Lemma preserves_lift {A} (r : result A) : preserves I (lift r).
Proof. intros w H. destruct r; exact H. Qed.

Lemma preserves_gets {A} (f : world -> A) : preserves I (gets f).
Proof. intros w H. exact H. Qed.

Lemma preserves_get : preserves I get.
Proof. intros w H. exact H. Qed.

Lemma preserves_modify (f : world -> world) :
  (forall w, I w -> I (f w)) -> preserves I (modify f).
Proof. intros Hf w H. apply Hf, H. Qed.

Lemma preserves_read_text (path : string) : preserves I (read_text path).
Proof. intros w H. unfold read_text. destruct (files w !! path); exact H. Qed.

Lemma preserves_os_remove (e : env) (path : string) :
  (forall w, I w -> I (set_files (delete path) w)) ->
  preserves I (os_remove e path).
Proof.
  intros Hf w H. unfold os_remove.
  destruct (files w !! path); [destruct (remove_permitted e path)|];
    cbn; auto.
Qed.

Lemma preserves_bind {A B} (m : M world A) (k : A -> M world B) :
  preserves I m -> (forall a, preserves I (k a)) -> preserves I (bind m k).
Proof.
  intros Hm Hk w H. unfold bind. specialize (Hm w H).
  destruct (m w) as [[a|x|c] w1]; cbn in *; [apply Hk|..]; assumption.
Qed.

Lemma preserves_dispatch {A} (clauses : list (clause world A)) (x : exn) :
  Forall (fun c => forall x, preserves I (snd c x)) clauses ->
  preserves I (dispatch clauses x).
Proof.
  induction 1 as [|[p h] cs Hh _ IH]; cbn.
  - apply preserves_raise.
  - destruct (p x); [apply Hh | apply IH].
Qed.

Lemma preserves_try_except {A} (body : M world A) clauses :
  preserves I body ->
  Forall (fun c => forall x, preserves I (snd c x)) clauses ->
  preserves I (try_except body clauses).
Proof.
  intros Hb Hc w H. unfold try_except. specialize (Hb w H).
  destruct (body w) as [[a|x|c] w1]; cbn in *; try assumption.
  now apply preserves_dispatch.
Qed.

Lemma preserves_try_except_else {A B} (body : M world A)
    (clauses : list (clause world B)) (orelse : A -> M world B) :
  preserves I body ->
  Forall (fun c => forall x, preserves I (snd c x)) clauses ->
  (forall a, preserves I (orelse a)) ->
  preserves I (try_except_else body clauses orelse).
Proof.
  intros Hb Hc Ho w H. unfold try_except_else. specialize (Hb w H).
  destruct (body w) as [[a|x|c] w1]; cbn in *; try assumption.
  - now apply Ho.
  - now apply preserves_dispatch.
Qed.

Lemma preserves_when (b : bool) (m : M world unit) :
  preserves I m -> preserves I (when b m).
Proof. intros Hm. destruct b; [exact Hm | apply preserves_ret]. Qed.

Lemma preserves_for_each {A} (l : list A) (body : A -> M world unit) :
  (forall x, preserves I (body x)) -> preserves I (for_each l body).
Proof.
  intros Hb. induction l as [|x l IH]; cbn.
  - apply preserves_ret.
  - apply preserves_bind; [apply Hb | intros _; exact IH].
Qed.
End Preserves.


(** Decomposing a [preserves] goal along the structure of the code: known
    lemmas first (hint database [frame]), then the rule for the construct at
    hand, then the definition of the function at the head.  What is left
    are the state updates, to be checked against the invariant. *)
Create HintDb frame.
Ltac head_of t := lazymatch t with ?f _ => head_of f | _ => t end.

Ltac frame_clauses :=
  repeat (apply List.Forall_cons; [ cbn [snd]; intros ? | ]);
  try apply List.Forall_nil.

Ltac frame_step :=
  first
  [ solve [ auto 1 with frame nocore ]
  | lazymatch goal with
    | |- preserves _ (bind _ _) => apply preserves_bind; [ | intros ? ]
    | |- preserves _ (ret _) => apply preserves_ret
    | |- preserves _ (raise _) => apply preserves_raise
    | |- preserves _ (sys_exit _) => apply preserves_sys_exit
    | |- preserves _ (lift _) => apply preserves_lift
    | |- preserves _ (gets _) => apply preserves_gets
    | |- preserves _ get => apply preserves_get
    | |- preserves _ (try_except _ _) =>
        apply preserves_try_except; [ | frame_clauses ]
    | |- preserves _ (try_except_else _ _ _) =>
        apply preserves_try_except_else; [ | frame_clauses | intros ? ]
    | |- preserves _ (when _ _) => apply preserves_when
    | |- preserves _ (for_each _ _) => apply preserves_for_each; intros ?
    | |- preserves _ (objreg.get _) =>
        let w := fresh "w" in let H := fresh "H" in
        intros w H; unfold objreg.get; destruct (registry w !! _); exact H
    | |- preserves _ (if ?b then _ else _) => destruct b
    | |- preserves _ (match ?x with _ => _ end) => destruct x
    | |- preserves _ (let '(_, _) := ?x in _) => destruct x
    | |- preserves _ (modify _) => apply preserves_modify
    | |- preserves _ (read_text _) => apply preserves_read_text
    | |- preserves _ (os_remove _ _) => apply preserves_os_remove
    | |- preserves _ ?m => let h := head_of m in unfold h
    end ].

Ltac frame := frame_unfold; repeat (frame_step; frame_unfold).

(** *** The crash marker without a handle *)

Lemma destroy_crashlogfile_None (e : env) (w : world) :
  _crashlogfile w = None -> _destroy_crashlogfile e w = (Ret tt, w).
Proof.
  intros H. unfold _destroy_crashlogfile. py_unfold. cbn. now rewrite H.
Qed.

Lemma destroy_crashlogfile_untouched e w0 :
  preserves (marker_untouched w0) (_destroy_crashlogfile e).
Proof.
  intros w H. rewrite destroy_crashlogfile_None; [exact H | apply H].
Qed.
#[export] Hint Resolve destroy_crashlogfile_untouched : frame.

Lemma recover_loop_untouched w0 tabs pages :
  preserves (marker_untouched w0) (recover_loop tabs pages).
Proof.
  revert pages. induction tabs as [|t tabs IH]; intros pages; cbn [recover_loop].
  - frame.
  - frame; auto.
Qed.
#[export] Hint Resolve recover_loop_untouched : frame.

Lemma restart_pages_untouched w0 tabs pages :
  preserves (marker_untouched w0) (restart_pages tabs pages).
Proof.
  revert pages. induction tabs as [|t tabs IH]; intros pages; cbn [restart_pages].
  - frame.
  - frame; auto.
Qed.
#[export] Hint Resolve restart_pages_untouched : frame.

Lemma shutdown2_untouched e status w0 :
  preserves (marker_untouched w0) (_shutdown e status).
Proof. unfold _shutdown. frame; auto. Qed.
#[export] Hint Resolve shutdown2_untouched : frame.

Lemma shutdown_untouched e status w0 :
  preserves (marker_untouched w0) (shutdown e status).
Proof. unfold shutdown. frame; auto. Qed.
#[export] Hint Resolve shutdown_untouched : frame.

Lemma exception_hook_untouched e exctype w0 :
  preserves (marker_untouched w0) (_exception_hook e exctype).
Proof. unfold _exception_hook. frame; auto. Qed.

Lemma handle_segfault_stale (e : env) (w : world) :
  files w !! crash_logname e = Some "" ->
  marker_untouched w (snd (_handle_segfault e w)).
Proof.
  unfold crash_logname, _handle_segfault, marker_untouched.
  generalize (posixpath.join (data_dir e) "crash.log"). intros logname H.
  py_unfold. cbn. rewrite H. cbn. rewrite H. cbn. repeat split.
Qed.

(** C9: when the process holds no handle on the crash marker
    ([_crashlogfile] is [None], as after startup found an empty marker),
    [_destroy_crashlogfile] returns at once and leaves the whole state as it
    is; so neither Stage 2 of shutdown nor the exception hook changes the
    files, closes or deletes the marker or redirects fault capture, and a
    marker found empty at startup is still there, empty, after Stage 2. *)
Theorem C9_destroy_without_handle_is_noop (e : env) (w : world) :
  _crashlogfile w = None ->
  _destroy_crashlogfile e w = (Ret tt, w) /\
  (forall status, marker_untouched w (snd (_shutdown e status w))) /\
  (forall exctype, marker_untouched w (snd (_exception_hook e exctype w))) /\
  (forall w0 status,
     files w0 !! crash_logname e = Some "" ->
     w = snd (_handle_segfault e w0) ->
     files (snd (_shutdown e status w)) !! crash_logname e = Some "").
Proof.
  intros Hnone. split; [|split; [|split]].
  - now apply destroy_crashlogfile_None.
  - intros status. apply shutdown2_untouched. now repeat split.
  - intros exctype. apply exception_hook_untouched. now repeat split.
  - intros w0 status Hempty ->.
    pose proof (handle_segfault_stale e w0 Hempty) as Hstale.
    pose proof (shutdown2_untouched e status w0 _ Hstale) as [Hfiles _].
    now rewrite Hfiles.
Qed.

Lemma C9_destroy_without_handle_is_noop_witness :
  let w := snd (_handle_segfault sample.module_env
                  (sample.with_marker "" sample.fresh)) in
  _destroy_crashlogfile sample.module_env w = (Ret tt, w) /\
  files (snd (_shutdown sample.module_env 0 w))
    !! crash_logname sample.module_env = Some "".
Proof.
  intros w.
  assert (Hnone : _crashlogfile w = None) by reflexivity.
  split.
  - apply (proj1 (C9_destroy_without_handle_is_noop sample.module_env w
                    Hnone)).
  - apply (proj2 (proj2 (proj2 (C9_destroy_without_handle_is_noop
             sample.module_env w Hnone)))
           (sample.with_marker "" sample.fresh) 0%Z eq_refl eq_refl).
Defined.

(** ** Restart *)

Lemma recover_loop_children c tabs pages :
  preserves (children_are c) (recover_loop tabs pages).
Proof.
  revert pages. induction tabs as [|t tabs IH]; intros pages; cbn [recover_loop].
  - frame.
  - frame; auto.
Qed.
#[export] Hint Resolve recover_loop_children : frame.

Lemma shutdown2_children c e status :
  preserves (children_are c) (_shutdown e status).
Proof. unfold _shutdown. frame; auto. Qed.
#[export] Hint Resolve shutdown2_children : frame.

Lemma shutdown_children c e status :
  preserves (children_are c) (shutdown e status).
Proof. unfold shutdown. frame; auto. Qed.

Lemma restart_pages_urls (tabs : list tab) (urls pages : list string)
    (w : world) :
  map cur_url_toString tabs = map Ok urls ->
  restart_pages tabs pages w = (Ret (pages ++ List.filter truthy urls), w).
Proof.
  revert urls pages. induction tabs as [|t tabs IH]; intros [|u urls] pages H;
    try discriminate; cbn [restart_pages].
  - cbn. now rewrite app_nil_r.
  - cbn in H. injection H as Ht Htabs. py_unfold. rewrite Ht. cbn.
    rewrite (IH urls _ Htabs). cbn [List.filter].
    destruct (truthy u); [now rewrite <- app_assoc | reflexivity].
Qed.

Lemma restart_spawns (e : env) (do_shutdown : bool) (pages : list string)
    (w : world) :
  children (snd (restart e do_shutdown (Some pages) w))
  = children w ++ [(restart_args e pages, snd (launch e))].
Proof.
  unfold restart. py_unfold. cbn.
  destruct do_shutdown; cbn; [|reflexivity].
  apply shutdown_children. reflexivity.
Qed.

Lemma restart_spawns_tabs (e : env) (do_shutdown : bool) (tabs : list tab)
    (urls : list string) (w : world) :
  registry w !! "tabbed-browser" = Some (TabbedBrowser tabs) ->
  map cur_url_toString tabs = map Ok urls ->
  children (snd (restart e do_shutdown None w))
  = children w ++ [(restart_args e (List.filter truthy urls), snd (launch e))].
Proof.
  intros Hreg Htabs. unfold restart. py_unfold. cbn. rewrite Hreg. cbn.
  rewrite (restart_pages_urls tabs urls [] w Htabs). cbn.
  destruct do_shutdown; cbn; [|reflexivity].
  apply shutdown_children. reflexivity.
Qed.

(** C5, as stated, fails: the process started with
    [sys.argv = ["prog"; "--debug"]] as [python3 -m qutebrowser] relaunches
    [python3 -m qutebrowser --debug https://x https://y]. *)
Lemma C5_counterexample_module_launch :
  let e := sample.module_env in
  let w' := snd (restart e false (Some ["https://x"; "https://y"])
                   sample.fresh) in
  sys_argv e = ["prog"; "--debug"] /\
  children w' =
    [(["/usr/bin/python3"; "-m"; "qutebrowser"; "--debug";
       "https://x"; "https://y"],
      Some "/home/user/src/qutebrowser/..")] /\
  map fst (children w') <> [["prog"; "--debug"; "https://x"; "https://y"]].
Proof. vm_compute. repeat split. discriminate. Qed.

(** C5 (amended): [restart] spawns one child process.  Its argument vector
    is the launch vector re-derived from how the process was started
    ([[sys.argv[0]]] for the launcher script, [[sys.executable]] for a frozen
    executable, [[sys.executable, "-m", "qutebrowser"]] otherwise), followed
    by exactly those of [sys.argv[1:]] that begin with ["-"], in order,
    followed by the page URLs (those given, or the non-empty URLs of the
    open tabs); its working directory is inherited for the launcher script,
    the directory of the executable for a frozen executable and the parent
    of the package directory otherwise.  For a frozen executable ["prog"]
    started with [sys.argv = ["prog"; "--debug"]] and pages
    [["https://x"; "https://y"]] the relaunch command is
    [["prog"; "--debug"; "https://x"; "https://y"]]. *)
Theorem C5_restart_command (e : env) (do_shutdown : bool) (w : world) :
  let options := List.filter (String.prefix "-") (sys_argv_tail e) in
  exists launch_vector cwd,
    (forall pages,
       children (snd (restart e do_shutdown (Some pages) w))
       = children w ++ [(launch_vector ++ options ++ pages, cwd)]) /\
    (forall tabs urls,
       registry w !! "tabbed-browser" = Some (TabbedBrowser tabs) ->
       map cur_url_toString tabs = map Ok urls ->
       children (snd (restart e do_shutdown None w))
       = children w ++
         [(launch_vector ++ options ++ List.filter truthy urls, cwd)]) /\
    (posixpath.basename (sys_argv0 e) = "qutebrowser" ->
       launch_vector = [sys_argv0 e] /\ cwd = None) /\
    (posixpath.basename (sys_argv0 e) <> "qutebrowser" ->
     sys_frozen e = true ->
       launch_vector = [sys_executable e] /\
       cwd = Some (posixpath.abspath (getcwd e)
                     (posixpath.dirname (sys_executable e)))) /\
    (posixpath.basename (sys_argv0 e) <> "qutebrowser" ->
     sys_frozen e = false ->
       launch_vector = [sys_executable e; "-m"; "qutebrowser"] /\
       cwd = Some (posixpath.join
                     (posixpath.abspath (getcwd e)
                        (posixpath.dirname (qutebrowser_file e)))
                     "..")) /\
    (sys_frozen e = true -> sys_executable e = "prog" ->
     sys_argv e = ["prog"; "--debug"] ->
       launch_vector ++ options ++ ["https://x"; "https://y"]
       = ["prog"; "--debug"; "https://x"; "https://y"]).
Proof.
  intros options. exists (fst (launch e)), (snd (launch e)).
  split; [|split].
  - intros pages. rewrite restart_spawns. unfold restart_args.
    now rewrite <- app_assoc.
  - intros tabs urls Hreg Htabs.
    rewrite (restart_spawns_tabs e do_shutdown tabs urls w Hreg Htabs).
    unfold restart_args. now rewrite <- app_assoc.
  - unfold launch. split; [|split; [|split]].
    + intros H. now rewrite H, String.eqb_refl.
    + intros H Hf. apply String.eqb_neq in H. now rewrite H, Hf.
    + intros H Hf. apply String.eqb_neq in H. now rewrite H, Hf.
    + intros Hf Hexe Hargv. subst options. unfold sys_argv in Hargv.
      injection Hargv as Ha0 Htail.
      rewrite Ha0, Hf, Hexe, Htail. reflexivity.
Qed.

Lemma C5_restart_command_witness :
  let e := sample.started_as "prog" "prog" true sample.module_env in
  exists launch_vector cwd,
    children (snd (restart e true (Some ["https://x"; "https://y"])
                     sample.fresh))
    = [(launch_vector ++ ["--debug"] ++ ["https://x"; "https://y"], cwd)] /\
    launch_vector = ["prog"] /\
    launch_vector ++ ["--debug"] ++ ["https://x"; "https://y"]
    = ["prog"; "--debug"; "https://x"; "https://y"].
Proof.
  intros e.
  destruct (C5_restart_command e true sample.fresh)
    as (launch_vector & cwd & Hpages & _ & _ & Hfrozen & _ & Hexample).
  exists launch_vector, cwd. split; [|split].
  - apply (Hpages ["https://x"; "https://y"]).
  - apply (Hfrozen ltac:(discriminate) eq_refl).
  - apply (Hexample eq_refl eq_refl eq_refl).
Defined.
(** ** The geometry of the main window *)

(** C7, as stated, fails: on a first start, with no geometry entry stored,
    the window falls back to the default rectangle without any record of
    the cause in the log. *)
Lemma C7_counterexample_first_start :
  let w := sample.registered "state-config" (StateConfig ∅ (Ok tt))
             sample.fresh in
  let r := __init__ sample.module_env w in
  geometry_entry ∅ = None /\
  (exists win, fst r = Ret win /\ geometry win = Some default_rect) /\
  failures (trace (snd r)) = [] /\
  trace (snd r) =
    [Log "init" DEBUG "Initial mainwindow geometry: {}"
       [AGeometry (Some default_rect)];
     Call "MainWindow: compose sub-views" []].
Proof. vm_compute. repeat split. eexists. split; reflexivity. Qed.

(** C7 (amended): with a state config registered, [MainWindow.__init__]
    returns a window with a defined geometry in each of these cases, and
    raises in none of them:
    - the stored entry is absent: the default rectangle (50, 50, 800, 600),
      and no failure is logged;
    - the stored entry is not valid base64 ([binascii.Error]): the default
      rectangle, with the cause logged;
    - the stored entry decodes and [restoreGeometry] returns false: the
      default rectangle, with the cause logged;
    - the stored entry decodes and [restoreGeometry] returns true: the
      restored geometry, and no failure is logged. *)
Theorem C7_geometry_restore_or_default (e : env) (w : world)
    (sections : gmap string (gmap string string)) (save : result unit) :
  registry w !! "state-config" = Some (StateConfig sections save) ->
  let r := __init__ e w in
  (geometry_entry sections = None ->
     exists win, fst r = Ret win /\ geometry win = Some default_rect /\
       failures (trace (snd r)) = failures (trace w)) /\
  (forall data, geometry_entry sections = Some data ->
     (b64decode e data = Err BinasciiError ->
        exists win, fst r = Ret win /\ geometry win = Some default_rect /\
          failures (trace (snd r)) = failures (trace w) ++
            [Log "init" EXCEPTION "Error while reading geometry" []]) /\
     (forall geom, b64decode e data = Ok geom ->
        (restoreGeometry e geom = Ok None ->
           exists win, fst r = Ret win /\ geometry win = Some default_rect /\
             failures (trace (snd r)) = failures (trace w) ++
               [Log "init" WARNING "Error while restoring geometry." []]) /\
        (forall g, restoreGeometry e geom = Ok (Some g) ->
           exists win, fst r = Ret win /\ geometry win = Some g /\
             failures (trace (snd r)) = failures (trace w)))).
Proof.
  intros Hreg r. subst r. unfold geometry_entry, __init__, getitem2, failures.
  py_unfold. cbn. rewrite Hreg. cbn.
  split; [|intros data Hdata; split; [|intros geom Hgeom; split]].
  - destruct (sections !! "geometry") as [sec|]; cbn.
    + intros ->. cbn. eexists. repeat split. cbn.
      now rewrite !List.filter_app, !app_nil_r.
    + intros _. eexists. repeat split. cbn.
      now rewrite !List.filter_app, !app_nil_r.
  - intros Hdec.
    destruct (sections !! "geometry") as [sec|]; cbn in *; [|discriminate].
    rewrite Hdata. cbn. rewrite Hdec. cbn. eexists. repeat split. cbn.
    now rewrite !List.filter_app, !app_nil_r.
  - intros Hres.
    destruct (sections !! "geometry") as [sec|]; cbn in *; [|discriminate].
    rewrite Hdata. cbn. rewrite Hgeom. cbn. rewrite Hres. cbn.
    eexists. repeat split. cbn.
    now rewrite !List.filter_app, !app_nil_r.
  - intros g Hres.
    destruct (sections !! "geometry") as [sec|]; cbn in *; [|discriminate].
    rewrite Hdata. cbn. rewrite Hgeom. cbn. rewrite Hres. cbn.
    eexists. repeat split. cbn.
    now rewrite !List.filter_app, !app_nil_r.
Qed.

Lemma C7_geometry_restore_or_default_witness :
  let stored (data : string) : gmap string (gmap string string) :=
    {[ "geometry" := {[ "mainwindow" := data ]} ]} in
  let w (sections : gmap string (gmap string string)) :=
    sample.registered "state-config" (StateConfig sections (Ok tt))
      sample.fresh in
  (exists win, fst (__init__ sample.module_env (w ∅)) = Ret win /\
     geometry win = Some default_rect /\
     failures (trace (snd (__init__ sample.module_env (w ∅)))) = []) /\
  (exists win, fst (__init__ sample.module_env (w (stored "?"))) = Ret win /\
     geometry win = Some default_rect /\
     failures (trace (snd (__init__ sample.module_env (w (stored "?")))))
     = [Log "init" EXCEPTION "Error while reading geometry" []]) /\
  (exists win,
     fst (__init__ (sample.restoring (Ok None) sample.module_env)
            (w (stored "AQID"))) = Ret win /\
     geometry win = Some default_rect /\
     failures (trace (snd (__init__
                 (sample.restoring (Ok None) sample.module_env)
                 (w (stored "AQID")))))
     = [Log "init" WARNING "Error while restoring geometry." []]) /\
  (exists win, fst (__init__ sample.module_env (w (stored "AQID"))) = Ret win /\
     geometry win = Some (QRect 0 0 1024 768) /\
     failures (trace (snd (__init__ sample.module_env (w (stored "AQID")))))
     = []).
Proof.
  intros stored w. split; [|split; [|split]].
  - apply (proj1 (C7_geometry_restore_or_default sample.module_env (w ∅)
                    ∅ (Ok tt) eq_refl)).
    reflexivity.
  - apply (proj1 (proj2 (C7_geometry_restore_or_default sample.module_env
                           (w (stored "?")) (stored "?") (Ok tt) eq_refl)
                    "?" eq_refl)).
    reflexivity.
  - apply (proj1 (proj2 (proj2 (C7_geometry_restore_or_default
                    (sample.restoring (Ok None) sample.module_env)
                    (w (stored "AQID")) (stored "AQID") (Ok tt) eq_refl)
                    "AQID" eq_refl) sample.blob eq_refl)).
    reflexivity.
  - apply (proj2 (proj2 (proj2 (C7_geometry_restore_or_default
                    sample.module_env
                    (w (stored "AQID")) (stored "AQID") (Ok tt) eq_refl)
                    "AQID" eq_refl) sample.blob eq_refl)
                 (QRect 0 0 1024 768)).
    reflexivity.
Defined.
(** Two paths on which the constructor does raise.  When [restoreGeometry]
    raises the [KeyError] that the code catches, [ok] is never bound and the
    test [if not ok] raises; and a stored entry for which [b64decode] raises
    a plain [ValueError] (text that is not ASCII) is caught by neither
    [except] clause. *)
Example init_restore_KeyError_leaves_ok_unbound :
  let w := sample.registered "state-config"
             (StateConfig {[ "geometry" := {[ "mainwindow" := "AQID" ]} ]}
                (Ok tt)) sample.fresh in
  fst (__init__ (sample.restoring (Err (KeyError "geometry"))
                   sample.module_env) w)
  = Exc (UnboundLocalError "ok").
Proof. reflexivity. Qed.

Example init_decode_ValueError_propagates :
  let w := sample.registered "state-config"
             (StateConfig {[ "geometry" := {[ "mainwindow" := "AQID" ]} ]}
                (Ok tt)) sample.fresh in
  fst (__init__ (sample.decoding (Err ValueError) sample.module_env) w)
  = Exc ValueError.
Proof. reflexivity. Qed.

(** ** Signals *)

Ltac world_simpl :=
  cbn [_quit_status _shutting_down _crashdlg _crashlogfile
       lastWindowClosed_connected message_handler timers exit_status registry
       sighandlers faulthandler faulthandler_signals files children trace
       set_quit_status set_shutting_down set_crashdlg set_crashlogfile
       set_lastWindowClosed_connected set_message_handler set_timers
       set_exit_status set_registry set_sighandlers set_faulthandler
       set_faulthandler_signals set_files set_children set_trace fst snd]
    in *.

Lemma handler_calls_snoc (t : list event) (ev : event) :
  handler_calls (t ++ [ev])
  = handler_calls t ++ match handler_call ev with
                       | Some q => [q]
                       | None => []
                       end.
Proof.
  unfold handler_calls. rewrite omap_app. reflexivity.
Qed.

Lemma stage2_count_snoc (t : list event) (ev : event) :
  length (List.filter is_stage2_record (t ++ [ev]))
  = (if is_stage2_record ev then S (length (List.filter is_stage2_record t))
     else length (List.filter is_stage2_record t)).
Proof.
  rewrite List.filter_app, length_app. cbn [List.filter].
  destruct (is_stage2_record ev); cbn [length]; lia.
Qed.

Lemma interrupt_run (s : Z) (w : world) :
  interrupt s w =
  (Ret tt,
   set_timers (fun q => q ++ [CbShutdown (128 + s)])
     (set_sighandlers (insert SIGTERM interrupt_forcefully_handler)
        (set_sighandlers (insert SIGINT interrupt_forcefully_handler)
           (set_trace (fun t => t ++
              [Log "destroy" INFO "Do the same again to forcefully quit." []])
              (set_trace (fun t => t ++
                 [Log "destroy" INFO
                    "SIGINT/SIGTERM received, shutting down!" []]) w))))).
Proof. reflexivity. Qed.

Lemma interrupt_forcefully_run (s : Z) (w : world) :
  interrupt_forcefully s w =
  (Ret tt,
   set_timers (fun q => q ++ [CbExit (128 + s)])
     (set_sighandlers (insert SIGTERM interrupt_really_forcefully_handler)
        (set_sighandlers (insert SIGINT interrupt_really_forcefully_handler)
           (set_trace (fun t => t ++
              [Log "destroy" INFO
                 "Do the same again to quit with even more force." []])
              (set_trace (fun t => t ++
                 [Log "destroy" INFO
                    "Forceful quit requested, goodbye cruel world!" []])
                 w))))).
Proof. reflexivity. Qed.

Lemma interrupt_really_forcefully_run (s : Z) (w : world) :
  interrupt_really_forcefully s w =
  (Exit (128 + s),
   set_trace (fun t => t ++
     [Log "destroy" INFO "WHY ARE YOU DOING THIS TO ME? :(" []]) w).
Proof. reflexivity. Qed.

Lemma deliver_installed (s : Z) (w : world) (h : sighandler) :
  sighandlers w !! s = Some h ->
  deliver s w = match h with
                | interrupt_handler => interrupt s w
                | interrupt_forcefully_handler => interrupt_forcefully s w
                | interrupt_really_forcefully_handler =>
                    interrupt_really_forcefully s w
                end.
Proof. intros H. unfold deliver. py_unfold. rewrite H. now destruct h. Qed.


Lemma recover_loop_handlers h tabs pages :
  preserves (handlers_are h) (recover_loop tabs pages).
Proof.
  revert pages. induction tabs as [|t tabs IH]; intros pages; cbn [recover_loop].
  - frame.
  - frame; auto.
Qed.
#[export] Hint Resolve recover_loop_handlers : frame.

Lemma shutdown2_handlers h e status :
  preserves (handlers_are h) (_shutdown e status).
Proof. unfold _shutdown. frame; auto. Qed.
#[export] Hint Resolve shutdown2_handlers : frame.

Lemma shutdown_handlers h e status :
  preserves (handlers_are h) (shutdown e status).
Proof. unfold shutdown. frame; auto. Qed.
#[export] Hint Resolve shutdown_handlers : frame.

Lemma tick_handlers h e : preserves (handlers_are h) (tick e).
Proof. unfold tick. frame; auto. Qed.

Lemma exception_hook_handlers h e exctype :
  preserves (handlers_are h) (_exception_hook e exctype).
Proof. unfold _exception_hook. frame; auto. Qed.




(** The graceful shutdown that the first signal scheduled stays in the run
    loop when the second signal arrives: with both signals delivered before
    the run loop iterates, the next iteration still runs the shutdown, save
    handlers included, and the one after it the forced exit. *)
Example second_signal_does_not_cancel_first :
  let w := sample.signals_installed history_uninitialised in
  let w2 := run sample.module_env [Signal SIGINT; Signal SIGINT] w in
  timers w2 = [CbShutdown 130; CbExit 130] /\
  stage2_runs (run sample.module_env [Tick] w2) = 1 /\
  timers (run sample.module_env [Tick] w2) = [CbExit 130; CbExit 130] /\
  exit_status (run sample.module_env [Tick; Tick] w2) = Some 130%Z.
Proof. vm_compute. repeat split. Qed.

(** ** The uncaught-exception hook *)

Lemma preserves_when_false (I : world -> Prop) (m : M world unit) :
  preserves I (when false m).
Proof. apply preserves_ret. Qed.
#[export] Hint Resolve preserves_when_false : frame.

(** Closing the goals that [frame] leaves for appends to the trace. *)
Ltac trace_goal :=
  let w := fresh "w" in let H := fresh "H" in
  intros w H; repeat split; try apply H;
  unfold stage2_runs in *; world_simpl;
  rewrite ?handler_calls_snoc, ?stage2_count_snoc;
  cbn [handler_call is_stage2_record]; rewrite ?app_nil_r; apply H.

Lemma recover_loop_not_graceful w0 tabs pages :
  preserves (graceful_shutdown_not_run w0) (recover_loop tabs pages).
Proof.
  revert pages. induction tabs as [|t tabs IH]; intros pages; cbn [recover_loop].
  - frame.
  - frame; auto. trace_goal.
Qed.
#[export] Hint Resolve recover_loop_not_graceful : frame.

Lemma exception_hook_not_graceful (e : env) (exctype : exc_class) w0 :
  benign exctype = false ->
  preserves (graceful_shutdown_not_run w0) (_exception_hook e exctype).
Proof.
  intros Hb. unfold _exception_hook. rewrite Hb. frame.
  all: try trace_goal.
Qed.
Lemma bind_run {A B} (m : M world A) (k : A -> M world B) (w w1 : world)
    (a : A) :
  m w = (Ret a, w1) -> bind m k w = k a w1.
Proof. intros H. unfold bind. now rewrite H. Qed.

Lemma logged_nil (w : world) : logged [] w = w.
Proof. destruct w. unfold logged, set_trace. cbn. now rewrite app_nil_r. Qed.

Lemma logged_logged (l1 l2 : list event) (w : world) :
  logged l2 (logged l1 w) = logged (l1 ++ l2) w.
Proof. unfold logged, set_trace. cbn. now rewrite app_assoc. Qed.

Lemma logged_one (ev : event) (w : world) :
  set_trace (fun t => t ++ [ev]) w = logged [ev] w.
Proof. reflexivity. Qed.

Ltac run_unfold :=
  cbv beta iota delta [bind try_except try_except_else lift dispatch ret raise
                       modify gets get when pass is_Exception is_KeyError
                       is_AttributeError is_TypeError is_BinasciiError
                       is_PermissionError is_FileNotFoundError
                       is_DuplicateSectionError orb fst snd].

Lemma recover_loop_run (tabs : list tab) (pages : list string) (w : world) :
  exists l,
    recover_loop tabs pages w
    = (Ret (pages ++ omap recoverable_url tabs), logged l w).
Proof.
  revert pages w. induction tabs as [|t tabs IH]; intros pages w.
  - exists []. cbn. now rewrite app_nil_r, logged_nil.
  - cbn [recover_loop]. frame_unfold.
    change (omap recoverable_url (t :: tabs))
      with (match recoverable_url t with
            | Some u => u :: omap recoverable_url tabs
            | None => omap recoverable_url tabs
            end).
    unfold recoverable_url at 1.
    destruct (cur_url_toString t) as [url|x]; run_unfold;
      [destruct (truthy url); run_unfold|].
    + destruct (IH (pages ++ [url]) w) as [l ->]. exists l.
      now rewrite <- app_assoc.
    + destruct (IH pages w) as [l ->]. now exists l.
    + rewrite logged_one.
      destruct (IH pages (logged [Log "destroy" EXCEPTION
                                    "Error while recovering tab" []] w))
        as [l ->].
      eexists. now rewrite logged_logged.
Qed.

Lemma hook_pages_run (w : world) :
  exists l,
    try_except _recover_pages
      [(is_Exception, fun _ =>
          log "destroy" EXCEPTION "Error while recovering pages" [];;
          mret [])] w
    = (Ret (recovered (registry w)), logged l w).
Proof.
  unfold _recover_pages, recovered, objreg.get, attr_widgets. frame_unfold.
  destruct (registry w !! "tabbed-browser") as [o|] eqn:Hreg.
  - destruct o; run_unfold; rewrite Hreg; cbv iota beta;
      try (eexists; rewrite logged_one; reflexivity).
    destruct (recover_loop_run tabs [] w) as [l ->]. now exists l.
  - exists []. run_unfold. rewrite Hreg. cbv iota. now rewrite logged_nil.
Qed.
Lemma hook_history_run (w : world) :
  exists h l,
    try_except
      (o ← objreg.get "status-command";
       h ← attr_history o;
       mret (last5 h))
      [(is_Exception, fun _ =>
          log "destroy" EXCEPTION "Error while getting history: {}" [];;
          mret [])] w
    = (Ret h, logged l w).
Proof.
  unfold objreg.get, attr_history. frame_unfold.
  destruct (registry w !! "status-command") as [o|] eqn:Hreg.
  - destruct o; run_unfold; rewrite Hreg; cbv iota beta;
      try (eexists; eexists; rewrite logged_one; reflexivity).
    eexists. exists []. now rewrite logged_nil.
  - run_unfold. rewrite Hreg. cbv iota beta.
    eexists; eexists; rewrite logged_one; reflexivity.
Qed.

Lemma hook_objects_run (e : env) (w : world) :
  exists objects l,
    try_except (lift (all_objects e))
      [(is_Exception, fun _ =>
          log "destroy" EXCEPTION "Error while getting objects" [];;
          mret "")] w
    = (Ret objects, logged l w).
Proof.
  frame_unfold. destruct (all_objects e) as [s|x]; run_unfold.
  - exists s, []. now rewrite logged_nil.
  - eexists; eexists; rewrite logged_one; reflexivity.
Qed.

Lemma set_lastWindowClosed_connected_same (w : world) :
  set_lastWindowClosed_connected (lastWindowClosed_connected w) w = w.
Proof. now destruct w. Qed.

Lemma hook_disconnect_run (w : world) :
  exists b l,
    try_except disconnect_lastWindowClosed
      [(is_TypeError, fun _ =>
          log "destroy" EXCEPTION "Error while preventing shutdown" [])] w
    = (Ret tt, set_lastWindowClosed_connected b (logged l w)).
Proof.
  unfold disconnect_lastWindowClosed. frame_unfold. run_unfold.
  destruct (lastWindowClosed_connected w) eqn:Hc; run_unfold.
  - exists false, []. now rewrite logged_nil.
  - exists false. eexists. rewrite logged_one.
    rewrite <- (set_lastWindowClosed_connected_same (logged _ w)) at 1.
    change (lastWindowClosed_connected (logged ?l w))
      with (lastWindowClosed_connected w).
    rewrite Hc. reflexivity.
Qed.

Lemma restart_run (e : env) (pages : list string) (w : world) :
  exists l,
    restart e false (Some pages) w
    = (Ret tt,
       set_children (fun c => c ++ [(restart_args e pages, snd (launch e))])
         (logged l w)).
Proof.
  unfold restart, Popen. frame_unfold. run_unfold.
  rewrite !logged_one, !logged_logged. eexists. reflexivity.
Qed.

Lemma destroy_crashlogfile_run (e : env) (w : world) :
  exists w',
    _destroy_crashlogfile e w = (Ret tt, w') /\
    children w' = children w /\
    message_handler w' = message_handler w /\
    _crashdlg w' = _crashdlg w.
Proof.
  unfold _destroy_crashlogfile, os_remove. frame_unfold. run_unfold.
  destruct (_crashlogfile w) as [f|]; [|now exists w].
  destruct (sys_stderr_present e); run_unfold; world_simpl;
    (destruct (files w !! name f);
       [destruct (remove_permitted e (name f))|]);
    cbn [is_PermissionError is_FileNotFoundError orb];
    eexists; (split; [reflexivity|]); now repeat split.
Qed.

Lemma destroy_crashlogfile_marker (e : env) (w1 w2 : world) :
  marker_of w1 = marker_of w2 ->
  marker_of (snd (_destroy_crashlogfile e w1))
  = marker_of (snd (_destroy_crashlogfile e w2)).
Proof.
  unfold marker_of. intros H. injection H as Hfiles Hfault Hfile.
  unfold _destroy_crashlogfile, os_remove. frame_unfold. run_unfold.
  rewrite Hfile. destruct (_crashlogfile w2) as [f|] eqn:Hfile2;
    [|cbn [fst snd]; now rewrite Hfiles, Hfault, Hfile, Hfile2].
  destruct (sys_stderr_present e); run_unfold; world_simpl; rewrite Hfiles;
    (destruct (files w2 !! name f);
       [destruct (remove_permitted e (name f))|]);
    cbn [is_PermissionError is_FileNotFoundError orb]; world_simpl;
    now rewrite ?Hfiles.
Qed.
Ltac run_prim :=
  match goal with
  | |- context [bind (modify ?f) ?k ?w] =>
      rewrite (bind_run (modify f) k w (f w) tt eq_refl); cbv beta
  end.

Lemma destroy_crashlogfile_deletes (e : env) (w : world) (f : file)
    (data : string) :
  _crashlogfile w = Some f ->
  files w !! name f = Some data ->
  remove_permitted e (name f) = true ->
  marker_of (snd (_destroy_crashlogfile e w))
  = (delete (name f) (files w),
     if sys_stderr_present e then fault_stderr else fault_disabled,
     Some (File (name f) true)).
Proof.
  intros Hf Hfile Hperm. unfold marker_of, _destroy_crashlogfile, os_remove.
  frame_unfold. run_unfold. rewrite Hf. cbv beta iota.
  destruct (sys_stderr_present e); world_simpl; rewrite Hfile, Hperm;
    reflexivity.
Qed.

(** C8, as stated, fails: when the user accepts the restore in the crash
    dialog, the hook spawns the new process and then goes on to the same
    forced cleanup and ends with exit status 1 as well. *)
Lemma C8_counterexample_accepted_exits_1 :
  let e := sample.answering Accepted sample.module_env in
  let w := sample.registered "tabbed-browser"
             (TabbedBrowser [Tab (Ok "https://x"); Tab (Ok "https://y")])
             sample.fresh in
  let r := _exception_hook e (ExceptionClass "ValueError") w in
  crashdlg_exec e = Accepted /\
  fst r = Exit 1 /\
  message_handler (snd r) = false /\
  children (snd r) =
    [(["/usr/bin/python3"; "-m"; "qutebrowser"; "--debug";
       "https://x"; "https://y"],
      Some "/home/user/src/qutebrowser/..")].
Proof. vm_compute. repeat split. Qed.

(** C8 (amended): for a genuine fault the exception hook ends the process
    with exit status 1 whether the user declines or accepts the restore in
    the crash dialog, after the minimal forced cleanup (message handler
    removed, crash marker handled as [_destroy_crashlogfile] does: closed
    and deleted when the process holds its handle and may delete it).  The
    dialog is built from the recovered pages.  If the user accepts, a new
    process carrying the recovered pages is spawned before the cleanup; if
    the user declines, none is.  In neither case does a part of the graceful
    shutdown run. *)
Theorem C8_exception_hook_exit_status (e : env) (exctype : exc_class)
    (w : world) :
  benign exctype = false ->
  let r := _exception_hook e exctype w in
  let pages := recovered (registry w) in
  fst r = Exit 1 /\
  message_handler (snd r) = false /\
  marker_of (snd r) = marker_of (snd (_destroy_crashlogfile e w)) /\
  (forall f data,
     _crashlogfile w = Some f -> files w !! name f = Some data ->
     remove_permitted e (name f) = true ->
     files (snd r) = delete (name f) (files w) /\
     faulthandler (snd r)
     = (if sys_stderr_present e then fault_stderr else fault_disabled) /\
     _crashlogfile (snd r) = Some (File (name f) true)) /\
  (exists history objects,
     _crashdlg (snd r)
     = Some (ExceptionCrashDialog pages history exctype objects)) /\
  (crashdlg_exec e = Accepted ->
     children (snd r)
     = children w ++ [(restart_args e pages, snd (launch e))]) /\
  (crashdlg_exec e = Rejected -> children (snd r) = children w) /\
  graceful_shutdown_not_run w (snd r).
Proof.
  intros Hb r pages.
  assert (Hgraceful : graceful_shutdown_not_run w (snd r)).
  { apply (exception_hook_not_graceful e exctype w Hb). now repeat split. }
  revert Hgraceful. subst r. unfold _exception_hook. rewrite Hb.
  frame_unfold.
  run_prim.
  run_prim.
  match goal with |- context [bind (try_except _recover_pages _) _ ?w1] =>
    destruct (hook_pages_run w1) as [l1 Hrun] end.
  rewrite (bind_run _ _ _ _ _ Hrun). clear Hrun. cbv beta. world_simpl. fold pages.
  match goal with
  | |- context [bind (try_except (bind (objreg.get _) _) _) _ ?w1] =>
    destruct (hook_history_run w1) as (history & l2 & Hrun) end.
  unfold mbind, M_bind, mret, M_ret in Hrun.
  rewrite (bind_run _ _ _ _ _ Hrun). clear Hrun. cbv beta.
  match goal with |- context [bind (try_except (lift _) _) _ ?w1] =>
    destruct (hook_objects_run e w1) as (objects & l3 & Hrun) end.
  unfold mbind, M_bind, mret, M_ret in Hrun.
  rewrite (bind_run _ _ _ _ _ Hrun). clear Hrun. cbv beta.
  match goal with
  | |- context [bind (try_except disconnect_lastWindowClosed _) _ ?w1] =>
    destruct (hook_disconnect_run w1) as (b & l4 & Hrun) end.
  rewrite (bind_run _ _ _ _ _ Hrun). clear Hrun. cbv beta.
  run_prim.
  run_prim.
  run_prim.
  match goal with |- context [bind (when _ _) _ ?w1] =>
    assert (Hwhen : exists l5,
      when (match crashdlg_exec e with Accepted => true | Rejected => false end)
        (restart e false (Some pages)) w1
      = (Ret tt,
         set_children (fun c => c ++
             match crashdlg_exec e with
             | Accepted => [(restart_args e pages, snd (launch e))]
             | Rejected => []
             end) (logged l5 w1)))
  end.
  { destruct (crashdlg_exec e); cbn [when].
    - exists []. rewrite logged_nil. unfold ret, set_children. f_equal.
      match goal with |- ?w1 = _ => destruct w1 end. cbn.
      now rewrite app_nil_r.
    - apply restart_run. }
  destruct Hwhen as [l5 Hrun].
  rewrite (bind_run _ _ _ _ _ Hrun). clear Hrun. cbv beta.
  run_prim.
  match goal with |- context [bind (_destroy_crashlogfile e) _ ?w1] =>
    destruct (destroy_crashlogfile_run e w1) as (w' & Hrun & Hc & Hm & Hd);
    pose proof (destroy_crashlogfile_marker e w1 w eq_refl) as Hmarker
  end.
  rewrite Hrun in Hmarker.
  rewrite (bind_run _ _ _ _ _ Hrun). clear Hrun. cbv beta.
  unfold sys_exit. cbn [fst snd]. intros Hgraceful.
  unfold logged in *. world_simpl.
  split; [reflexivity|]. split; [exact Hm|]. split; [exact Hmarker|].
  split.
  { intros f data Hf Hfile Hperm.
    rewrite (destroy_crashlogfile_deletes e w f data Hf Hfile Hperm)
      in Hmarker.
    unfold marker_of in Hmarker. injection Hmarker as -> -> ->.
    now repeat split. }
  split; [exists history, objects; exact Hd|].
  split; [|split]; [| |exact Hgraceful].
  - intros Ha. rewrite Hc, Ha. reflexivity.
  - intros Hr. rewrite Hc, Hr. apply app_nil_r.
Qed.

Lemma C8_exception_hook_exit_status_witness :
  let w := sample.registered "tabbed-browser"
             (TabbedBrowser [Tab (Ok "https://x"); Tab (Ok "https://y")])
             sample.fresh in
  fst (_exception_hook (sample.answering Rejected sample.module_env)
         (ExceptionClass "ValueError") w) = Exit 1 /\
  fst (_exception_hook (sample.answering Accepted sample.module_env)
         (ExceptionClass "ValueError") w) = Exit 1 /\
  children (snd (_exception_hook (sample.answering Rejected sample.module_env)
                   (ExceptionClass "ValueError") w)) = children w.
Proof.
  intros w. split; [|split].
  - apply (proj1 (C8_exception_hook_exit_status
                    (sample.answering Rejected sample.module_env)
                    (ExceptionClass "ValueError") w eq_refl)).
  - apply (proj1 (C8_exception_hook_exit_status
                    (sample.answering Accepted sample.module_env)
                    (ExceptionClass "ValueError") w eq_refl)).
  - apply (proj1 (proj2 (proj2 (proj2 (proj2 (proj2 (proj2
             (C8_exception_hook_exit_status
                (sample.answering Rejected sample.module_env)
                (ExceptionClass "ValueError") w eq_refl)))))))).
    reflexivity.
Defined.
(** ** The shutdown latch *)

Lemma post_bind {A B} (P R : world -> Prop) (m : M world A)
    (k : A -> M world B) :
  (forall w, P w -> R (snd (m w))) ->
  (forall a, preserves R (k a)) ->
  forall w, P w -> R (snd (bind m k w)).
Proof.
  intros Hm Hk w H. unfold bind. specialize (Hm w H).
  destruct (m w) as [[a|x|c] w1]; cbn in *; [now apply Hk|..]; assumption.
Qed.

Lemma stage2_pending_snoc (q : list callback) (cb : callback) :
  length (List.filter is_CbStage2 (q ++ [cb]))
  = (if is_CbStage2 cb then S (length (List.filter is_CbStage2 q))
     else length (List.filter is_CbStage2 q)).
Proof.
  rewrite List.filter_app, length_app. cbn [List.filter].
  destruct (is_CbStage2 cb); cbn [length]; lia.
Qed.

(** Closing the goals that [frame] leaves for [stage2_state]. *)
Ltac stage2_goal :=
  let w := fresh "w" in let H := fresh "H" in
  intros w H; unfold stage2_state, stage2_runs, stage2_pending in *;
  world_simpl;
  rewrite ?stage2_count_snoc, ?stage2_pending_snoc;
  cbn [is_stage2_record is_CbStage2]; exact H.

Lemma recover_loop_stage2 n k b tabs pages :
  preserves (stage2_state n k b) (recover_loop tabs pages).
Proof.
  revert pages. induction tabs as [|t tabs IH]; intros pages; cbn [recover_loop].
  - frame.
  - frame; auto. stage2_goal.
Qed.
#[export] Hint Resolve recover_loop_stage2 : frame.

Lemma shutdown2_stage2 (e : env) (status : Z) n k b (w : world) :
  stage2_state n k b w ->
  stage2_state (S n) k b (snd (_shutdown e status w)).
Proof.
  unfold _shutdown. frame_unfold. apply post_bind.
  - clear w. intros w H. unfold stage2_state, stage2_runs, stage2_pending in *.
    unfold modify. world_simpl. rewrite stage2_count_snoc.
    cbn [is_stage2_record]. destruct H as (<- & H). now split.
  - intros _. frame. all: stage2_goal.
Qed.

Lemma shutdown_latched (e : env) (status : Z) (w : world) :
  _shutting_down w = true -> shutdown e status w = (Ret tt, w).
Proof. intros H. unfold shutdown. frame_unfold. run_unfold. now rewrite H. Qed.

(** The world in which [shutdown] looks for the prompter. *)
Lemma shutdown_unlatched (e : env) (status : Z) (w : world) :
  _shutting_down w = false ->
  let w1 := set_trace (fun t => t ++
              [Log "destroy" DEBUG "Shutting down with status {}..."
                 [AInt status]]) (set_shutting_down true w) in
  shutdown e status w =
  match registry w !! "prompter" with
  | None => _shutdown e status w1
  | Some (Prompter active) =>
      let w2 := set_registry (insert "prompter" (Prompter false)) w1 in
      if active then
        (Ret tt,
         set_timers (fun q => q ++ [CbStage2 status])
           (set_trace (fun t => t ++
              [Log "destroy" DEBUG
                 "Deferring real shutdown because question was active." []])
              w2))
      else _shutdown e status w2
  | Some _ => (Exc AttributeError, w1)
  end.
Proof.
  intros H. unfold shutdown, prompter_shutdown, objreg.get_default.
  frame_unfold. run_unfold. rewrite H. world_simpl.
  destruct (registry w !! "prompter") as [o|]; [|reflexivity].
  destruct o; try reflexivity. now destruct question_active.
Qed.

Lemma shutdown_latch_invariant (e : env) (status : Z) (w : world) :
  latch_invariant w -> latch_invariant (snd (shutdown e status w)).
Proof.
  intros Hinv. destruct (_shutting_down w) eqn:Hsd.
  - now rewrite shutdown_latched.
  - destruct Hinv as [Hopen _]. destruct (Hopen Hsd) as [Hruns Hpend].
    rewrite (shutdown_unlatched e status w Hsd). cbv zeta.
    assert (Hstage2 : forall w1,
              stage2_state 0 0 true w1 ->
              latch_invariant (snd (_shutdown e status w1))).
    { intros w1 H1. apply (shutdown2_stage2 e status) in H1.
      destruct H1 as (Hr & Hp & Hl). unfold latch_invariant.
      rewrite Hr, Hp, Hl. split; [discriminate | lia]. }
    destruct (registry w !! "prompter") as [o|].
    + destruct o; try (cbn [snd]; unfold latch_invariant, stage2_runs,
                         stage2_pending in *; world_simpl;
                       rewrite stage2_count_snoc; cbn [is_stage2_record];
                       split; [discriminate | lia]).
      destruct question_active.
      * cbn [snd]. unfold latch_invariant, stage2_runs, stage2_pending in *.
        world_simpl. rewrite !stage2_count_snoc, stage2_pending_snoc.
        cbn [is_stage2_record is_CbStage2]. split; [discriminate | lia].
      * apply Hstage2. unfold stage2_state, stage2_runs, stage2_pending in *.
        world_simpl. rewrite stage2_count_snoc. cbn [is_stage2_record].
        now repeat split.
    + apply Hstage2. unfold stage2_state, stage2_runs, stage2_pending in *.
      world_simpl. rewrite stage2_count_snoc. cbn [is_stage2_record].
      now repeat split.
Qed.

Lemma tick_cases (e : env) (w : world) :
  tick e w =
  match exit_status w, timers w with
  | None, cb :: rest => run_callback e cb (set_timers (fun _ => rest) w)
  | _, _ => (Ret tt, w)
  end.
Proof.
  unfold tick. frame_unfold. run_unfold.
  destruct (exit_status w); [reflexivity|]. now destruct (timers w).
Qed.

Lemma tick_latch_invariant (e : env) (w : world) :
  latch_invariant w -> latch_invariant (snd (tick e w)).
Proof.
  intros Hinv. rewrite tick_cases.
  destruct (exit_status w); [exact Hinv|].
  destruct (timers w) as [|cb rest] eqn:Ht; [exact Hinv|].
  destruct cb as [status|status|status]; cbn [run_callback].
  - apply shutdown_latch_invariant.
    unfold latch_invariant, stage2_runs, stage2_pending in *. world_simpl.
    rewrite Ht in Hinv. exact Hinv.
  - unfold latch_invariant, stage2_pending in Hinv. rewrite Ht in Hinv.
    cbn [List.filter is_CbStage2 length] in Hinv.
    destruct Hinv as [Hopen Hle].
    destruct (_shutting_down w) eqn:Hsd;
      [|destruct (Hopen eq_refl) as [_ Hp0]; discriminate Hp0].
    pose proof (shutdown2_stage2 e status (stage2_runs w)
                  (length (List.filter is_CbStage2 rest)) true
                  (set_timers (fun _ => rest) w)) as H.
    destruct H as (Hr & Hp & Hl); [now repeat split|].
    unfold latch_invariant. rewrite Hr, Hp, Hl. split; [discriminate | lia].
  - unfold app.exit. frame_unfold. run_unfold.
    unfold latch_invariant, stage2_runs, stage2_pending in *. world_simpl.
    rewrite stage2_count_snoc. cbn [is_stage2_record].
    rewrite Ht in Hinv. exact Hinv.
Qed.

(** Closing the goals that [frame] leaves for [latch_invariant]. *)
Ltac latch_goal :=
  let w := fresh "w" in let H := fresh "H" in
  intros w H; unfold latch_invariant, stage2_runs, stage2_pending in *;
  world_simpl;
  rewrite ?stage2_count_snoc, ?stage2_pending_snoc;
  cbn [is_stage2_record is_CbStage2]; exact H.

Lemma shutdown_preserves_latch (e : env) (status : Z) :
  preserves latch_invariant (shutdown e status).
Proof. intros w. apply shutdown_latch_invariant. Qed.
#[export] Hint Resolve shutdown_preserves_latch : frame.

Lemma recover_loop_latch tabs pages :
  preserves latch_invariant (recover_loop tabs pages).
Proof.
  revert pages. induction tabs as [|t tabs IH]; intros pages; cbn [recover_loop].
  - frame.
  - frame; auto. latch_goal.
Qed.
#[export] Hint Resolve recover_loop_latch : frame.

Lemma deliver_preserves_latch (signum : Z) :
  preserves latch_invariant (deliver signum).
Proof. unfold deliver. frame. all: latch_goal. Qed.

Lemma exception_hook_preserves_latch (e : env) (exctype : exc_class) :
  preserves latch_invariant (_exception_hook e exctype).
Proof. unfold _exception_hook. frame. all: latch_goal. Qed.

Lemma run_latch_invariant (e : env) (acts : list action) (w : world) :
  latch_invariant w -> latch_invariant (run e acts w).
Proof.
  revert w. induction acts as [|a acts IH]; intros w Hinv; [exact Hinv|].
  cbn [run fold_left]. apply IH.
  destruct a as [status| |signum|exctype]; cbn [step].
  - now apply shutdown_latch_invariant.
  - now apply tick_latch_invariant.
  - now apply deliver_preserves_latch.
  - now apply exception_hook_preserves_latch.
Qed.

(** C1: shutdown is idempotent.  From a state with the latch open and no
    Stage 2 run or pending, whatever the sequence of calls of [shutdown]
    (with any status), run-loop iterations, signal deliveries and uncaught
    exceptions, Stage 2 is entered at most once.  Once the latch [_shutting_down] is set, a call of [shutdown]
    returns at once and changes nothing: it neither runs nor schedules
    Stage 2.  When a modal question is active, [shutdown] sets the latch and
    schedules Stage 2 as a zero-delay timer instead of running it, and the
    run-loop iteration that fires this timer runs Stage 2.  Without an
    active question, two calls in a row enter Stage 2 exactly once. *)
Theorem C1_shutdown_idempotent (e : env) :
  (forall acts w,
     _shutting_down w = false -> stage2_runs w = 0 -> stage2_pending w = 0 ->
     stage2_runs (run e acts w) <= 1) /\
  (forall status w,
     _shutting_down w = true -> shutdown e status w = (Ret tt, w)) /\
  (forall status w,
     _shutting_down w = false ->
     registry w !! "prompter" = Some (Prompter true) ->
     let w' := snd (shutdown e status w) in
     fst (shutdown e status w) = Ret tt /\
     _shutting_down w' = true /\
     timers w' = timers w ++ [CbStage2 status] /\
     stage2_runs w' = stage2_runs w) /\
  (forall status w rest,
     exit_status w = None -> timers w = CbStage2 status :: rest ->
     tick e w = _shutdown e status (set_timers (fun _ => rest) w)) /\
  (forall s1 s2 w,
     _shutting_down w = false -> stage2_runs w = 0 ->
     registry w !! "prompter" = None \/
     registry w !! "prompter" = Some (Prompter false) ->
     stage2_runs (run e [CallShutdown s1; CallShutdown s2] w) = 1).
Proof.
  split; [|split; [|split; [|split]]].
  - intros acts w Hsd Hruns Hpend.
    assert (Hinv : latch_invariant w).
    { unfold latch_invariant. rewrite Hruns, Hpend. split; [now split | lia]. }
    destruct (run_latch_invariant e acts w Hinv) as [_ Hle]. lia.
  - intros status w. apply shutdown_latched.
  - intros status w Hsd Hprompter. cbv zeta.
    rewrite (shutdown_unlatched e status w Hsd), Hprompter. cbv zeta.
    cbn [fst snd]. unfold stage2_runs. world_simpl.
    rewrite !stage2_count_snoc. cbn [is_stage2_record]. now repeat split.
  - intros status w rest Hexit Htimers.
    now rewrite tick_cases, Hexit, Htimers.
  - intros s1 s2 w Hsd Hruns Hprompter. cbn [run fold_left step].
    assert (H1 : stage2_state 1 (stage2_pending w) true
                   (snd (shutdown e s1 w))).
    { rewrite (shutdown_unlatched e s1 w Hsd). cbv zeta.
      destruct Hprompter as [-> | ->]; apply shutdown2_stage2;
        unfold stage2_state, stage2_runs, stage2_pending in *; world_simpl;
        rewrite stage2_count_snoc; cbn [is_stage2_record];
        now repeat split. }
    destruct H1 as (Hr & _ & Hl).
    now rewrite (shutdown_latched e s2 _ Hl).
Qed.

Lemma C1_shutdown_idempotent_witness :
  let asking := sample.registered "prompter" (Prompter true) sample.fresh in
  stage2_runs (run sample.module_env
                 [CallShutdown 0; CallShutdown 1; Tick; Signal SIGINT;
                  CallShutdown 2; Tick; Tick]
                 asking) <= 1 /\
  timers (snd (shutdown sample.module_env 0 asking)) = [CbStage2 0%Z] /\
  stage2_runs (run sample.module_env [CallShutdown 0; CallShutdown 1]
                 sample.fresh) = 1 /\
  shutdown sample.module_env 1 (set_shutting_down true sample.fresh)
  = (Ret tt, set_shutting_down true sample.fresh).
Proof.
  intros asking.
  destruct (C1_shutdown_idempotent sample.module_env)
    as (Hmost & Hlatched & Hdefer & _ & Htwice).
  split; [|split; [|split]].
  - apply (Hmost _ asking eq_refl eq_refl eq_refl).
  - apply (Hdefer 0%Z asking eq_refl eq_refl).
  - apply (Htwice 0%Z 1%Z sample.fresh eq_refl eq_refl (or_introl eq_refl)).
  - apply (Hlatched 1%Z (set_shutting_down true sample.fresh) eq_refl).
Defined.
(** ** Persistence in Stage 2 *)

(** C2, as stated, fails: when saving the command history raises an
    [OSError], the exception leaves [_shutdown]: the state config and the
    cookies are never saved and no exit is scheduled. *)
Lemma C2_counterexample_oserror_propagates :
  let r := _shutdown sample.module_env 0 history_unwritable in
  fst r = Exc OSError /\
  handler_calls (trace (snd r))
  = ["config.save"; "Application._save_geometry"; "quickmarks.save";
     "command-history.save"] /\
  expected_saves sample.module_env (registry history_unwritable)
  = ["config.save"; "Application._save_geometry"; "quickmarks.save";
     "command-history.save"; "state-config.save"; "cookie-jar.save"] /\
  timers (snd r) = [] /\
  exit_status (snd r) = None.
Proof. vm_compute. repeat split. Qed.
Lemma save_geometry_run (e : env) (w : world) :
  geometry_ready (registry w) = true ->
  exists w',
    _save_geometry e w = (Ret tt, w') /\
    geometry_ready (registry w') = true /\
    timers w' = timers w /\
    trace w' = trace w.
Proof.
  unfold geometry_ready. intros H.
  destruct (registry w !! "state-config") as [sc|] eqn:Hsc; [|discriminate].
  destruct sc as [|sections save| | | | | |]; try discriminate.
  destruct (registry w !! "main-window") as [mw|] eqn:Hmw; [|discriminate].
  destruct mw as [| | | | |win| |]; try discriminate.
  unfold _save_geometry, add_section, setitem2, objreg.get.
  frame_unfold. run_unfold. rewrite Hsc, Hmw. cbv beta iota.
  rewrite Hsc. cbv beta iota.
  destruct (sections !! "geometry") as [sec|] eqn:Hsec; cbv beta iota.
  - rewrite Hsc. cbv beta iota. rewrite Hsec. eexists. split; [reflexivity|].
    world_simpl. rewrite lookup_insert_eq.
    rewrite lookup_insert_ne by discriminate. now rewrite Hmw.
  - world_simpl. rewrite lookup_insert_eq. cbv beta iota.
    rewrite lookup_insert_eq. eexists. split; [reflexivity|].
    world_simpl. rewrite lookup_insert_eq.
    rewrite !lookup_insert_ne by discriminate. now rewrite Hmw.
Qed.

Lemma could_not_save_snoc (t : list event) (ev : event) :
  could_not_save (t ++ [ev])
  = could_not_save t ++ match could_not_save_record ev with
                        | Some what => [what]
                        | None => []
                        end.
Proof. unfold could_not_save. rewrite omap_app. reflexivity. Qed.

(** One turn of the loop over [to_save]. *)
Lemma save_one_run (e : env) (what : string) (h : handler) (w : world) :
  geometry_ready (registry w) = true ->
  handler_tolerable e h = true ->
  exists w',
    (log "destroy" DEBUG "Saving {} (handler: {})"
       [AStr what; AStr (qualname h)];;
     try_except (run_handler e h)
       [(is_AttributeError, fun _ =>
           log "destroy" WARNING "Could not save {}." [AStr what];;
           log "destroy" DEBUG "{}" [AStr "AttributeError"])]) w
    = (Ret tt, w') /\
    geometry_ready (registry w') = true /\
    timers w' = timers w /\
    handler_calls (trace w') = handler_calls (trace w) ++ [qualname h] /\
    could_not_save (trace w')
    = could_not_save (trace w) ++ (if handler_fails e h then [what] else []).
Proof.
  intros Hready Htol. unfold run_handler. frame_unfold.
  destruct h as [q s| |]; cbn [handler_tolerable handler_fails qualname] in *.
  - destruct s as [[]|x]; [|destruct x; try discriminate]; run_unfold;
      (eexists; split; [reflexivity|]); world_simpl;
      rewrite ?handler_calls_snoc, ?could_not_save_snoc;
      cbn [handler_call could_not_save_record];
      rewrite ?app_nil_r; now repeat split.
  - run_unfold. world_simpl.
    match goal with |- context [_save_geometry e ?w1] =>
      destruct (save_geometry_run e w1 Hready) as (w' & -> & Hr & Ht & Htr)
    end.
    cbv beta iota. exists w'. split; [reflexivity|].
    rewrite Ht, Htr. world_simpl.
    rewrite ?handler_calls_snoc, ?could_not_save_snoc.
    cbn [handler_call could_not_save_record].
    rewrite ?app_nil_r. now repeat split.
  - destruct (quickmarks_save e) as [[]|x]; [|destruct x; try discriminate];
      run_unfold;
      (eexists; split; [reflexivity|]); world_simpl;
      rewrite ?handler_calls_snoc, ?could_not_save_snoc;
      cbn [handler_call could_not_save_record];
      rewrite ?app_nil_r; now repeat split.
Qed.

Lemma save_all_run (e : env) (to_save : list (string * handler)) (w : world) :
  geometry_ready (registry w) = true ->
  forallb (fun p => handler_tolerable e (snd p)) to_save = true ->
  exists w',
    save_all e to_save w = (Ret tt, w') /\
    geometry_ready (registry w') = true /\
    timers w' = timers w /\
    handler_calls (trace w')
    = handler_calls (trace w) ++ map (fun p => qualname (snd p)) to_save /\
    could_not_save (trace w')
    = could_not_save (trace w) ++
      map fst (List.filter (fun p => handler_fails e (snd p)) to_save).
Proof.
  revert w. induction to_save as [|[what h] to_save IH]; intros w Hready Htol.
  - exists w. cbn. rewrite !app_nil_r. now repeat split.
  - cbn [forallb snd] in Htol. apply andb_true_iff in Htol as [Hh Hrest].
    unfold save_all. cbn [for_each].
    destruct (save_one_run e what h w Hready Hh)
      as (w1 & Hrun & Hr1 & Ht1 & Hc1 & Hf1).
    rewrite (bind_run _ _ _ _ _ Hrun).
    destruct (IH w1 Hr1 Hrest) as (w' & Hrun' & Hr' & Ht' & Hc' & Hf').
    unfold save_all in Hrun'. rewrite Hrun'.
    exists w'. split; [reflexivity|]. split; [exact Hr'|].
    split; [congruence|]. split.
    + rewrite Hc', Hc1. cbn [map snd]. now rewrite <- app_assoc.
    + rewrite Hf', Hf1. cbn [List.filter snd].
      destruct (handler_fails e h); cbn [map fst]; now rewrite <- app_assoc.
Qed.
Lemma append_registered_run (key what qn : string)
    (to_save : list (string * handler)) (w : world) :
  tolerated_at (registry w) key = true ->
  append_registered key what qn to_save w
  = (Ret (to_save ++ registered_save (registry w) key what qn), w).
Proof.
  unfold tolerated_at, registered_save, append_registered, objreg.get,
    attr_save.
  frame_unfold. run_unfold.
  destruct (registry w !! key) as [o|]; [|now rewrite app_nil_r].
  destruct o; cbn [save_of]; try discriminate; reflexivity.
Qed.

Lemma build_to_save_run (e : env) (config_obj : obj) (w : world) :
  registry w !! "config" = Some config_obj ->
  saves_tolerable e (registry w) = true ->
  build_to_save e config_obj w = (Ret (to_save_list e (registry w)), w).
Proof.
  unfold saves_tolerable. intros Hcfg Htol.
  repeat (apply andb_true_iff in Htol as [Htol ?]).
  assert (Hsave : exists s, save_of config_obj = Some s).
  { unfold tolerated_at in *. rewrite Hcfg in *.
    destruct (save_of config_obj); [eauto | discriminate]. }
  destruct Hsave as [s Hs].
  unfold build_to_save, to_save_list, attr_save. frame_unfold.
  unfold registered_save at 1. rewrite Hcfg, Hs.
  destruct (auto_save_config e);
    (destruct config_obj; cbn [save_of] in Hs; try discriminate;
     injection Hs as ->); run_unfold;
    repeat (rewrite append_registered_run by assumption; cbv beta iota);
    cbn [app]; now rewrite <- ?app_assoc.
Qed.
Lemma registered_save_tolerable (e : env) (reg : gmap string obj)
    (key what qn : string) :
  tolerated_at reg key = true ->
  forallb (fun p => handler_tolerable e (snd p))
    (registered_save reg key what qn) = true.
Proof.
  unfold tolerated_at, registered_save.
  destruct (reg !! key) as [o|]; [|reflexivity].
  destruct (save_of o); [|reflexivity]. cbn. now intros ->.
Qed.

Lemma to_save_list_tolerable (e : env) (reg : gmap string obj) :
  saves_tolerable e reg = true ->
  forallb (fun p => handler_tolerable e (snd p)) (to_save_list e reg) = true.
Proof.
  unfold saves_tolerable. intros Htol.
  repeat (apply andb_true_iff in Htol as [Htol ?]).
  unfold to_save_list. rewrite !forallb_app.
  rewrite !registered_save_tolerable by assumption.
  cbn [forallb handler_tolerable snd]. rewrite Htol.
  destruct (auto_save_config e); [|reflexivity].
  rewrite forallb_app. now rewrite !registered_save_tolerable by assumption.
Qed.

Lemma save_everything_run (e : env) (w : world) :
  saves_tolerable e (registry w) = true ->
  exists w',
    save_everything e w = (Ret tt, w') /\
    timers w' = timers w /\
    handler_calls (trace w')
    = handler_calls (trace w) ++ expected_saves e (registry w) /\
    could_not_save (trace w')
    = could_not_save (trace w) ++ expected_failures e (registry w).
Proof.
  intros Htol. unfold save_everything, expected_saves, expected_failures.
  unfold try_except_else, objreg.get.
  destruct (registry w !! "config") as [config_obj|] eqn:Hcfg.
  - frame_unfold. rewrite (bind_run _ _ _ _ _
                             (build_to_save_run e config_obj w Hcfg Htol)).
    assert (Hready : geometry_ready (registry w) = true).
    { unfold saves_tolerable in Htol. apply andb_true_iff in Htol as [_ H].
      apply orb_true_iff in H as [H|H]; [exact H|].
      apply bool_decide_eq_true in H. congruence. }
    destruct (save_all_run e _ w Hready (to_save_list_tolerable e _ Htol))
      as (w' & Hrun & _ & Ht & Hc & Hf).
    exists w'. now repeat split.
  - cbn [dispatch is_KeyError]. frame_unfold. run_unfold.
    eexists. split; [reflexivity|]. world_simpl.
    rewrite handler_calls_snoc, could_not_save_snoc.
    cbn [handler_call could_not_save_record]. now rewrite !app_nil_r.
Qed.

(** Closing the goals that [frame] leaves for [persistence_state]. *)
Ltac persistence_goal :=
  let w := fresh "w" in let H := fresh "H" in
  intros w H; unfold persistence_state in *; world_simpl;
  rewrite ?handler_calls_snoc, ?could_not_save_snoc;
  cbn [handler_call could_not_save_record]; rewrite ?app_nil_r; exact H.

Lemma destroy_crashlogfile_persistence (e : env) t c f :
  preserves (persistence_state t c f) (_destroy_crashlogfile e).
Proof. unfold _destroy_crashlogfile. frame. all: persistence_goal. Qed.

Lemma destroy_crashlogfile_returns (e : env) (w : world) :
  exists w', _destroy_crashlogfile e w = (Ret tt, w').
Proof.
  destruct (destroy_crashlogfile_run e w) as (w' & H & _). now exists w'.
Qed.

(** The [# Remove eventfilter] part of [_shutdown]. *)
Lemma remove_eventfilter_run (w : world) :
  exists l,
    try_except
      (log "destroy" DEBUG "Removing eventfilter..." [];;
       _ ← objreg.get "mode-manager";
       call "removeEventFilter" [AStr "mode-manager"])
      [(is_KeyError, pass)] w
    = (Ret tt, logged l w) /\
    handler_calls l = [] /\ could_not_save l = [].
Proof.
  unfold objreg.get. frame_unfold. run_unfold. world_simpl.
  destruct (registry w !! "mode-manager"); cbv beta iota;
    rewrite !logged_one, ?logged_logged; eexists; split;
    try reflexivity; now split.
Qed.

(** The [# Close all tabs] part of [_shutdown]. *)
Lemma close_tabs_run (w : world) :
  tabs_closable (registry w) = true ->
  exists l (f : gmap string obj -> gmap string obj),
    try_except
      (log "destroy" DEBUG "Closing tabs..." [];;
       tabbed_browser ← objreg.get "tabbed-browser";
       tabbed_browser_shutdown tabbed_browser)
      [(is_KeyError, pass)] w
    = (Ret tt, set_registry f (logged l w)) /\
    handler_calls l = [] /\ could_not_save l = [] /\
    (forall reg, f reg = reg \/
                 f reg = <["tabbed-browser" := TabbedBrowser []]> reg).
Proof.
  unfold tabs_closable, objreg.get, tabbed_browser_shutdown.
  intros H. frame_unfold. run_unfold. world_simpl.
  destruct (registry w !! "tabbed-browser") as [o|]; cbv beta iota.
  - destruct o; try discriminate. cbv beta iota.
    rewrite !logged_one, ?logged_logged. eexists. eexists.
    split; [reflexivity|]. repeat split. intros reg. now right.
  - rewrite !logged_one. exists [Log "destroy" DEBUG "Closing tabs..." []].
    exists (fun reg => reg). split.
    + reflexivity.
    + repeat split. intros reg. now left.
Qed.
Lemma handler_calls_app (t l : list event) :
  handler_calls (t ++ l) = handler_calls t ++ handler_calls l.
Proof. unfold handler_calls. apply omap_app. Qed.

Lemma could_not_save_app (t l : list event) :
  could_not_save (t ++ l) = could_not_save t ++ could_not_save l.
Proof. unfold could_not_save. apply omap_app. Qed.

Lemma handler_calls_single (ev : event) :
  handler_calls [ev]
  = match handler_call ev with Some q => [q] | None => [] end.
Proof. reflexivity. Qed.

Lemma could_not_save_single (ev : event) :
  could_not_save [ev]
  = match could_not_save_record ev with Some q => [q] | None => [] end.
Proof. reflexivity. Qed.

(** What is saved does not depend on the tabbed browser. *)
Lemma saves_without_tabs (e : env) (reg : gmap string obj)
    (f : gmap string obj -> gmap string obj) :
  f reg = reg \/ f reg = <["tabbed-browser" := TabbedBrowser []]> reg ->
  saves_tolerable e (f reg) = saves_tolerable e reg /\
  expected_saves e (f reg) = expected_saves e reg /\
  expected_failures e (f reg) = expected_failures e reg.
Proof.
  intros [-> | ->]; [now repeat split|].
  unfold saves_tolerable, expected_saves, expected_failures, to_save_list,
    registered_save, tolerated_at, geometry_ready.
  rewrite !lookup_insert_ne by discriminate. now repeat split.
Qed.

Lemma debug_exit_run (b : bool) (w : world) :
  exists l,
    when b
      (call "print" [AStr "Now logging shutdown."];;
       call "debug.trace_lines" [];;
       call "gc.set_debug" []) w
    = (Ret tt, logged l w) /\
    handler_calls l = [] /\ could_not_save l = [].
Proof.
  destruct b; cbn [when]; frame_unfold; run_unfold.
  - rewrite !logged_one, !logged_logged. eexists. split; [reflexivity|].
    now split.
  - exists []. now rewrite logged_nil.
Qed.

(** C2 (amended): persistence in Stage 2 is isolated per item against
    [AttributeError].  If no save handler raises anything but
    [AttributeError] (and the tabbed browser, when registered, can be shut
    down), then [_shutdown] calls every save handler of its list, in order
    (config and key config when auto-save is on, window geometry,
    quickmarks, command history, state config, cookies, as far as
    registered), logs one warning for each handler that failed, does not
    raise, removes the message handler, clears the registry and schedules
    the exit with the given status as a zero-delay timer. *)
Theorem C2_persistence_isolated_per_item (e : env) (status : Z) (w : world) :
  tabs_closable (registry w) = true ->
  saves_tolerable e (registry w) = true ->
  let r := _shutdown e status w in
  fst r = Ret tt /\
  handler_calls (trace (snd r))
  = handler_calls (trace w) ++ expected_saves e (registry w) /\
  could_not_save (trace (snd r))
  = could_not_save (trace w) ++ expected_failures e (registry w) /\
  timers (snd r) = timers w ++ [CbExit status] /\
  message_handler (snd r) = false /\
  registry (snd r) = ∅.
Proof.
  intros Htabs Htol. cbv zeta. unfold _shutdown. frame_unfold.
  run_prim.
  match goal with |- context [bind (when ?b ?m) ?k ?w1] =>
    destruct (debug_exit_run b w1) as (l2 & Hrun & Hc2 & Hf2) end.
  unfold mbind, M_bind in Hrun.
  rewrite (bind_run _ _ _ _ _ Hrun). clear Hrun. cbv beta.
  match goal with |- context [bind (try_except _ _) ?k ?w1] =>
    destruct (remove_eventfilter_run w1) as (l3 & Hrun & Hc3 & Hf3) end.
  unfold mbind, M_bind in Hrun.
  rewrite (bind_run _ _ _ _ _ Hrun). clear Hrun. cbv beta.
  match goal with |- context [bind (try_except _ _) ?k ?w1] =>
    destruct (close_tabs_run w1 Htabs) as (l4 & f & Hrun & Hc4 & Hf4 & Hreg)
  end.
  unfold mbind, M_bind in Hrun.
  rewrite (bind_run _ _ _ _ _ Hrun). clear Hrun. cbv beta.
  destruct (saves_without_tabs e (registry w) f (Hreg _))
    as (Hsame & Hexp & Hfail).
  match goal with |- context [bind (save_everything e) ?k ?w1] =>
    destruct (save_everything_run e w1) as (w5 & Hrun & Ht5 & Hc5 & Hf5)
  end.
  { unfold logged. world_simpl. now rewrite Hsame. }
  rewrite (bind_run _ _ _ _ _ Hrun). clear Hrun. cbv beta.
  unfold logged in Ht5, Hc5, Hf5. world_simpl.
  rewrite Hexp in Hc5. rewrite Hfail in Hf5.
  rewrite !handler_calls_app, !handler_calls_single, Hc2, Hc3, Hc4 in Hc5.
  rewrite !could_not_save_app, !could_not_save_single, Hf2, Hf3, Hf4 in Hf5.
  cbn [handler_call could_not_save_record] in Hc5, Hf5.
  rewrite !app_nil_r in Hc5, Hf5.
  run_prim.
  match goal with |- context [bind (_destroy_crashlogfile e) ?k ?w1] =>
    destruct (destroy_crashlogfile_returns e w1) as (w6 & Hrun);
    pose proof (destroy_crashlogfile_persistence e _ _ _ w1
                  (conj eq_refl (conj eq_refl eq_refl))) as H6
  end.
  rewrite Hrun in H6. cbn [snd] in H6. destruct H6 as (Ht6 & Hc6 & Hf6).
  rewrite (bind_run _ _ _ _ _ Hrun). clear Hrun. cbv beta.
  world_simpl.
  rewrite handler_calls_snoc in Hc6. rewrite could_not_save_snoc in Hf6.
  cbn [handler_call could_not_save_record] in Hc6, Hf6.
  rewrite app_nil_r in Hc6, Hf6.
  repeat run_prim. unfold modify. cbn [fst snd]. world_simpl.
  rewrite !handler_calls_snoc, !could_not_save_snoc.
  cbn [handler_call could_not_save_record]. rewrite !app_nil_r.
  split; [reflexivity|]. split; [congruence|]. split; [congruence|].
  split; [congruence|]. now split.
Qed.

Lemma C2_persistence_isolated_per_item_witness :
  let r := _shutdown sample.module_env 0 history_uninitialised in
  fst r = Ret tt /\
  handler_calls (trace (snd r))
  = ["config.save"; "Application._save_geometry"; "quickmarks.save";
     "command-history.save"; "state-config.save"; "cookie-jar.save"] /\
  could_not_save (trace (snd r)) = ["command history"] /\
  timers (snd r) = [CbExit 0].
Proof.
  intros r.
  destruct (C2_persistence_isolated_per_item sample.module_env 0%Z
              history_uninitialised eq_refl eq_refl)
    as (Hret & Hcalls & Hfailed & Htimers & _).
  repeat split; assumption.
Defined.

(** * More of the code *)

(** ** The download model *)

Lemma rowCount_backing (w : world) :
  manager_ok w = true ->
  rowCount QModelIndex_default w = (Ret (Z.of_nat (length (backing w))), w).
Proof.
  unfold manager_ok, backing, rowCount, objreg.get, attr_downloads.
  cbn [isValid QModelIndex_default]. frame_unfold. run_unfold.
  destruct (registry w !! "download-manager") as [o|]; [|reflexivity].
  destruct o; try discriminate. reflexivity.
Qed.

Lemma index_run (r c : Z) (w : world) :
  manager_ok w = true ->
  index r c w =
  (Ret (if (0 <=? r)%Z && (r <? Z.of_nat (length (backing w)))%Z && (c =? 0)%Z
        then {| isValid := true; row := r; column := c |}
        else QModelIndex_default), w).
Proof.
  intros H. unfold index. frame_unfold.
  rewrite (bind_run _ _ _ _ _ (rowCount_backing w H)).
  now destruct (_ && _ && _).
Qed.

(** X1: [last_index] never raises and leaves the state alone; the index it
    returns is valid exactly when there is at least one download, and then
    it is the cell in column 0 of the last row. *)
Theorem last_index_valid_iff_nonempty (w : world) :
  manager_ok w = true ->
  exists i,
    last_index w = (Ret i, w) /\
    (isValid i = true <-> backing w <> []) /\
    (isValid i = true ->
     row i = (Z.of_nat (length (backing w)) - 1)%Z /\ column i = 0%Z).
Proof.
  intros H. unfold last_index. frame_unfold.
  rewrite (bind_run _ _ _ _ _ (rowCount_backing w H)).
  rewrite (index_run _ _ w H). eexists. split; [reflexivity|].
  destruct (backing w) as [|d ds] eqn:Hb.
  - cbn. split; [split; [discriminate|congruence]|discriminate].
  - replace ((0 <=? Z.of_nat (length (d :: ds)) - 1)%Z &&
             (Z.of_nat (length (d :: ds)) - 1 <? Z.of_nat (length (d :: ds)))%Z &&
             (0 =? 0)%Z) with true.
    + cbn [isValid row column]. split; [split; [discriminate|reflexivity]|].
      intros _. split; reflexivity.
    + symmetry. rewrite !andb_true_iff, Z.leb_le, Z.ltb_lt, Z.eqb_eq.
      cbn [length]. repeat split; lia.
Qed.

Lemma last_index_valid_iff_nonempty_witness :
  let w := sample.with_downloads [Download "a"; Download "b"] sample.fresh in
  exists i,
    last_index w = (Ret i, w) /\ isValid i = true /\ row i = 1%Z /\
    column i = 0%Z.
Proof.
  intros w.
  destruct (last_index_valid_iff_nonempty w eq_refl) as (i & Hrun & Hv & Hrow).
  assert (Hi : isValid i = true) by (apply Hv; discriminate).
  exists i. split; [exact Hrun|]. split; [exact Hi|]. exact (Hrow Hi).
Defined.

(** X2: [on_data_changed idx] emits [dataChanged] for the cell of row [idx],
    once, when [idx] is a row of the backing list; for any other [idx] it
    raises and emits nothing. *)
Theorem on_data_changed_in_range (idx : Z) (w : world) :
  manager_ok w = true ->
  (in_model w idx ->
   on_data_changed idx w
   = (Ret tt, logged [Call "dataChanged.emit" [AInt idx; AInt idx]] w)) /\
  (~ in_model w idx -> exists x, on_data_changed idx w = (Exc x, w)).
Proof.
  intros H. unfold on_data_changed, in_model, ensure_valid. frame_unfold.
  rewrite (bind_run _ _ _ _ _ (index_run idx 0 w H)).
  destruct (Z.leb_spec 0 idx);
    destruct (Z.ltb_spec idx (Z.of_nat (length (backing w))));
    cbn [andb Z.eqb isValid QModelIndex_default row]; split; intros Hr;
    try lia; try (eexists; reflexivity); reflexivity.
Qed.

Lemma on_data_changed_in_range_witness :
  let w := sample.with_downloads [Download "a"; Download "b"] sample.fresh in
  on_data_changed 1 w
  = (Ret tt, logged [Call "dataChanged.emit" [AInt 1; AInt 1]] w) /\
  exists x, on_data_changed 2 w = (Exc x, w).
Proof.
  intros w.
  assert (Hb : backing w = [Download "a"; Download "b"]) by reflexivity.
  split.
  - apply (proj1 (on_data_changed_in_range 1 w eq_refl)).
    unfold in_model. rewrite Hb. cbn [length]. lia.
  - apply (proj2 (on_data_changed_in_range 2 w eq_refl)).
    unfold in_model. rewrite Hb. cbn [length]. lia.
Defined.

Lemma getitem_in_range {A} (l : list A) (r : Z) :
  (0 <= r < Z.of_nat (length l))%Z ->
  exists a, nth_error l (Z.to_nat r) = Some a /\ getitem l r = Item a.
Proof.
  intros Hr. unfold getitem.
  destruct (Z.ltb_spec r 0); [lia|].
  destruct (Z.leb_spec 0 r); [|lia].
  destruct (Z.ltb_spec r (Z.of_nat (length l))); [|lia].
  cbn [andb].
  destruct (nth_error l (Z.to_nat r)) as [a|] eqn:Hn; [now exists a|].
  apply nth_error_None in Hn. lia.
Qed.

Lemma getitem_stale {A} (l : list A) (r : Z) :
  (Z.of_nat (length l) <= r)%Z -> getitem l r = @IndexError A.
Proof.
  intros Hr. unfold getitem.
  destruct (Z.ltb_spec r 0); [lia|].
  destruct (Z.ltb_spec r (Z.of_nat (length l))); [lia|].
  now rewrite andb_false_r.
Qed.

Lemma in_model_registered (w : world) (r : Z) :
  in_model w r ->
  registry w !! "download-manager" = Some (DownloadManager (backing w)).
Proof.
  unfold in_model, backing.
  destruct (registry w !! "download-manager") as [o|]; [|cbn; lia].
  destruct o; cbn; try lia. reflexivity.
Qed.

Lemma data_item (c : colors) (i : QModelIndex) (role : Z) (w : world)
    (d : download) :
  isValid i = true -> column i = 0%Z ->
  registry w !! "download-manager" = Some (DownloadManager (backing w)) ->
  getitem (backing w) (row i) = Item d ->
  data c i QModelIndex_default role w =
  (Ret (Item (if (role =? DisplayRole)%Z then VStr (download_str d)
              else if (role =? ForegroundRole)%Z then VColor (downloads_fg c)
              else if (role =? BackgroundRole)%Z then VColor (bg_color c d)
              else if (role =? Role_item)%Z then VItem d
              else QVariant_invalid)), w).
Proof.
  intros Hv Hc Hreg Hget.
  unfold data, ensure_valid, objreg.get, attr_downloads. frame_unfold.
  rewrite Hv, Hc. cbn [isValid QModelIndex_default orb negb Z.eqb].
  run_unfold. rewrite Hreg. cbv beta iota. rewrite Hget.
  repeat (destruct (_ =? _)%Z; [reflexivity|]). reflexivity.
Qed.

(** X3: the model reads through to the backing list.  For every row [r] of
    the list, [index r 0] is a valid index and [data] at that index returns,
    without raising and without changing anything, the display text of the
    [r]-th download for the display role, the configured foreground colour,
    the background colour of that download, the download itself for
    [Role.item], and an invalid [QVariant] for any other role. *)
Theorem data_reads_backing (c : colors) (r : Z) (w : world) :
  in_model w r ->
  exists i d,
    index r 0 w = (Ret i, w) /\ isValid i = true /\
    nth_error (backing w) (Z.to_nat r) = Some d /\
    data c i QModelIndex_default DisplayRole w
    = (Ret (Item (VStr (download_str d))), w) /\
    data c i QModelIndex_default ForegroundRole w
    = (Ret (Item (VColor (downloads_fg c))), w) /\
    data c i QModelIndex_default BackgroundRole w
    = (Ret (Item (VColor (bg_color c d))), w) /\
    data c i QModelIndex_default Role_item w = (Ret (Item (VItem d)), w) /\
    (forall role,
       role <> DisplayRole -> role <> ForegroundRole ->
       role <> BackgroundRole -> role <> Role_item ->
       data c i QModelIndex_default role w = (Ret (Item QVariant_invalid), w)).
Proof.
  intros Hr. pose proof (in_model_registered w r Hr) as Hreg.
  assert (Hok : manager_ok w = true) by (unfold manager_ok; now rewrite Hreg).
  destruct (getitem_in_range (backing w) r Hr) as (d & Hn & Hget).
  rewrite (index_run r 0 w Hok).
  unfold in_model in Hr.
  destruct (Z.leb_spec 0 r); [|lia].
  destruct (Z.ltb_spec r (Z.of_nat (length (backing w)))); [|lia].
  cbn [andb Z.eqb].
  exists {| isValid := true; row := r; column := 0 |}, d.
  split; [reflexivity|]. split; [reflexivity|]. split; [exact Hn|].
  pose proof (fun role =>
    data_item c {| isValid := true; row := r; column := 0 |} role w d
      eq_refl eq_refl Hreg Hget) as Hdata.
  do 4 (split; [rewrite Hdata; reflexivity|]).
  intros role H1 H2 H3 H4. rewrite Hdata.
  apply Z.eqb_neq in H1, H2, H3, H4. now rewrite H1, H2, H3, H4.
Qed.

Lemma data_reads_backing_witness :
  let w := sample.with_downloads [Download "a"; Download "b"] sample.fresh in
  exists i d,
    index 1 0 w = (Ret i, w) /\ isValid i = true /\
    nth_error [Download "a"; Download "b"] 1 = Some d /\
    data sample_colors i QModelIndex_default DisplayRole w
    = (Ret (Item (VStr (download_str d))), w).
Proof.
  intros w.
  assert (Hb : backing w = [Download "a"; Download "b"]) by reflexivity.
  assert (Hr : in_model w 1)
    by (unfold in_model; rewrite Hb; cbn [length]; lia).
  destruct (data_reads_backing sample_colors 1 w Hr)
    as (i & d & Hi & Hv & Hn & Hd & _).
  exists i, d. repeat split; assumption.
Defined.

(** X4: the guards of [data].  It never changes the state.  An invalid
    index makes it raise before anything is looked up.  For a valid index
    whose parent is valid or whose column is not 0 the answer is an invalid
    [QVariant], whether or not a download manager is registered.  Past
    these guards it raises [KeyError] when no download manager is
    registered, and a row beyond the end of the list (an index that has
    become stale) ends in [IndexError]. *)
Theorem data_guards (c : colors) (i parent : QModelIndex) (role : Z)
    (w : world) :
  snd (data c i parent role w) = w /\
  (isValid i = false -> exists x, fst (data c i parent role w) = Exc x) /\
  (isValid i = true -> isValid parent = true \/ column i <> 0%Z ->
   fst (data c i parent role w) = Ret (Item QVariant_invalid)) /\
  (isValid i = true -> isValid parent = false -> column i = 0%Z ->
   registry w !! "download-manager" = None ->
   fst (data c i parent role w) = Exc (KeyError "download-manager")) /\
  (isValid i = true -> isValid parent = false -> column i = 0%Z ->
   manager_ok w = true ->
   registry w !! "download-manager" <> None ->
   (Z.of_nat (length (backing w)) <= row i)%Z ->
   fst (data c i parent role w) = Ret IndexError).
Proof.
  unfold data, ensure_valid, objreg.get, attr_downloads, manager_ok, backing.
  frame_unfold. run_unfold.
  split; [|split; [|split; [|split]]].
  - destruct (isValid i); [|reflexivity].
    destruct (isValid parent); [reflexivity|].
    destruct (column i =? 0)%Z; [|reflexivity]. cbn [negb]. cbv beta iota.
    destruct (registry w !! "download-manager") as [o|]; [|reflexivity].
    destruct o; try reflexivity. cbv beta iota.
    destruct (getitem downloads (row i)); [|reflexivity].
    repeat (destruct (_ =? _)%Z; try reflexivity).
  - intros ->. eexists. reflexivity.
  - intros -> [-> | Hc]; [reflexivity|].
    apply Z.eqb_neq in Hc. rewrite Hc. now destruct (isValid parent).
  - intros -> -> -> Hreg. cbn [negb Z.eqb]. cbv beta iota. now rewrite Hreg.
  - intros -> -> -> Hok Hreg Hrow. cbn [negb Z.eqb]. cbv beta iota.
    destruct (registry w !! "download-manager") as [o|]; [|congruence].
    destruct o; try discriminate. cbv beta iota.
    now rewrite (getitem_stale _ _ Hrow).
Qed.

Lemma data_guards_witness :
  let w := sample.with_downloads [Download "a"; Download "b"] sample.fresh in
  (exists x, fst (data sample_colors QModelIndex_default QModelIndex_default
                    DisplayRole w) = Exc x) /\
  fst (data sample_colors (cell 0 1) QModelIndex_default DisplayRole
         sample.fresh) = Ret (Item QVariant_invalid) /\
  fst (data sample_colors (cell 0 0) QModelIndex_default DisplayRole
         sample.fresh) = Exc (KeyError "download-manager") /\
  fst (data sample_colors (cell 2 0) QModelIndex_default DisplayRole w)
  = Ret IndexError.
Proof.
  intros w. split; [|split; [|split]].
  - apply (proj1 (proj2 (data_guards sample_colors QModelIndex_default
                           QModelIndex_default DisplayRole w))).
    reflexivity.
  - apply (proj1 (proj2 (proj2 (data_guards sample_colors (cell 0 1)
                           QModelIndex_default DisplayRole sample.fresh)))).
    + reflexivity.
    + right. discriminate.
  - apply (proj1 (proj2 (proj2 (proj2 (data_guards sample_colors (cell 0 0)
                           QModelIndex_default DisplayRole sample.fresh)))));
      reflexivity.
  - apply (proj2 (proj2 (proj2 (proj2 (data_guards sample_colors (cell 2 0)
                           QModelIndex_default DisplayRole w)))));
      try reflexivity; discriminate.
Defined.

(** X5: the constructor of the model needs the download manager.  Without
    one it raises [KeyError] and connects nothing, whereas [rowCount] and
    [last_index], which may be called on a model that outlives the manager,
    do not raise; with one it connects the five signals of the manager, in
    the order of the two-phase protocol, and returns. *)
Theorem init_needs_manager (w : world) :
  (registry w !! "download-manager" = None ->
   downloadmodel.__init__ w = (Exc (KeyError "download-manager"), w) /\
   rowCount QModelIndex_default w = (Ret 0%Z, w) /\
   last_index w = (Ret QModelIndex_default, w)) /\
  (forall ds, registry w !! "download-manager" = Some (DownloadManager ds) ->
   downloadmodel.__init__ w
   = (Ret tt,
      logged [Call "download_about_to_be_added.connect"
                [AStr "beginInsertRows"];
              Call "download_added.connect" [AStr "endInsertRows"];
              Call "download_about_to_be_finished.connect"
                [AStr "beginRemoveRows"];
              Call "download_finished.connect" [AStr "endRemoveRows"];
              Call "data_changed.connect" [AStr "on_data_changed"]] w)).
Proof.
  split.
  - intros Hreg.
    assert (Hok : manager_ok w = true) by (unfold manager_ok; now rewrite Hreg).
    assert (Hb : backing w = []) by (unfold backing; now rewrite Hreg).
    split; [|split].
    + unfold downloadmodel.__init__, objreg.get. frame_unfold. run_unfold.
      now rewrite Hreg.
    + rewrite (rowCount_backing w Hok). now rewrite Hb.
    + unfold last_index. frame_unfold.
      rewrite (bind_run _ _ _ _ _ (rowCount_backing w Hok)).
      rewrite (index_run _ _ w Hok). now rewrite Hb.
  - intros ds Hreg.
    unfold downloadmodel.__init__, objreg.get. frame_unfold. run_unfold.
    rewrite Hreg. cbv beta iota. rewrite !logged_one, !logged_logged.
    reflexivity.
Qed.

Lemma init_needs_manager_witness :
  downloadmodel.__init__ sample.fresh
  = (Exc (KeyError "download-manager"), sample.fresh) /\
  fst (downloadmodel.__init__
         (sample.with_downloads [Download "a"] sample.fresh)) = Ret tt.
Proof.
  split.
  - apply (proj1 (init_needs_manager sample.fresh)). reflexivity.
  - rewrite (proj2 (init_needs_manager
                      (sample.with_downloads [Download "a"] sample.fresh))
               [Download "a"] eq_refl).
    reflexivity.
Defined.

(** ** Closing the main window *)

(** X6: the confirm-quit policy of [closeEvent].  With the setting [never],
    or [multiple-tabs] and at most one tab, the window closes without a
    question.  In every other case (also for a setting that is none of the
    known values) the user is asked exactly once, with a text that says
    [tab] for one tab and [tabs] otherwise, and the window closes only on
    the answer yes: a refusal or a question left unanswered keeps it
    open. *)
Theorem closeEvent_policy (confirm_quit : string) (count : Z)
    (answer : option bool) (w : world) :
  (quits_unasked confirm_quit count ->
   closeEvent confirm_quit count answer w = (Ret accepted, w)) /\
  (~ quits_unasked confirm_quit count ->
   exists noun,
     closeEvent confirm_quit count answer w
     = (Ret (if confirmed answer then accepted else ignored),
        logged [Call "message.ask"
                  [AStr "Close {} {}?"; AInt count; AStr noun]] w) /\
     (count = 1%Z -> noun = "tab") /\ (count <> 1%Z -> noun = "tabs") /\
     (confirmed answer = true <-> answer = Some true)).
Proof.
  unfold quits_unasked, closeEvent. frame_unfold.
  destruct (String.eqb_spec confirm_quit "never") as [Hn|Hn].
  - split; [reflexivity|]. intros H. exfalso. apply H. now left.
  - destruct (String.eqb_spec confirm_quit "multiple-tabs") as [Hm|Hm];
      destruct (Z.leb_spec count 1) as [Hc|Hc]; cbn [andb].
    + split; [reflexivity|]. intros H. exfalso. apply H. now right.
    + split; [intros [?|[_ ?]]; [congruence|lia]|]. intros _.
      eexists. split; [|split; [|split]].
      * run_unfold. rewrite logged_one. destruct (confirmed answer); reflexivity.
      * intros ->. lia.
      * intros H. apply Z.eqb_neq in H. now rewrite H.
      * destruct answer as [[]|]; cbn; split; congruence.
    + split; [intros [?|[? _]]; congruence|]. intros _.
      eexists. split; [|split; [|split]].
      * run_unfold. rewrite logged_one. destruct (confirmed answer); reflexivity.
      * intros ->. reflexivity.
      * intros H. apply Z.eqb_neq in H. now rewrite H.
      * destruct answer as [[]|]; cbn; split; congruence.
    + split; [intros [?|[? _]]; congruence|]. intros _.
      eexists. split; [|split; [|split]].
      * run_unfold. rewrite logged_one. destruct (confirmed answer); reflexivity.
      * intros ->. reflexivity.
      * intros H. apply Z.eqb_neq in H. now rewrite H.
      * destruct answer as [[]|]; cbn; split; congruence.
Qed.

Lemma closeEvent_policy_witness :
  closeEvent "multiple-tabs" 1 None sample.fresh = (Ret accepted, sample.fresh) /\
  exists noun,
    closeEvent "multiple-tabs" 3 (Some false) sample.fresh
    = (Ret ignored,
       logged [Call "message.ask" [AStr "Close {} {}?"; AInt 3; AStr noun]]
         sample.fresh) /\
    noun = "tabs".
Proof.
  split.
  - apply (proj1 (closeEvent_policy "multiple-tabs" 1 None sample.fresh)).
    right. split; [reflexivity|lia].
  - destruct (proj2 (closeEvent_policy "multiple-tabs" 3 (Some false)
                       sample.fresh)) as (noun & Hrun & _ & Hnoun & _).
    + intros [H|[_ H]]; [discriminate|lia].
    + exists noun. split; [exact Hrun|]. apply Hnoun. discriminate.
Defined.

(** ** Collecting the open pages *)

Lemma recover_loop_log (tabs : list tab) (pages : list string) (w : world) :
  recover_loop tabs pages w
  = (Ret (pages ++ omap recoverable_url tabs),
     logged (recovery_failures tabs) w).
Proof.
  revert pages w. induction tabs as [|t tabs IH]; intros pages w.
  - cbn. now rewrite app_nil_r, logged_nil.
  - cbn [recover_loop]. frame_unfold. unfold recovery_failures, unreadable.
    cbn [omap list_omap List.filter]. unfold recoverable_url at 1.
    run_unfold.
    destruct (cur_url_toString t) as [url|x]; cbv beta iota.
    + destruct (truthy url); cbv beta iota; rewrite IH.
      * now rewrite <- app_assoc.
      * reflexivity.
    + rewrite IH. cbn [map]. rewrite logged_one, logged_logged. reflexivity.
Qed.

Lemma recover_pages_run (w : world) :
  tabs_closable (registry w) = true ->
  _recover_pages w
  = (Ret (recovered (registry w)),
     logged (recovery_failures (open_tabs (registry w))) w).
Proof.
  intros H. unfold tabs_closable, recovered, open_tabs in *.
  unfold _recover_pages, objreg.get, attr_widgets. frame_unfold. run_unfold.
  destruct (registry w !! "tabbed-browser") as [o|]; cbv beta iota.
  - destruct o; try discriminate. cbv beta iota.
    now rewrite recover_loop_log.
  - now rewrite logged_nil.
Qed.

(** X7: [_recover_pages] is forgiving.  Whatever the tabs are (and also
    without a tabbed browser) it returns: the pages are the non-empty URLs
    of the tabs whose URL can be read, in tab order; every tab whose URL
    cannot be read costs one logged exception and nothing else; nothing but
    the log changes. *)
Theorem recover_pages_forgiving (w : world) :
  tabs_closable (registry w) = true ->
  _recover_pages w
  = (Ret (recovered (registry w)),
     logged (recovery_failures (open_tabs (registry w))) w) /\
  recovered (registry w) = omap recoverable_url (open_tabs (registry w)) /\
  Forall (fun url => url <> "") (recovered (registry w)) /\
  length (recovered (registry w)) +
  length (recovery_failures (open_tabs (registry w)))
  <= length (open_tabs (registry w)).
Proof.
  intros H. split; [now apply recover_pages_run|].
  unfold tabs_closable, recovered, open_tabs in *.
  split; [|split].
  - destruct (registry w !! "tabbed-browser") as [o|]; [|reflexivity].
    destruct o; reflexivity.
  - destruct (registry w !! "tabbed-browser") as [o|]; [|constructor].
    destruct o; try constructor. clear H.
    induction tabs as [|t tabs IH]; [constructor|].
    cbn [omap list_omap]. unfold recoverable_url at 1.
    destruct (cur_url_toString t) as [url|x]; [|exact IH].
    destruct (truthy url) eqn:Hu; [|exact IH].
    constructor; [|exact IH]. intros ->. discriminate.
  - destruct (registry w !! "tabbed-browser") as [o|]; [|cbn; lia].
    destruct o; cbn [length]; try (cbn; lia). clear H.
    unfold recovery_failures. rewrite length_map.
    induction tabs as [|t tabs IH]; [cbn; lia|].
    cbn [omap list_omap List.filter length].
    unfold recoverable_url at 1, unreadable at 1.
    destruct (cur_url_toString t) as [url|x]; [destruct (truthy url)|];
      cbn [length]; lia.
Qed.

Lemma recover_pages_forgiving_witness :
  let w := sample.registered "tabbed-browser"
             (TabbedBrowser [Tab (Ok "https://x"); Tab (Err ValueError);
                             Tab (Ok ""); Tab (Ok "https://y")])
             sample.fresh in
  _recover_pages w
  = (Ret ["https://x"; "https://y"],
     logged [Log "destroy" EXCEPTION "Error while recovering tab" []] w).
Proof.
  intros w. exact (proj1 (recover_pages_forgiving w eq_refl)).
Defined.

Lemma restart_pages_fails (pre post : list tab) (t : tab) (x : exn)
    (pages : list string) (w : world) :
  forallb (fun t => negb (unreadable t)) pre = true ->
  cur_url_toString t = Err x ->
  restart_pages (pre ++ t :: post) pages w = (Exc x, w).
Proof.
  revert pages. induction pre as [|p pre IH]; intros pages Hpre Ht.
  - cbn [app restart_pages]. frame_unfold. run_unfold. now rewrite Ht.
  - cbn [forallb] in Hpre. apply andb_true_iff in Hpre as [Hp Hpre].
    cbn [app restart_pages]. frame_unfold. run_unfold.
    unfold unreadable in Hp.
    destruct (cur_url_toString p) as [url|]; [|discriminate].
    cbv beta iota. now apply IH.
Qed.

(** X8: [restart] without given pages is not forgiving.  When there is no
    tabbed browser, or the URL of some tab cannot be read, it raises that
    error at once: no child process is spawned, nothing is logged and no
    shutdown is started; the state is as before.  On the same state
    [_recover_pages] skips the tab and returns the pages of the others. *)
Theorem restart_spawns_nothing_on_failure (e : env) (do_shutdown : bool)
    (w : world) :
  (registry w !! "tabbed-browser" = None ->
   restart e do_shutdown None w = (Exc (KeyError "tabbed-browser"), w)) /\
  (forall pre t post x,
     registry w !! "tabbed-browser" = Some (TabbedBrowser (pre ++ t :: post)) ->
     forallb (fun t => negb (unreadable t)) pre = true ->
     cur_url_toString t = Err x ->
     restart e do_shutdown None w = (Exc x, w) /\
     exists l,
       _recover_pages w
       = (Ret (omap recoverable_url pre ++ omap recoverable_url post),
          logged l w)).
Proof.
  split.
  - intros Hreg. unfold restart, objreg.get. frame_unfold. run_unfold.
    now rewrite Hreg.
  - intros pre t post x Hreg Hpre Ht. split.
    + unfold restart, objreg.get, attr_widgets. frame_unfold.
      unfold bind at 1. unfold bind at 1. rewrite Hreg. cbv beta iota.
      unfold bind at 1. unfold ret at 1. cbv beta iota.
      now rewrite (restart_pages_fails pre post t x [] w Hpre Ht).
    + assert (Hc : tabs_closable (registry w) = true)
        by (unfold tabs_closable; now rewrite Hreg).
      eexists. rewrite (recover_pages_run w Hc). f_equal. f_equal.
      unfold recovered. rewrite Hreg. rewrite omap_app. cbn [omap list_omap].
      unfold recoverable_url at 2. now rewrite Ht.
Qed.

Lemma restart_spawns_nothing_on_failure_witness :
  let w := sample.registered "tabbed-browser"
             (TabbedBrowser [Tab (Ok "https://x"); Tab (Err ValueError);
                             Tab (Ok "https://y")])
             sample.fresh in
  restart sample.module_env true None sample.fresh
  = (Exc (KeyError "tabbed-browser"), sample.fresh) /\
  restart sample.module_env true None w = (Exc ValueError, w) /\
  exists l, _recover_pages w = (Ret ["https://x"; "https://y"], logged l w).
Proof.
  intros w. split; [|split].
  - apply (proj1 (restart_spawns_nothing_on_failure sample.module_env true
                    sample.fresh)).
    reflexivity.
  - apply (proj2 (restart_spawns_nothing_on_failure sample.module_env true w)
             [Tab (Ok "https://x")] (Tab (Err ValueError))
             [Tab (Ok "https://y")] ValueError); reflexivity.
  - apply (proj2 (restart_spawns_nothing_on_failure sample.module_env true w)
             [Tab (Ok "https://x")] (Tab (Err ValueError))
             [Tab (Ok "https://y")] ValueError); reflexivity.
Defined.

(** ** The persisted window geometry *)

Lemma set_registry_twice (f g : gmap string obj -> gmap string obj) w :
  set_registry f (set_registry g w) = set_registry (fun r => f (g r)) w.
Proof. reflexivity. Qed.

Lemma save_geometry_stores (e : env) (w : world)
    (sections : gmap string (gmap string string)) (save : result unit)
    (win : main_window) :
  registry w !! "state-config" = Some (StateConfig sections save) ->
  registry w !! "main-window" = Some (MainWindow win) ->
  _save_geometry e w
  = (Ret tt,
     set_registry
       (insert "state-config"
          (StateConfig (with_geometry (b64encode e (saveGeometry e win))
                          sections) save)) w).
Proof.
  intros Hsc Hmw.
  unfold _save_geometry, add_section, setitem2, objreg.get, with_geometry.
  frame_unfold. run_unfold. rewrite Hsc, Hmw. cbv beta iota.
  rewrite Hsc. cbv beta iota.
  destruct (sections !! "geometry") as [sec|] eqn:Hsec; cbv beta iota.
  - rewrite Hsc. cbv beta iota. rewrite Hsec. reflexivity.
  - world_simpl. rewrite lookup_insert_eq. cbv beta iota.
    rewrite lookup_insert_eq. rewrite set_registry_twice.
    cbn [default]. f_equal. unfold set_registry. f_equal.
    rewrite insert_insert_eq. now rewrite insert_insert_eq.
Qed.

Lemma geometry_entry_with_geometry geom sections :
  geometry_entry (with_geometry geom sections) = Some geom.
Proof.
  unfold geometry_entry, with_geometry. rewrite lookup_insert_eq. cbn.
  now rewrite lookup_insert_eq.
Qed.

(** X9: what [_save_geometry] stores.  With a state config and a main
    window registered it returns; afterwards the entry
    [state_config['geometry']['mainwindow']] is the base64 text of the
    window's geometry, every other section and every other key of the
    geometry section is as before (an existing geometry section is kept, a
    missing one is created), nothing but the state config changes, and
    saving once more changes nothing. *)
Theorem save_geometry_effect (e : env) (w : world)
    (sections : gmap string (gmap string string)) (save : result unit)
    (win : main_window) :
  registry w !! "state-config" = Some (StateConfig sections save) ->
  registry w !! "main-window" = Some (MainWindow win) ->
  let geom := b64encode e (saveGeometry e win) in
  let w' := snd (_save_geometry e w) in
  fst (_save_geometry e w) = Ret tt /\
  (exists sections',
     registry w' !! "state-config" = Some (StateConfig sections' save) /\
     geometry_entry sections' = Some geom /\
     (forall s, s <> "geometry" -> sections' !! s = sections !! s) /\
     (forall k, k <> "mainwindow" ->
        (sections' !! "geometry") ≫= (fun sec => sec !! k)
        = (sections !! "geometry") ≫= (fun sec => sec !! k))) /\
  (forall key, key <> "state-config" ->
     registry w' !! key = registry w !! key) /\
  w' = set_registry (fun _ => registry w') w /\
  _save_geometry e w' = (Ret tt, w').
Proof.
  intros Hsc Hmw geom w'. subst geom w'.
  rewrite (save_geometry_stores e w sections save win Hsc Hmw). cbn [fst snd].
  split; [reflexivity|]. split; [|split; [|split]].
  - eexists. split; [|split; [|split]].
    + world_simpl. now rewrite lookup_insert_eq.
    + apply geometry_entry_with_geometry.
    + intros s Hs. unfold with_geometry. now rewrite lookup_insert_ne.
    + intros k Hk. unfold with_geometry. rewrite lookup_insert_eq. cbn.
      rewrite lookup_insert_ne by congruence.
      now destruct (sections !! "geometry").
  - intros key Hkey. world_simpl. now rewrite lookup_insert_ne.
  - reflexivity.
  - rewrite (save_geometry_stores e _
               (with_geometry (b64encode e (saveGeometry e win)) sections)
               save win).
    + rewrite set_registry_twice. f_equal. unfold set_registry. f_equal.
      rewrite insert_insert_eq. f_equal. f_equal.
      unfold with_geometry at 1. unfold with_geometry at 1.
      rewrite lookup_insert_eq. cbn [default id].
      unfold with_geometry. now rewrite !insert_insert_eq.
    + world_simpl. now rewrite lookup_insert_eq.
    + world_simpl. rewrite lookup_insert_ne by discriminate. exact Hmw.
Qed.

Lemma init_restores (e : env) (w : world)
    (sections : gmap string (gmap string string)) (save : result unit)
    (data : string) (geom : list byte) (g : rect) :
  registry w !! "state-config" = Some (StateConfig sections save) ->
  geometry_entry sections = Some data ->
  b64decode e data = Ok geom ->
  restoreGeometry e geom = Ok (Some g) ->
  exists win l,
    __init__ e w = (Ret win, logged l w) /\ geometry win = Some g /\
    failures l = [].
Proof.
  intros Hreg Hdata Hdec Hres.
  unfold geometry_entry in Hdata. unfold __init__, getitem2, objreg.get.
  frame_unfold. run_unfold. rewrite Hreg. cbv beta iota.
  destruct (sections !! "geometry") as [sec|]; cbn in Hdata; [|discriminate].
  rewrite Hdata. cbv beta iota. rewrite Hdec. cbv beta iota.
  rewrite Hres. cbv beta iota. cbn [negb]. cbv beta iota.
  rewrite !logged_one, !logged_logged. eexists. eexists.
  split; [reflexivity|]. split; reflexivity.
Qed.

Lemma save_geometry_effect_witness :
  let w := with_window {[ "general" := {[ "version" := "1" ]} ]}
             sample.fresh in
  let w' := snd (_save_geometry sample.module_env w) in
  fst (_save_geometry sample.module_env w) = Ret tt /\
  (exists sections',
     registry w' !! "state-config" = Some (StateConfig sections' (Ok tt)) /\
     geometry_entry sections' = Some "AQID" /\
     sections' !! "general" = Some {[ "version" := "1" ]}) /\
  _save_geometry sample.module_env w' = (Ret tt, w').
Proof.
  intros w w'.
  destruct (save_geometry_effect sample.module_env w
              {[ "general" := {[ "version" := "1" ]} ]} (Ok tt)
              {| windowTitle := "qutebrowser";
                 geometry := Some (QRect 0 0 1024 768) |} eq_refl eq_refl)
    as (Hret & (sections' & Hreg & Hentry & Hother & _) & _ & _ & Hagain).
  split; [exact Hret|]. split; [|exact Hagain].
  exists sections'. split; [exact Hreg|]. split; [exact Hentry|].
  rewrite Hother by discriminate. reflexivity.
Defined.

(** X10: the geometry survives a restart.  If the base64 codec decodes what
    it encoded and Qt restores the geometry [g] from the bytes that
    [saveGeometry] produced, then the window constructed after
    [_save_geometry] has the geometry [g], and the constructor logs no
    failure. *)
Theorem geometry_round_trip (e : env) (w : world)
    (sections : gmap string (gmap string string)) (save : result unit)
    (win : main_window) (g : rect) :
  registry w !! "state-config" = Some (StateConfig sections save) ->
  registry w !! "main-window" = Some (MainWindow win) ->
  b64decode e (b64encode e (saveGeometry e win)) = Ok (saveGeometry e win) ->
  restoreGeometry e (saveGeometry e win) = Ok (Some g) ->
  let w' := snd (_save_geometry e w) in
  exists win',
    fst (__init__ e w') = Ret win' /\
    geometry win' = Some g /\
    failures (trace (snd (__init__ e w'))) = failures (trace w).
Proof.
  intros Hsc Hmw Hcodec Hres w'. subst w'.
  rewrite (save_geometry_stores e w sections save win Hsc Hmw). cbn [snd].
  match goal with |- context [__init__ e ?w1] =>
    destruct (init_restores e w1
                (with_geometry (b64encode e (saveGeometry e win)) sections)
                save (b64encode e (saveGeometry e win)) (saveGeometry e win) g)
      as (win' & l & Hrun & Hg & Hl)
  end.
  { world_simpl. now rewrite lookup_insert_eq. }
  { apply geometry_entry_with_geometry. }
  { exact Hcodec. }
  { exact Hres. }
  rewrite Hrun. cbn [fst snd]. exists win'. split; [reflexivity|].
  split; [exact Hg|]. unfold logged. world_simpl. unfold failures in *.
  rewrite List.filter_app. rewrite Hl. now rewrite app_nil_r.
Qed.

Lemma geometry_round_trip_witness :
  let w := with_window ∅ sample.fresh in
  let w' := snd (_save_geometry sample.module_env w) in
  exists win',
    fst (__init__ sample.module_env w') = Ret win' /\
    geometry win' = Some (QRect 0 0 1024 768) /\
    failures (trace (snd (__init__ sample.module_env w'))) = [].
Proof.
  intros w w'.
  exact (geometry_round_trip sample.module_env w ∅ (Ok tt)
           {| windowTitle := "qutebrowser";
              geometry := Some (QRect 0 0 1024 768) |}
           (QRect 0 0 1024 768) eq_refl eq_refl eq_refl eq_refl).
Defined.

(** ** The life of the crash marker *)

Lemma destroy_crashlogfile_cases (e : env) (w : world) (f : file) :
  _crashlogfile w = Some f ->
  let w1 := set_crashlogfile (Some (File (name f) true))
              (set_faulthandler
                 (if sys_stderr_present e then fault_stderr
                  else fault_disabled) w) in
  _destroy_crashlogfile e w
  = (Ret tt,
     if removable e w (name f) then set_files (delete (name f)) w1
     else logged [Log "destroy" EXCEPTION "Could not remove crash log!" []]
            w1).
Proof.
  intros Hf. unfold _destroy_crashlogfile, os_remove, removable.
  frame_unfold. run_unfold. rewrite Hf. cbv beta iota.
  destruct (sys_stderr_present e); cbv beta iota; world_simpl;
    (destruct (files w !! name f) as [data|] eqn:Hd;
     [ rewrite bool_decide_eq_true_2 by eauto;
       destruct (remove_permitted e (name f)); cbn [andb]; cbv beta iota;
       rewrite ?logged_one; reflexivity
     | rewrite bool_decide_eq_false_2 by (intros [? ?]; discriminate);
       cbn [andb]; cbv beta iota; rewrite ?logged_one; reflexivity ]).
Qed.

(** X11: [_destroy_crashlogfile] with a handle never raises.  It closes the
    handle and points fault capture back at stderr (or disables it when
    there is none).  When the marker exists and may be deleted it is
    deleted and nothing is logged; when it is missing or deleting is
    refused the files stay as they are and the failure is logged.  No other
    file is touched, and calling it a second time does not raise and
    removes nothing more. *)
Theorem destroy_crashlogfile_tolerant (e : env) (w : world) (f : file) :
  _crashlogfile w = Some f ->
  let r := _destroy_crashlogfile e w in
  let r2 := _destroy_crashlogfile e (snd r) in
  fst r = Ret tt /\
  _crashlogfile (snd r) = Some (File (name f) true) /\
  faulthandler (snd r)
  = (if sys_stderr_present e then fault_stderr else fault_disabled) /\
  (removable e w (name f) = true ->
   files (snd r) = delete (name f) (files w) /\ trace (snd r) = trace w) /\
  (removable e w (name f) = false ->
   files (snd r) = files w /\
   trace (snd r)
   = trace w ++ [Log "destroy" EXCEPTION "Could not remove crash log!" []]) /\
  (forall path, path <> name f -> files (snd r) !! path = files w !! path) /\
  fst r2 = Ret tt /\ files (snd r2) = files (snd r).
Proof.
  intros Hf r r2. subst r r2.
  rewrite (destroy_crashlogfile_cases e w f Hf). cbv zeta. cbn [fst snd].
  destruct (removable e w (name f)) eqn:Hr.
  - match goal with |- context [_destroy_crashlogfile e ?w1] =>
      rewrite (destroy_crashlogfile_cases e w1 (File (name f) true) eq_refl)
    end.
    cbv zeta. cbn [fst snd name].
    replace (removable e _ (name f)) with false.
    2:{ unfold removable. world_simpl. rewrite lookup_delete_eq.
        now rewrite bool_decide_eq_false_2 by (intros [? ?]; discriminate). }
    repeat split; try discriminate.
    intros path Hp. world_simpl. now rewrite lookup_delete_ne.
  - match goal with |- context [_destroy_crashlogfile e ?w1] =>
      rewrite (destroy_crashlogfile_cases e w1 (File (name f) true) eq_refl)
    end.
    cbv zeta. cbn [fst snd name].
    replace (removable e _ (name f)) with false by (symmetry; exact Hr).
    repeat split; try discriminate.
Qed.

Lemma destroy_crashlogfile_tolerant_witness :
  let e := sample.readonly sample.module_env in
  let w := capturing e sample.fresh in
  let r := _destroy_crashlogfile e w in
  fst r = Ret tt /\
  files (snd r) = files w /\
  trace (snd r)
  = trace w ++ [Log "destroy" EXCEPTION "Could not remove crash log!" []] /\
  fst (_destroy_crashlogfile e (snd r)) = Ret tt.
Proof.
  intros e w r.
  destruct (destroy_crashlogfile_tolerant e w
              (File (crash_logname e) false) eq_refl)
    as (Hret & _ & _ & _ & Hkept & _ & Hagain & _).
  destruct (Hkept eq_refl) as (Hfiles & Htrace).
  repeat split; assumption.
Defined.








(** ** Leaving the interpreter *)

Section NeverExits.

Lemma never_exits_ret {A} (a : A) : never_exits (ret a).
Proof. intros w c. discriminate. Qed.

Lemma never_exits_raise {A} (x : exn) : never_exits (@raise world A x).
Proof. intros w c. discriminate. Qed.

Lemma never_exits_lift {A} (r : result A) : never_exits (lift r).
Proof. intros w c. destruct r; discriminate. Qed.

Lemma never_exits_gets {A} (f : world -> A) : never_exits (gets f).
Proof. intros w c. discriminate. Qed.

Lemma never_exits_get : never_exits get.
Proof. intros w c. discriminate. Qed.

Lemma never_exits_modify (f : world -> world) : never_exits (modify f).
Proof. intros w c. discriminate. Qed.

Lemma never_exits_read_text (path : string) : never_exits (read_text path).
Proof. intros w c. unfold read_text. destruct (files w !! path); discriminate. Qed.

Lemma never_exits_os_remove (e : env) (path : string) :
  never_exits (os_remove e path).
Proof.
  intros w c. unfold os_remove.
  destruct (files w !! path); [destruct (remove_permitted e path)|];
    discriminate.
Qed.

Lemma never_exits_objreg_get (key : string) : never_exits (objreg.get key).
Proof.
  intros w c. unfold objreg.get. destruct (registry w !! key); discriminate.
Qed.

Lemma never_exits_bind {A B} (m : M world A) (k : A -> M world B) :
  never_exits m -> (forall a, never_exits (k a)) -> never_exits (bind m k).
Proof.
  intros Hm Hk w c. unfold bind. specialize (Hm w).
  destruct (m w) as [[a|x|c'] w1]; cbn in *.
  - apply Hk.
  - discriminate.
  - now destruct (Hm c').
Qed.

Lemma never_exits_dispatch {A} (clauses : list (clause world A)) (x : exn) :
  Forall (fun c => forall x, never_exits (snd c x)) clauses ->
  never_exits (dispatch clauses x).
Proof.
  induction 1 as [|[p h] cs Hh _ IH]; cbn.
  - apply never_exits_raise.
  - destruct (p x); [apply Hh | apply IH].
Qed.

Lemma never_exits_try_except {A} (body : M world A) clauses :
  never_exits body ->
  Forall (fun c => forall x, never_exits (snd c x)) clauses ->
  never_exits (try_except body clauses).
Proof.
  intros Hb Hc w c. unfold try_except. specialize (Hb w).
  destruct (body w) as [[a|x|c'] w1]; cbn in *.
  - discriminate.
  - now apply never_exits_dispatch.
  - now destruct (Hb c').
Qed.

Lemma never_exits_try_except_else {A B} (body : M world A)
    (clauses : list (clause world B)) (orelse : A -> M world B) :
  never_exits body ->
  Forall (fun c => forall x, never_exits (snd c x)) clauses ->
  (forall a, never_exits (orelse a)) ->
  never_exits (try_except_else body clauses orelse).
Proof.
  intros Hb Hc Ho w c. unfold try_except_else. specialize (Hb w).
  destruct (body w) as [[a|x|c'] w1]; cbn in *.
  - apply Ho.
  - now apply never_exits_dispatch.
  - now destruct (Hb c').
Qed.

Lemma never_exits_when (b : bool) (m : M world unit) :
  never_exits m -> never_exits (when b m).
Proof. intros Hm. destruct b; [exact Hm | apply never_exits_ret]. Qed.

Lemma never_exits_for_each {A} (l : list A) (body : A -> M world unit) :
  (forall x, never_exits (body x)) -> never_exits (for_each l body).
Proof.
  intros Hb. induction l as [|x l IH]; cbn.
  - apply never_exits_ret.
  - apply never_exits_bind; [apply Hb | intros _; exact IH].
Qed.
End NeverExits.

(** Decomposing a [never_exits] goal along the structure of the code, as
    [frame] does for [preserves].  There is no rule for [sys.exit]. *)
Create HintDb noexit.

Ltac noexit_step :=
  first
  [ solve [ auto 1 with noexit nocore ]
  | lazymatch goal with
    | |- never_exits (bind _ _) => apply never_exits_bind; [ | intros ? ]
    | |- never_exits (ret _) => apply never_exits_ret
    | |- never_exits (raise _) => apply never_exits_raise
    | |- never_exits (lift _) => apply never_exits_lift
    | |- never_exits (gets _) => apply never_exits_gets
    | |- never_exits get => apply never_exits_get
    | |- never_exits (try_except _ _) =>
        apply never_exits_try_except; [ | frame_clauses ]
    | |- never_exits (try_except_else _ _ _) =>
        apply never_exits_try_except_else; [ | frame_clauses | intros ? ]
    | |- never_exits (when _ _) => apply never_exits_when
    | |- never_exits (for_each _ _) => apply never_exits_for_each; intros ?
    | |- never_exits (objreg.get _) => apply never_exits_objreg_get
    | |- never_exits (if ?b then _ else _) => destruct b
    | |- never_exits (match ?x with _ => _ end) => destruct x
    | |- never_exits (let '(_, _) := ?x in _) => destruct x
    | |- never_exits (modify _) => apply never_exits_modify
    | |- never_exits (read_text _) => apply never_exits_read_text
    | |- never_exits (os_remove _ _) => apply never_exits_os_remove
    | |- never_exits ?m => let h := head_of m in unfold h
    end ].

Ltac noexit := frame_unfold; repeat (noexit_step; frame_unfold).

Lemma recover_loop_never_exits tabs pages :
  never_exits (recover_loop tabs pages).
Proof.
  revert pages. induction tabs as [|t tabs IH]; intros pages;
    cbn [recover_loop]; noexit.
Qed.
#[export] Hint Resolve recover_loop_never_exits : noexit.

Lemma restart_pages_never_exits tabs pages :
  never_exits (restart_pages tabs pages).
Proof.
  revert pages. induction tabs as [|t tabs IH]; intros pages;
    cbn [restart_pages]; noexit.
Qed.
#[export] Hint Resolve restart_pages_never_exits : noexit.

Lemma save_geometry_never_exits e : never_exits (_save_geometry e).
Proof. noexit. Qed.
#[export] Hint Resolve save_geometry_never_exits : noexit.

Lemma destroy_crashlogfile_never_exits e :
  never_exits (_destroy_crashlogfile e).
Proof. noexit. Qed.
#[export] Hint Resolve destroy_crashlogfile_never_exits : noexit.

Lemma shutdown2_never_exits e status : never_exits (_shutdown e status).
Proof. noexit. Qed.
#[export] Hint Resolve shutdown2_never_exits : noexit.

Lemma shutdown_never_exits e status : never_exits (shutdown e status).
Proof. noexit. Qed.
#[export] Hint Resolve shutdown_never_exits : noexit.

Lemma restart_never_exits e b pages : never_exits (restart e b pages).
Proof. noexit. Qed.

Lemma tick_never_exits e : never_exits (tick e).
Proof. noexit. Qed.

Lemma handle_segfault_never_exits e : never_exits (_handle_segfault e).
Proof. noexit. Qed.

Lemma recover_pages_never_exits : never_exits _recover_pages.
Proof. noexit. Qed.

Lemma benign_hook_never_exits e exctype :
  benign exctype = true -> never_exits (_exception_hook e exctype).
Proof. intros H. unfold _exception_hook. rewrite H. noexit. Qed.

(** Closing the goals that [frame] leaves for [exit_status_is]. *)
Ltac exit_goal :=
  let w := fresh "w" in let H := fresh "H" in
  intros w H; unfold exit_status_is in *; world_simpl; exact H.

Lemma recover_loop_exit_status x tabs pages :
  preserves (exit_status_is x) (recover_loop tabs pages).
Proof.
  revert pages. induction tabs as [|t tabs IH]; intros pages;
    cbn [recover_loop]; frame. all: exit_goal.
Qed.
#[export] Hint Resolve recover_loop_exit_status : frame.

Lemma restart_pages_exit_status x tabs pages :
  preserves (exit_status_is x) (restart_pages tabs pages).
Proof.
  revert pages. induction tabs as [|t tabs IH]; intros pages;
    cbn [restart_pages]; frame.
Qed.
#[export] Hint Resolve restart_pages_exit_status : frame.

Lemma shutdown2_exit_status x e status :
  preserves (exit_status_is x) (_shutdown e status).
Proof. unfold _shutdown. frame. all: exit_goal. Qed.
#[export] Hint Resolve shutdown2_exit_status : frame.

Lemma shutdown_exit_status x e status :
  preserves (exit_status_is x) (shutdown e status).
Proof. unfold shutdown. frame. all: exit_goal. Qed.
#[export] Hint Resolve shutdown_exit_status : frame.

Lemma restart_exit_status x e b pages :
  preserves (exit_status_is x) (restart e b pages).
Proof. unfold restart. frame. all: exit_goal. Qed.

Lemma deliver_exit_status x s : preserves (exit_status_is x) (deliver s).
Proof. unfold deliver. frame. all: exit_goal. Qed.

(** X13: the graceful paths never leave synchronously.  From any state,
    neither stage of shutdown, nor [restart], nor a turn of the run loop,
    nor the exception hook for a benign exception ends in [SystemExit], and
    the two stages of shutdown, [restart] and every signal handler leave
    the status of [QApplication::exit] as it was: the exit is only ever
    scheduled.  The delivery of a signal ends in [SystemExit] only at the
    third level of escalation, with status [128 + signum]. *)
Theorem graceful_paths_never_exit (e : env) (w : world) :
  (forall status,
     (forall c, fst (shutdown e status w) <> Exit c) /\
     exit_status (snd (shutdown e status w)) = exit_status w /\
     (forall c, fst (_shutdown e status w) <> Exit c) /\
     exit_status (snd (_shutdown e status w)) = exit_status w) /\
  (forall do_shutdown pages,
     (forall c, fst (restart e do_shutdown pages w) <> Exit c) /\
     exit_status (snd (restart e do_shutdown pages w)) = exit_status w) /\
  (forall c, fst (tick e w) <> Exit c) /\
  (forall exctype c,
     benign exctype = true -> fst (_exception_hook e exctype w) <> Exit c) /\
  (forall signum,
     exit_status (snd (deliver signum w)) = exit_status w /\
     (forall c, fst (deliver signum w) = Exit c ->
        sighandlers w !! signum = Some interrupt_really_forcefully_handler /\
        c = (128 + signum)%Z)).
Proof.
  split; [|split; [|split; [|split]]].
  - intros status. split; [|split; [|split]].
    + intros c. apply shutdown_never_exits.
    + now apply (shutdown_exit_status (exit_status w) e status w).
    + intros c. apply shutdown2_never_exits.
    + now apply (shutdown2_exit_status (exit_status w) e status w).
  - intros b pages. split.
    + intros c. apply restart_never_exits.
    + now apply (restart_exit_status (exit_status w) e b pages w).
  - intros c. apply tick_never_exits.
  - intros exctype c H. now apply benign_hook_never_exits.
  - intros signum. split.
    + now apply (deliver_exit_status (exit_status w) signum w).
    + intros c. destruct (sighandlers w !! signum) as [h|] eqn:Hh.
      * rewrite (deliver_installed signum w h Hh). destruct h.
        -- rewrite interrupt_run. discriminate.
        -- rewrite interrupt_forcefully_run. discriminate.
        -- rewrite interrupt_really_forcefully_run. cbn [fst].
           intros [= <-]. now split.
      * unfold deliver. frame_unfold. run_unfold. rewrite Hh. discriminate.
Qed.

(** ** The escalation of the signal handlers *)

Lemma paired_remapped (h h' : sighandler) (w w' : world) :
  paired h w ->
  sighandlers w' = <[SIGTERM := h']> (<[SIGINT := h']> (sighandlers w)) ->
  paired h' w'.
Proof.
  intros Hp Hw s. rewrite Hw.
  destruct (decide (s = SIGTERM)) as [->|Ht].
  - rewrite lookup_insert_eq. rewrite bool_decide_eq_true_2 by now right.
    reflexivity.
  - rewrite lookup_insert_ne by congruence.
    destruct (decide (s = SIGINT)) as [->|Hi].
    + rewrite lookup_insert_eq. rewrite bool_decide_eq_true_2 by now left.
      reflexivity.
    + rewrite lookup_insert_ne by congruence. rewrite (Hp s).
      rewrite !bool_decide_eq_false_2 by (intros [?|?]; congruence).
      reflexivity.
Qed.

Lemma paired_same (h : sighandler) (w w' : world) :
  paired h w -> sighandlers w' = sighandlers w -> paired h w'.
Proof. intros Hp Hw s. rewrite Hw. apply Hp. Qed.

Lemma step_paired (e : env) (a : action) (h : sighandler) (w : world) :
  paired h w ->
  paired (if is_termination a then escalate h else h) (step e a w).
Proof.
  intros Hp. destruct a as [status| |s|exctype]; cbn [is_termination step].
  - apply (paired_same h w); [exact Hp|].
    now apply (shutdown_handlers (sighandlers w) e status w).
  - apply (paired_same h w); [exact Hp|].
    now apply (tick_handlers (sighandlers w) e w).
  - pose proof (Hp s) as Hs.
    destruct (bool_decide (s = SIGINT \/ s = SIGTERM)) eqn:Hb.
    + rewrite (deliver_installed s w h Hs). destruct h; cbn [escalate].
      * rewrite interrupt_run. cbn [snd].
        apply (paired_remapped interrupt_handler _ w); [exact Hp|reflexivity].
      * rewrite interrupt_forcefully_run. cbn [snd].
        apply (paired_remapped interrupt_forcefully_handler _ w);
          [exact Hp|reflexivity].
      * rewrite interrupt_really_forcefully_run. cbn [snd].
        apply (paired_same _ w); [exact Hp|reflexivity].
    + apply (paired_same h w); [exact Hp|].
      unfold deliver. frame_unfold. run_unfold. now rewrite Hs.
  - apply (paired_same h w); [exact Hp|].
    now apply (exception_hook_handlers (sighandlers w) e exctype w).
Qed.

Lemma signals_installed_paired (w : world) :
  sighandlers w = ∅ -> paired interrupt_handler (sample.signals_installed w).
Proof.
  intros Hw s. unfold sample.signals_installed. world_simpl. rewrite Hw.
  destruct (decide (s = SIGTERM)) as [->|Ht].
  - rewrite lookup_insert_eq. rewrite bool_decide_eq_true_2 by now right.
    reflexivity.
  - rewrite lookup_insert_ne by congruence.
    destruct (decide (s = SIGINT)) as [->|Hi].
    + rewrite lookup_insert_eq. rewrite bool_decide_eq_true_2 by now left.
      reflexivity.
    + rewrite lookup_insert_ne by congruence. rewrite lookup_empty.
      rewrite bool_decide_eq_false_2 by (intros [?|?]; congruence).
      reflexivity.
Qed.

(** X14: the escalation never steps back and counts the termination
    signals.  Once [SIGINT] and [SIGTERM] share a handler and no other
    signal is handled, this stays so whatever happens to the application,
    and after any sequence of shutdown calls, run-loop turns, signals and
    uncaught exceptions the level of the handler is the level at the start
    plus the number of [SIGINT]s and [SIGTERM]s delivered, capped at the
    third level: nothing but a termination signal moves the level, each one
    moves it by one, and no signal moves it down. *)
Theorem escalation_counts_terminations (e : env) (acts : list action)
    (h : sighandler) (w : world) :
  paired h w ->
  exists h',
    paired h' (run e acts w) /\
    force h' = Nat.min 2 (force h + terminations acts).
Proof.
  revert h w. induction acts as [|a acts IH]; intros h w Hp.
  - exists h. split; [exact Hp|]. unfold terminations. cbn.
    destruct h; reflexivity.
  - unfold run. cbn [fold_left]. fold (run e acts (step e a w)).
    destruct (IH _ _ (step_paired e a h w Hp)) as (h' & Hp' & Hf).
    exists h'. split; [exact Hp'|]. rewrite Hf.
    unfold terminations. cbn [List.filter].
    destruct (is_termination a); cbn [length]; [|reflexivity].
    destruct h; cbn [escalate force]; lia.
Qed.

Lemma escalation_counts_terminations_witness :
  exists h',
    paired h'
      (run sample.module_env
         [Signal SIGINT; Tick; Signal 1; CallShutdown 0; Signal SIGTERM]
         (sample.signals_installed sample.fresh)) /\
    force h' = 2.
Proof.
  exact (escalation_counts_terminations sample.module_env
           [Signal SIGINT; Tick; Signal 1%Z; CallShutdown 0%Z; Signal SIGTERM]
           interrupt_handler (sample.signals_installed sample.fresh)
           (signals_installed_paired sample.fresh eq_refl)).
Defined.

(** ** From the shutdown call to the exit status *)





Lemma run_cons (e : env) (a : action) (acts : list action) (w : world) :
  run e (a :: acts) w = run e acts (step e a w).
Proof. reflexivity. Qed.

Lemma run_nil (e : env) (w : world) : run e [] w = w.
Proof. reflexivity. Qed.




(** ** Benign exceptions *)

(** Closing the goals that [frame] leaves for [latched] and
    [crashdlg_is]. *)
Ltac latched_goal :=
  let w := fresh "w" in let H := fresh "H" in
  intros w H; unfold latched, crashdlg_is in *; world_simpl; exact H.

Lemma shutdown2_latched e status : preserves latched (_shutdown e status).
Proof. unfold _shutdown. frame. all: latched_goal. Qed.

Lemma shutdown_sets_latch (e : env) (status : Z) (w : world) :
  latched (snd (shutdown e status w)).
Proof.
  destruct (_shutting_down w) eqn:Hl.
  - now rewrite (shutdown_latched e status w Hl).
  - rewrite (shutdown_unlatched e status w Hl). cbv zeta.
    destruct (registry w !! "prompter") as [p|].
    + destruct p as [| |active| | | | |]; try reflexivity.
      destruct active; [reflexivity|].
      now apply shutdown2_latched.
    + now apply shutdown2_latched.
Qed.

Lemma shutdown2_crashdlg d e status :
  preserves (crashdlg_is d) (_shutdown e status).
Proof. unfold _shutdown. frame. all: latched_goal. Qed.
#[export] Hint Resolve shutdown2_crashdlg : frame.

Lemma shutdown_crashdlg d e status :
  preserves (crashdlg_is d) (shutdown e status).
Proof. unfold shutdown. frame. all: latched_goal. Qed.

(** X16: the exception hook for a benign exception (a [KeyboardInterrupt],
    a [SystemExit], the quit of the debugger) is a graceful shutdown with
    status 0.  It always returns, neither raising nor leaving through
    [sys.exit]; afterwards the latch is set, no crash dialog has been
    created and no process spawned.  When [shutdown(0)] returns the hook
    has done nothing else and the exit is left to the run loop; when
    [shutdown(0)] raises, the error is logged and the application quits at
    once with status 0. *)
Theorem benign_exception_shuts_down (e : env) (exctype : exc_class)
    (w : world) :
  benign exctype = true ->
  let r := _exception_hook e exctype w in
  fst r = Ret tt /\
  _shutting_down (snd r) = true /\
  _crashdlg (snd r) = _crashdlg w /\
  children (snd r) = children w /\
  (fst (shutdown e 0 w) = Ret tt ->
   snd r = snd (shutdown e 0 w) /\ exit_status (snd r) = exit_status w) /\
  (fst (shutdown e 0 w) <> Ret tt ->
   exit_status (snd r) = Some 0%Z /\
   trace (snd r)
   = trace (snd (shutdown e 0 w)) ++
     [Log "init" EXCEPTION "Error while shutting down" []]).
Proof.
  intros Hb r. subst r. unfold _exception_hook. rewrite Hb.
  pose proof (shutdown_sets_latch e 0 w) as Hl.
  pose proof (shutdown_crashdlg (_crashdlg w) e 0 w eq_refl) as Hd.
  pose proof (shutdown_children (children w) e 0 w eq_refl) as Hc.
  pose proof (shutdown_exit_status (exit_status w) e 0 w eq_refl) as He.
  pose proof (shutdown_never_exits e 0 w) as Hn.
  unfold latched, crashdlg_is, children_are, exit_status_is in *.
  unfold try_except. frame_unfold.
  destruct (shutdown e 0 w) as [[[]|x|c] w1]; cbn [fst snd] in *.
  - do 4 (split; [first [reflexivity | assumption]|]).
    split; [intros _; now split | intros Hne; now destruct Hne].
  - cbn [dispatch is_Exception]. run_unfold. world_simpl.
    do 4 (split; [first [reflexivity | assumption]|]).
    split; [discriminate | intros _; now split].
  - now destruct (Hn c).
Qed.

Lemma benign_exception_shuts_down_witness :
  let r := _exception_hook sample.module_env (BaseExceptionOnly "KeyboardInterrupt")
             history_unwritable in
  fst r = Ret tt /\ _shutting_down (snd r) = true /\
  exit_status (snd r) = Some 0%Z.
Proof.
  intros r.
  destruct (benign_exception_shuts_down sample.module_env
              (BaseExceptionOnly "KeyboardInterrupt") history_unwritable
              eq_refl) as (Hret & Hl & _ & _ & _ & Hfail).
  split; [exact Hret|]. split; [exact Hl|].
  apply Hfail. vm_compute. discriminate.
Defined.

Lemma graceful_paths_never_exit_witness :
  fst (_exception_hook sample.module_env BdbQuit history_unwritable) <> Exit 1 /\
  exit_status (snd (shutdown sample.module_env 3 history_unwritable)) = None /\
  forall c, fst (deliver SIGINT (sample.signals_installed sample.fresh))
            <> Exit c.
Proof.
  destruct (graceful_paths_never_exit sample.module_env history_unwritable)
    as (Hshutdown & _ & _ & Hhook & _).
  split; [exact (Hhook BdbQuit 1%Z eq_refl)|].
  split; [exact (proj1 (proj2 (Hshutdown 3%Z)))|].
  intros c Hc.
  destruct (graceful_paths_never_exit sample.module_env
              (sample.signals_installed sample.fresh))
    as (_ & _ & _ & _ & Hdeliver).
  destruct (proj2 (Hdeliver SIGINT) c Hc) as (Hh & _).
  discriminate Hh.
Defined.

(** ** The model and the list of the download manager *)

Lemma backing_with_downloads ds w :
  backing (sample.with_downloads ds w) = ds.
Proof.
  unfold backing, sample.with_downloads, sample.registered. world_simpl.
  now rewrite lookup_insert_eq.
Qed.

Lemma data_stale (c : colors) (i : QModelIndex) (role : Z) (w : world) :
  isValid i = true -> column i = 0%Z ->
  registry w !! "download-manager" = Some (DownloadManager (backing w)) ->
  (Z.of_nat (length (backing w)) <= row i)%Z ->
  data c i QModelIndex_default role w = (Ret IndexError, w).
Proof.
  intros Hv Hc Hreg Hrow.
  unfold data, ensure_valid, objreg.get, attr_downloads. frame_unfold.
  rewrite Hv, Hc. cbn [isValid QModelIndex_default orb negb Z.eqb].
  run_unfold. rewrite Hreg. cbv beta iota.
  now rewrite (getitem_stale _ _ Hrow).
Qed.

Lemma display_nth (c : colors) (ds : list download) (r : nat) (w : world) :
  display c (Z.of_nat r) (sample.with_downloads ds w)
  = Ret (match nth_error ds r with
         | Some d => Item (VStr (download_str d))
         | None => IndexError
         end).
Proof.
  unfold display.
  assert (Hreg : registry (sample.with_downloads ds w) !! "download-manager"
                 = Some (DownloadManager (backing (sample.with_downloads ds w)))).
  { rewrite backing_with_downloads. unfold sample.with_downloads,
      sample.registered. world_simpl. now rewrite lookup_insert_eq. }
  destruct (nth_error ds r) as [d|] eqn:Hn.
  - rewrite (data_item c (cell (Z.of_nat r) 0) DisplayRole _ d eq_refl eq_refl
               Hreg); [reflexivity|].
    rewrite backing_with_downloads. cbn [row cell].
    assert (Hr : (0 <= Z.of_nat r < Z.of_nat (length ds))%Z).
    { assert (r < length ds) by (apply nth_error_Some; congruence). lia. }
    destruct (getitem_in_range ds _ Hr) as (a & Ha & ->).
    rewrite Nat2Z.id in Ha. congruence.
  - apply nth_error_None in Hn.
    rewrite (data_stale c (cell (Z.of_nat r) 0) DisplayRole _ eq_refl eq_refl
               Hreg); [reflexivity|].
    rewrite backing_with_downloads. cbn [row cell]. lia.
Qed.

Lemma rowCount_with_downloads ds w :
  rowCount QModelIndex_default (sample.with_downloads ds w)
  = (Ret (Z.of_nat (length ds)), sample.with_downloads ds w).
Proof.
  rewrite rowCount_backing.
  - now rewrite backing_with_downloads.
  - unfold manager_ok, sample.with_downloads, sample.registered. world_simpl.
    now rewrite lookup_insert_eq.
Qed.

(** X17: the view follows the list of the download manager.  The model
    keeps no copy: after a download is inserted at position [i] of the
    list, the model has one row more, row [i] shows the new download, the
    rows before it show what they showed and every later row shows what the
    row before it showed; after the download at position [i] is removed,
    the model has one row less, the rows before [i] are unchanged and every
    later row has moved up by one. *)
Theorem model_follows_the_list (c : colors) (ds : list download)
    (d : download) (i : nat) (w : world) :
  i <= length ds ->
  let before := sample.with_downloads ds w in
  let added := sample.with_downloads (list_insert_at i d ds) w in
  let removed := sample.with_downloads (list_remove_at i ds) w in
  fst (rowCount QModelIndex_default added)
  = Ret (Z.of_nat (length ds) + 1)%Z /\
  display c (Z.of_nat i) added = Ret (Item (VStr (download_str d))) /\
  (forall r, r < i ->
     display c (Z.of_nat r) added = display c (Z.of_nat r) before /\
     display c (Z.of_nat r) removed = display c (Z.of_nat r) before) /\
  (forall r, i <= r ->
     display c (Z.of_nat (S r)) added = display c (Z.of_nat r) before /\
     display c (Z.of_nat r) removed = display c (Z.of_nat (S r)) before) /\
  (i < length ds ->
   fst (rowCount QModelIndex_default removed)
   = Ret (Z.of_nat (length ds) - 1)%Z).
Proof.
  intros Hi before added removed. subst before added removed.
  unfold list_insert_at, list_remove_at.
  rewrite !rowCount_with_downloads. cbn [fst].
  split; [|split; [|split; [|split]]].
  - f_equal. rewrite length_app. cbn [length].
    rewrite length_take, length_drop. lia.
  - rewrite display_nth. rewrite nth_error_app2 by (rewrite length_take; lia).
    rewrite length_take. replace (i - i `min` length ds) with 0 by lia.
    reflexivity.
  - intros r Hr. rewrite !display_nth.
    rewrite !nth_error_app1 by (rewrite length_take; lia).
    rewrite nth_error_firstn.
    destruct (Nat.ltb_spec r i); [now split | lia].
  - intros r Hr. rewrite !display_nth.
    rewrite !nth_error_app2 by (rewrite length_take; lia).
    rewrite length_take.
    replace (S r - i `min` length ds) with (S (r - i)) by lia.
    replace (r - i `min` length ds) with (r - i) by lia.
    cbn [nth_error]. rewrite !nth_error_skipn.
    replace (i + (r - i)) with r by lia.
    replace (S i + (r - i)) with (S r) by lia. now split.
  - intros Hlt. f_equal. rewrite length_app.
    rewrite length_take, length_drop. lia.
Qed.

Lemma model_follows_the_list_witness :
  let ds := [Download "a"; Download "b"; Download "c"] in
  let added := sample.with_downloads (list_insert_at 1 (Download "d") ds)
                 sample.fresh in
  fst (rowCount QModelIndex_default added) = Ret 4%Z /\
  display sample_colors 1 added = Ret (Item (VStr "d")) /\
  display sample_colors 2 added
  = display sample_colors 1 (sample.with_downloads ds sample.fresh).
Proof.
  intros ds added.
  destruct (model_follows_the_list sample_colors ds (Download "d") 1
              sample.fresh ltac:(cbn; lia))
    as (Hcount & Hnew & _ & Hafter & _).
  split; [exact Hcount|]. split; [exact Hnew|].
  exact (proj1 (Hafter 1 ltac:(lia))).
Defined.

(** ** The content of the crash dialog *)

Lemma hook_history_value (w : world) :
  exists l,
    try_except
      (o ← objreg.get "status-command";
       h ← attr_history o;
       mret (last5 h))
      [(is_Exception, fun _ =>
          log "destroy" EXCEPTION "Error while getting history: {}" [];;
          mret [])] w
    = (Ret (crash_history (registry w)), logged l w) /\
    (l = [] <-> exists h, registry w !! "status-command" = Some (StatusCommand h)).
Proof.
  unfold objreg.get, attr_history, crash_history. frame_unfold.
  destruct (registry w !! "status-command") as [o|] eqn:Hreg.
  - destruct o; run_unfold; rewrite Hreg; cbv iota beta;
      try (eexists; rewrite logged_one; split; [reflexivity|];
           split; [discriminate | intros [? [=]]]).
    exists []. rewrite logged_nil. split; [reflexivity|].
    split; [eauto|reflexivity].
  - run_unfold. rewrite Hreg. cbv iota beta.
    eexists; rewrite logged_one; split; [reflexivity|].
    split; [discriminate | intros [? [=]]].
Qed.

Lemma hook_objects_value (e : env) (w : world) :
  exists l,
    try_except (lift (all_objects e))
      [(is_Exception, fun _ =>
          log "destroy" EXCEPTION "Error while getting objects" [];;
          mret "")] w
    = (Ret (crash_objects e), logged l w).
Proof.
  unfold crash_objects. frame_unfold. destruct (all_objects e) as [s|x]; run_unfold.
  - exists []. now rewrite logged_nil.
  - eexists; rewrite logged_one; reflexivity.
Qed.

Lemma last5_suffix {A} (l : list A) :
  length (last5 l) = Nat.min 5 (length l) /\
  exists older, l = older ++ last5 l.
Proof.
  unfold last5. split.
  - rewrite length_skipn. lia.
  - exists (firstn (length l - 5) l). symmetry. apply firstn_skipn.
Qed.

Lemma hook_disconnect_off (w : world) :
  exists l,
    try_except disconnect_lastWindowClosed
      [(is_TypeError, fun _ =>
          log "destroy" EXCEPTION "Error while preventing shutdown" [])] w
    = (Ret tt, set_lastWindowClosed_connected false (logged l w)).
Proof.
  unfold disconnect_lastWindowClosed. frame_unfold. run_unfold.
  destruct (lastWindowClosed_connected w) eqn:Hc; run_unfold.
  - exists []. now rewrite logged_nil.
  - eexists. rewrite logged_one.
    rewrite <- (set_lastWindowClosed_connected_same (logged _ w)) at 1.
    change (lastWindowClosed_connected (logged ?l w))
      with (lastWindowClosed_connected w).
    rewrite Hc. reflexivity.
Qed.

Lemma destroy_crashlogfile_trigger (b : bool) (e : env) :
  preserves (trigger_is b) (_destroy_crashlogfile e).
Proof.
  unfold _destroy_crashlogfile. frame.
  all: intros w H; unfold trigger_is in *; world_simpl; exact H.
Qed.

(** X18: what the crash dialog is given.  For a genuine exception the
    hook creates the crash dialog with the recoverable pages, the command
    history, the exception and the object dump, and it leaves the shutdown
    trigger of the last closed window disconnected, so that closing the
    windows cannot start the graceful shutdown.  The history is the last
    five commands of the status command, in order (all of them when there
    are fewer), and it is empty when no status command is registered; the
    object dump is empty when collecting it raises.  A failure to collect
    one of the three does not keep the dialog from being created with the
    other two. *)
Theorem crash_dialog_content (e : env) (exctype : exc_class) (w : world) :
  benign exctype = false ->
  let r := _exception_hook e exctype w in
  _crashdlg (snd r)
  = Some (ExceptionCrashDialog (recovered (registry w))
            (crash_history (registry w)) exctype (crash_objects e)) /\
  lastWindowClosed_connected (snd r) = false /\
  length (crash_history (registry w)) <= 5 /\
  (forall h, registry w !! "status-command" = Some (StatusCommand h) ->
     length (crash_history (registry w)) = Nat.min 5 (length h) /\
     exists older, h = older ++ crash_history (registry w)) /\
  (registry w !! "status-command" = None -> crash_history (registry w) = []) /\
  (forall x, all_objects e = Err x -> crash_objects e = "").
Proof.
  intros Hb r.
  assert (Hrest :
    length (crash_history (registry w)) <= 5 /\
    (forall h, registry w !! "status-command" = Some (StatusCommand h) ->
       length (crash_history (registry w)) = Nat.min 5 (length h) /\
       exists older, h = older ++ crash_history (registry w)) /\
    (registry w !! "status-command" = None ->
       crash_history (registry w) = []) /\
    (forall x, all_objects e = Err x -> crash_objects e = "")).
  { unfold crash_history, crash_objects. split; [|split; [|split]].
    - destruct (registry w !! "status-command") as [[]|]; cbn; try lia.
      rewrite (proj1 (last5_suffix _)). lia.
    - intros h ->. apply last5_suffix.
    - now intros ->.
    - now intros x ->. }
  cut (_crashdlg (snd r)
       = Some (ExceptionCrashDialog (recovered (registry w))
                 (crash_history (registry w)) exctype (crash_objects e)) /\
       lastWindowClosed_connected (snd r) = false).
  { intros [H1 H2]. split; [exact H1|]. split; [exact H2|exact Hrest]. }
  clear Hrest. subst r. unfold _exception_hook. rewrite Hb.
  frame_unfold.
  run_prim.
  run_prim.
  match goal with |- context [bind (try_except _recover_pages _) _ ?w1] =>
    destruct (hook_pages_run w1) as [l1 Hrun] end.
  rewrite (bind_run _ _ _ _ _ Hrun). clear Hrun. cbv beta. world_simpl.
  match goal with
  | |- context [bind (try_except (bind (objreg.get _) _) _) _ ?w1] =>
    destruct (hook_history_value w1) as (l2 & Hrun & _) end.
  unfold mbind, M_bind, mret, M_ret in Hrun.
  rewrite (bind_run _ _ _ _ _ Hrun). clear Hrun. cbv beta.
  match goal with |- context [bind (try_except (lift _) _) _ ?w1] =>
    destruct (hook_objects_value e w1) as (l3 & Hrun) end.
  unfold mbind, M_bind, mret, M_ret in Hrun.
  rewrite (bind_run _ _ _ _ _ Hrun). clear Hrun. cbv beta.
  match goal with
  | |- context [bind (try_except disconnect_lastWindowClosed _) _ ?w1] =>
    destruct (hook_disconnect_off w1) as (l4 & Hrun) end.
  rewrite (bind_run _ _ _ _ _ Hrun). clear Hrun. cbv beta.
  run_prim.
  run_prim.
  run_prim.
  match goal with |- context [bind (when _ _) _ ?w1] =>
    assert (Hwhen : exists l5,
      when (match crashdlg_exec e with Accepted => true | Rejected => false end)
        (restart e false (Some (recovered (registry w)))) w1
      = (Ret tt,
         set_children (fun c => c ++
             match crashdlg_exec e with
             | Accepted => [(restart_args e (recovered (registry w)),
                             snd (launch e))]
             | Rejected => []
             end) (logged l5 w1)))
  end.
  { destruct (crashdlg_exec e); cbn [when].
    - exists []. rewrite logged_nil. unfold ret, set_children. f_equal.
      match goal with |- ?w1 = _ => destruct w1 end. cbn.
      now rewrite app_nil_r.
    - apply restart_run. }
  destruct Hwhen as [l5 Hrun].
  rewrite (bind_run _ _ _ _ _ Hrun). clear Hrun. cbv beta.
  run_prim.
  match goal with |- context [bind (_destroy_crashlogfile e) _ ?w1] =>
    destruct (destroy_crashlogfile_run e w1) as (w' & Hrun & _ & _ & Hd);
    assert (Htrig : trigger_is false w1)
      by (unfold trigger_is, logged; world_simpl; reflexivity);
    pose proof (destroy_crashlogfile_trigger false e w1 Htrig) as Htrig'
  end.
  rewrite Hrun in Htrig'. cbn [snd] in Htrig'.
  rewrite (bind_run _ _ _ _ _ Hrun). clear Hrun. cbv beta.
  unfold sys_exit. cbn [fst snd]. split; [|exact Htrig'].
  unfold logged in *. world_simpl. exact Hd.
Qed.

Lemma crash_dialog_content_witness :
  let w := sample.registered "status-command"
             (StatusCommand [":a"; ":b"; ":c"; ":d"; ":e"; ":f"; ":g"])
             sample.fresh in
  _crashdlg (snd (_exception_hook sample.module_env
                    (ExceptionClass "ValueError") w))
  = Some (ExceptionCrashDialog [] [":c"; ":d"; ":e"; ":f"; ":g"]
            (ExceptionClass "ValueError") "") /\
  lastWindowClosed_connected
    (snd (_exception_hook sample.module_env (ExceptionClass "ValueError") w))
  = false.
Proof.
  intros w.
  destruct (crash_dialog_content sample.module_env
              (ExceptionClass "ValueError") w eq_refl) as (Hdlg & Hoff & _).
  split; [exact Hdlg | exact Hoff].
Defined.

(** ** Stage 2 before the main window exists *)

Lemma save_geometry_missing (e : env) (w : world) (key : string) :
  missing_for_geometry (registry w) = Some key ->
  _save_geometry e w = (Exc (KeyError key), w).
Proof.
  unfold missing_for_geometry, _save_geometry, objreg.get. frame_unfold.
  run_unfold.
  destruct (registry w !! "state-config") as [sc|]; cbv beta iota.
  - destruct (registry w !! "main-window") as [mw|]; [discriminate|].
    now intros [= <-].
  - now intros [= <-].
Qed.

Lemma build_to_save_run_bound (e : env) (config_obj : obj) (w : world) :
  registry w !! "config" = Some config_obj ->
  bound_saves_tolerable (registry w) = true ->
  build_to_save e config_obj w = (Ret (to_save_list e (registry w)), w).
Proof.
  unfold bound_saves_tolerable. intros Hcfg Htol.
  repeat (apply andb_true_iff in Htol as [Htol ?]).
  assert (Hsave : exists s, save_of config_obj = Some s).
  { unfold tolerated_at in *. rewrite Hcfg in *.
    destruct (save_of config_obj); [eauto | discriminate]. }
  destruct Hsave as [s Hs].
  unfold build_to_save, to_save_list, attr_save. frame_unfold.
  unfold registered_save at 1. rewrite Hcfg, Hs.
  destruct (auto_save_config e);
    (destruct config_obj; cbn [save_of] in Hs; try discriminate;
     injection Hs as ->); run_unfold;
    repeat (rewrite append_registered_run by assumption; cbv beta iota);
    cbn [app]; now rewrite <- ?app_assoc.
Qed.

Lemma registered_save_bound (reg : gmap string obj) (key what qn : string) :
  tolerated_at reg key = true ->
  forallb (fun p => bound_tolerable (snd p)) (registered_save reg key what qn)
  = true.
Proof.
  unfold tolerated_at, registered_save.
  destruct (reg !! key) as [o|]; [|reflexivity].
  destruct (save_of o); [|reflexivity]. cbn. now intros ->.
Qed.

Lemma bind_raises {A B} (m : M world A) (k : A -> M world B) (w w1 : world)
    (x : exn) :
  m w = (Exc x, w1) -> bind m k w = (Exc x, w1).
Proof. intros H. unfold bind. now rewrite H. Qed.

Lemma save_one_bound (e : env) (what q : string) (s : result unit)
    (w : world) :
  tolerated s = true ->
  exists l,
    (log "destroy" DEBUG "Saving {} (handler: {})"
       [AStr what; AStr (qualname (bound_save q s))];;
     try_except (run_handler e (bound_save q s))
       [(is_AttributeError, fun _ =>
           log "destroy" WARNING "Could not save {}." [AStr what];;
           log "destroy" DEBUG "{}" [AStr "AttributeError"])]) w
    = (Ret tt, logged l w) /\ handler_calls l = [q].
Proof.
  intros Hs. unfold run_handler. frame_unfold.
  destruct s as [[]|x]; [|destruct x; try discriminate]; run_unfold;
    rewrite !logged_one, !logged_logged; eexists; split; reflexivity.
Qed.

Lemma save_one_geometry_missing (e : env) (what key : string) (w : world) :
  missing_for_geometry (registry w) = Some key ->
  exists l,
    (log "destroy" DEBUG "Saving {} (handler: {})"
       [AStr what; AStr (qualname save_geometry)];;
     try_except (run_handler e save_geometry)
       [(is_AttributeError, fun _ =>
           log "destroy" WARNING "Could not save {}." [AStr what];;
           log "destroy" DEBUG "{}" [AStr "AttributeError"])]) w
    = (Exc (KeyError key), logged l w) /\
    handler_calls l = ["Application._save_geometry"].
Proof.
  intros Hmiss. unfold run_handler. frame_unfold. run_unfold.
  rewrite (save_geometry_missing e _ key) by exact Hmiss.
  cbv beta iota. rewrite !logged_one, !logged_logged.
  eexists. split; reflexivity.
Qed.

Lemma save_all_aborts (e : env) (pre post : list (string * handler))
    (what key : string) (w : world) :
  forallb (fun p => bound_tolerable (snd p)) pre = true ->
  missing_for_geometry (registry w) = Some key ->
  exists l,
    save_all e (pre ++ (what, save_geometry) :: post) w
    = (Exc (KeyError key), logged l w) /\
    handler_calls l
    = map (fun p => qualname (snd p)) pre ++ ["Application._save_geometry"].
Proof.
  revert w. induction pre as [|[what' h] pre IH]; intros w Hpre Hmiss.
  - cbn [app]. unfold save_all. cbn [for_each].
    destruct (save_one_geometry_missing e what key w Hmiss) as (l & Hrun & Hc).
    exists l. split; [|exact Hc].
    unfold mbind, M_bind in *. now apply bind_raises.
  - cbn [forallb snd] in Hpre. apply andb_true_iff in Hpre as [Hh Hpre].
    destruct h as [q s| |]; try discriminate. cbn [bound_tolerable] in Hh.
    cbn [app]. unfold save_all. cbn [for_each].
    destruct (save_one_bound e what' q s w Hh) as (l1 & Hrun & Hc1).
    unfold mbind, M_bind in *.
    rewrite (bind_run _ _ _ _ _ Hrun).
    destruct (IH (logged l1 w) Hpre Hmiss) as (l & Hrest & Hc).
    unfold save_all, mbind, M_bind in Hrest. rewrite Hrest.
    rewrite logged_logged.
    eexists. split; [reflexivity|].
    rewrite handler_calls_app, Hc1, Hc. reflexivity.
Qed.

Lemma to_save_list_split (e : env) (reg : gmap string obj) :
  tolerated_at reg "config" = true -> tolerated_at reg "key-config" = true ->
  exists pre post,
    to_save_list e reg = pre ++ ("window geometry", save_geometry) :: post /\
    forallb (fun p => bound_tolerable (snd p)) pre = true.
Proof.
  intros Hc Hk. unfold to_save_list. eexists. eexists. split.
  - cbn [app]. reflexivity.
  - destruct (auto_save_config e); [|reflexivity].
    rewrite forallb_app. now rewrite !registered_save_bound.
Qed.

Lemma save_everything_aborts (e : env) (w : world) (key : string) :
  registry w !! "config" <> None ->
  bound_saves_tolerable (registry w) = true ->
  missing_for_geometry (registry w) = Some key ->
  exists l,
    save_everything e w = (Exc (KeyError key), logged l w) /\
    last (handler_calls l) = Some "Application._save_geometry".
Proof.
  intros Hcfg Htol Hmiss. unfold save_everything, try_except_else, objreg.get.
  destruct (registry w !! "config") as [config_obj|] eqn:Hc; [|congruence].
  frame_unfold.
  rewrite (bind_run _ _ _ _ _ (build_to_save_run_bound e config_obj w Hc Htol)).
  unfold bound_saves_tolerable in Htol.
  repeat (apply andb_true_iff in Htol as [Htol ?]).
  destruct (to_save_list_split e (registry w)) as (pre & post & -> & Hpre);
    try assumption.
  destruct (save_all_aborts e pre post "window geometry" key w Hpre Hmiss)
    as (l & Hrun & Hcalls).
  exists l. split; [exact Hrun|]. rewrite Hcalls. apply last_snoc.
Qed.

Lemma stage2_stuck_insert (reg : gmap string obj) (key k : string)
    (o : obj) :
  k = "prompter" \/ (k = "tabbed-browser" /\ o = TabbedBrowser []) ->
  stage2_stuck reg key -> stage2_stuck (<[k := o]> reg) key.
Proof.
  unfold stage2_stuck, tabs_closable, bound_saves_tolerable, tolerated_at,
    missing_for_geometry.
  intros [->|[-> ->]] (H1 & H2 & H3 & H4).
  - rewrite !lookup_insert_ne by discriminate. now repeat split.
  - rewrite lookup_insert_eq. rewrite !lookup_insert_ne by discriminate.
    now repeat split.
Qed.

Lemma logged_set_registry (l : list event)
    (f : gmap string obj -> gmap string obj) (w : world) :
  logged l (set_registry f w) = set_registry f (logged l w).
Proof. reflexivity. Qed.

Lemma shutdown2_aborts (e : env) (status : Z) (w : world) (key : string) :
  stage2_stuck (registry w) key ->
  exists l (f : gmap string obj -> gmap string obj),
    _shutdown e status w
    = (Exc (KeyError key), set_registry f (logged l w)) /\
    f (registry w) !! "config" = registry w !! "config".
Proof.
  intros Hstuck. pose proof Hstuck as (Htabs & _).
  unfold _shutdown. frame_unfold.
  run_prim.
  match goal with |- context [bind (when ?b ?m) ?k ?w1] =>
    destruct (debug_exit_run b w1) as (l2 & Hrun & _) end.
  unfold mbind, M_bind in Hrun.
  rewrite (bind_run _ _ _ _ _ Hrun). clear Hrun. cbv beta.
  match goal with |- context [bind (try_except _ _) ?k ?w1] =>
    destruct (remove_eventfilter_run w1) as (l3 & Hrun & _) end.
  unfold mbind, M_bind in Hrun.
  rewrite (bind_run _ _ _ _ _ Hrun). clear Hrun. cbv beta.
  match goal with |- context [bind (try_except _ _) ?k ?w1] =>
    destruct (close_tabs_run w1 Htabs) as (l4 & f & Hrun & _ & _ & Hreg)
  end.
  unfold mbind, M_bind in Hrun.
  rewrite (bind_run _ _ _ _ _ Hrun). clear Hrun. cbv beta.
  assert (Hstuck' : stage2_stuck (f (registry w)) key).
  { destruct (Hreg (registry w)) as [-> | ->]; [exact Hstuck|].
    apply stage2_stuck_insert; [now right | exact Hstuck]. }
  destruct Hstuck' as (_ & Hcfg & Htol & Hmiss).
  match goal with |- context [bind (save_everything e) ?k ?w1] =>
    destruct (save_everything_aborts e w1 key) as (l5 & Hrun & _)
  end; try assumption.
  rewrite (bind_raises _ _ _ _ _ Hrun).
  rewrite logged_one, logged_set_registry, !logged_logged.
  eexists. exists f. split; [reflexivity|].
  destruct (Hreg (registry w)) as [-> | ->]; [reflexivity|].
  now rewrite lookup_insert_ne.
Qed.

Lemma idle_run_stuck (e : env) (acts : list action) (w : world) :
  _shutting_down w = true -> timers w = [] ->
  forallb shutdown_or_tick acts = true ->
  run e acts w = w.
Proof.
  intros Hl Ht. induction acts as [|a acts IH]; [reflexivity|].
  cbn [forallb]. intros Ha. apply andb_true_iff in Ha as [Ha Hacts].
  rewrite run_cons. destruct a; try discriminate; cbn [step].
  - rewrite (shutdown_latched e status w Hl). now apply IH.
  - rewrite tick_cases, Ht. destruct (exit_status w); now apply IH.
Qed.

(** X19: Stage 2 cannot save the geometry before the main window exists.
    When a config is registered (so that Stage 2 saves) and the state
    config or the main window is not, [_save_geometry] raises a [KeyError]
    that the loop over the save handlers does not catch: [_shutdown] raises
    it, the exit is not scheduled, the message handler stays installed, the
    crash marker is not torn down and the registry is not cleared.  As the
    latch of [shutdown] is set by then, no later call of [shutdown] and no
    turn of the run loop makes the application exit. *)
Theorem stage2_aborts_without_window (e : env) (status : Z) (w : world)
    (key : string) :
  stage2_stuck (registry w) key ->
  let r := _shutdown e status w in
  fst r = Exc (KeyError key) /\
  timers (snd r) = timers w /\
  exit_status (snd r) = exit_status w /\
  message_handler (snd r) = message_handler w /\
  marker_of (snd r) = marker_of w /\
  registry (snd r) !! "config" = registry w !! "config" /\
  (_shutting_down w = false -> prompter_idle (registry w) = true ->
   timers w = [] -> exit_status w = None ->
   forall acts, forallb shutdown_or_tick acts = true ->
   let w' := run e (CallShutdown status :: acts) w in
   exit_status w' = None /\ timers w' = [] /\ _shutting_down w' = true).
Proof.
  intros Hstuck r. subst r.
  destruct (shutdown2_aborts e status w key Hstuck) as (l & f & Hrun & Hcfg).
  rewrite Hrun. cbn [fst snd]. unfold logged. world_simpl.
  do 5 (split; [reflexivity|]). split; [exact Hcfg|].
  intros Hl Hidle Ht He acts Hacts.
  rewrite run_cons. cbn [step].
  assert (Hafter : exit_status (snd (shutdown e status w)) = None /\
                   timers (snd (shutdown e status w)) = [] /\
                   _shutting_down (snd (shutdown e status w)) = true).
  { split; [now apply (shutdown_exit_status None e status w)|].
    split; [|apply shutdown_sets_latch].
    rewrite (shutdown_unlatched e status w Hl). cbv zeta.
    unfold prompter_idle in Hidle.
    destruct (registry w !! "prompter") as [p|] eqn:Hp.
    - destruct p as [| |active| | | | |]; try discriminate.
      destruct active; [discriminate|].
      match goal with |- context [_shutdown e status ?w1] =>
        destruct (shutdown2_aborts e status w1 key) as (l1 & f1 & -> & _)
      end.
      + world_simpl. apply stage2_stuck_insert; [now left | exact Hstuck].
      + unfold logged. world_simpl. exact Ht.
    - match goal with |- context [_shutdown e status ?w1] =>
        destruct (shutdown2_aborts e status w1 key Hstuck) as (l1 & f1 & -> & _)
      end.
      unfold logged. world_simpl. exact Ht. }
  destruct Hafter as (He' & Ht' & Hl').
  rewrite (idle_run_stuck e acts _ Hl' Ht' Hacts). now repeat split.
Qed.

Lemma stage2_aborts_without_window_witness :
  fst (_shutdown sample.module_env 0 before_main_window)
  = Exc (KeyError "main-window") /\
  exit_status (run sample.module_env
                 [CallShutdown 0; Tick; CallShutdown 1; Tick; Tick]
                 before_main_window) = None.
Proof.
  assert (Hstuck : stage2_stuck (registry before_main_window) "main-window").
  { split; [reflexivity|]. split; [discriminate|]. split; reflexivity. }
  destruct (stage2_aborts_without_window sample.module_env 0
              before_main_window "main-window" Hstuck)
    as (Hraise & _ & _ & _ & _ & _ & Hnever).
  split; [exact Hraise|].
  exact (proj1 (Hnever eq_refl eq_refl eq_refl eq_refl
                  [Tick; CallShutdown 1%Z; Tick; Tick] eq_refl)).
Defined.

(** ** Installing the signal handlers *)

Lemma python_hacks_run (w : world) :
  exists l,
    _python_hacks w
    = (Ret tt,
       set_registry (insert "python-hack-timer" (Opaque "python_hacks"))
         (logged l
            (set_sighandlers (insert SIGTERM interrupt_handler)
               (set_sighandlers (insert SIGINT interrupt_handler) w)))).
Proof.
  unfold _python_hacks, objreg.register. frame_unfold. unfold signal_signal.
  run_unfold. world_simpl.
  destruct (bool_decide (is_Some (registry w !! "python-hack-timer")));
    cbv beta iota; rewrite !logged_one, !logged_logged;
    eexists; reflexivity.
Qed.

(** X20: [_python_hacks] arms the escalation.  Whatever handlers [SIGINT]
    and [SIGTERM] had, afterwards both are handled by [interrupt] and no
    other signal is; the call returns, registers the timer and touches
    neither the run loop nor the latch nor the exit status.  From there the
    third termination signal, in any mix of [SIGINT] and [SIGTERM] and
    under any process environment, leaves the interpreter with status
    [128 + signum]. *)
Theorem python_hacks_arms_termination (e : env) (w : world) :
  (forall s, s <> SIGINT -> s <> SIGTERM -> sighandlers w !! s = None) ->
  let r := _python_hacks w in
  fst r = Ret tt /\
  paired interrupt_handler (snd r) /\
  registry (snd r)
  = <["python-hack-timer" := Opaque "python_hacks"]> (registry w) /\
  timers (snd r) = timers w /\
  _shutting_down (snd r) = _shutting_down w /\
  exit_status (snd r) = exit_status w /\
  (forall s1 s2 s3,
     is_termination (Signal s1) = true -> is_termination (Signal s2) = true ->
     is_termination (Signal s3) = true ->
     fst (deliver s3 (run e [Signal s1; Signal s2] (snd r)))
     = Exit (128 + s3)).
Proof.
  intros Hother r. subst r. destruct (python_hacks_run w) as (l & ->).
  cbn [fst snd].
  assert (Hp : paired interrupt_handler
                 (set_registry (insert "python-hack-timer" (Opaque "python_hacks"))
                    (logged l
                       (set_sighandlers (insert SIGTERM interrupt_handler)
                          (set_sighandlers (insert SIGINT interrupt_handler) w))))).
  { intros s. unfold logged. world_simpl.
    destruct (decide (s = SIGTERM)) as [->|Ht].
    - rewrite lookup_insert_eq. rewrite bool_decide_eq_true_2 by now right.
      reflexivity.
    - rewrite lookup_insert_ne by congruence.
      destruct (decide (s = SIGINT)) as [->|Hi].
      + rewrite lookup_insert_eq. rewrite bool_decide_eq_true_2 by now left.
        reflexivity.
      + rewrite lookup_insert_ne by congruence. rewrite (Hother s Hi Ht).
        rewrite bool_decide_eq_false_2 by (intros [?|?]; congruence).
        reflexivity. }
  split; [reflexivity|]. split; [exact Hp|].
  do 4 (split; [reflexivity|]).
  intros s1 s2 s3 H1 H2 H3.
  rewrite !run_cons, run_nil.
  pose proof (step_paired e (Signal s1) _ _ Hp) as Hp1.
  rewrite H1 in Hp1.
  pose proof (step_paired e (Signal s2) _ _ Hp1) as Hp2.
  rewrite H2 in Hp2. cbn [escalate] in Hp2.
  pose proof (Hp2 s3) as Hs3. cbn [is_termination] in H3. rewrite H3 in Hs3.
  rewrite (deliver_installed s3 _ _ Hs3).
  now rewrite interrupt_really_forcefully_run.
Qed.

Lemma python_hacks_arms_termination_witness :
  let r := _python_hacks sample.fresh in
  fst r = Ret tt /\
  sighandlers (snd r) !! SIGTERM = Some interrupt_handler /\
  fst (deliver SIGINT
         (run sample.module_env [Signal SIGINT; Signal SIGTERM] (snd r)))
  = Exit 130.
Proof.
  intros r.
  destruct (python_hacks_arms_termination sample.module_env sample.fresh)
    as (Hret & Hp & _ & _ & _ & _ & Hthird).
  { intros s _ _. reflexivity. }
  split; [exact Hret|]. split; [exact (Hp SIGTERM)|].
  exact (Hthird SIGINT SIGTERM SIGINT eq_refl eq_refl eq_refl).
Defined.

(** ** The object listing of the crash report *)

Lemma qobject_induction (P : qobject -> Prop) :
  (forall r, P (QObject r [])) ->
  (forall r k ks, P k -> P (QObject r ks) -> P (QObject r (k :: ks))) ->
  forall o, P o.
Proof.
  intros Hnil Hcons. fix IH 1. intros [r ks].
  induction ks as [|k ks IHks]; [apply Hnil|].
  apply Hcons; [apply IH | exact IHks].
Qed.

Lemma findChildren_cons r k ks :
  findChildren (QObject r (k :: ks))
  = k :: findChildren k ++ findChildren (QObject r ks).
Proof. reflexivity. Qed.

Lemma height_cons r k ks :
  height (QObject r (k :: ks))
  = Nat.max (S (height k)) (height (QObject r ks)).
Proof. reflexivity. Qed.

Lemma weight_cons r k ks :
  weight (QObject r (k :: ks)) = S (2 * weight k) + weight (QObject r ks).
Proof. reflexivity. Qed.

Lemma listing_cons depth r k ks :
  listing depth (QObject r (k :: ks))
  = pyqt_line depth k ::
    listing (S depth) k ++ listing depth k ++ listing depth (QObject r ks).
Proof. reflexivity. Qed.

Lemma height_findChildren (o k : qobject) :
  In k (findChildren o) -> height k < height o.
Proof.
  revert k. induction o as [r|r k' ks IHk IHks] using qobject_induction;
    intros k.
  - intros [].
  - rewrite findChildren_cons, height_cons. cbn [In]. rewrite in_app_iff.
    intros [->|[Hin|Hin]].
    + lia.
    + specialize (IHk _ Hin). lia.
    + specialize (IHks _ Hin). lia.
Qed.

Lemma listing_findChildren (o : qobject) :
  forall depth,
    listing depth o
    = flat_map (fun k => pyqt_line depth k :: listing (S depth) k)
        (findChildren o).
Proof.
  induction o as [r|r k ks IHk IHks] using qobject_induction; intros depth.
  - reflexivity.
  - rewrite listing_cons, findChildren_cons. cbn [flat_map].
    rewrite flat_map_app. rewrite <- IHk, <- IHks.
    reflexivity.
Qed.

Lemma length_listing (o : qobject) :
  forall depth, length (listing depth o) = weight o.
Proof.
  induction o as [r|r k ks IHk IHks] using qobject_induction; intros depth.
  - reflexivity.
  - rewrite listing_cons, weight_cons. cbn [length].
    rewrite !length_app, !IHk, IHks. lia.
Qed.

Lemma length_findChildren (o : qobject) :
  length (findChildren o) <= weight o.
Proof.
  induction o as [r|r k ks IHk IHks] using qobject_induction.
  - cbn. lia.
  - rewrite findChildren_cons, weight_cons. cbn [length].
    rewrite length_app. lia.
Qed.

Lemma pyqt_loop_None limit depth objs : pyqt_loop limit depth objs None = None.
Proof. induction objs as [|k objs IH]; [reflexivity|exact IH]. Qed.

Lemma get_pyqt_objects_S limit lines obj depth :
  _get_pyqt_objects (S limit) lines obj depth
  = pyqt_loop limit depth (findChildren obj) (Some lines).
Proof. reflexivity. Qed.

Lemma get_pyqt_objects_listing (limit : nat) :
  forall obj lines depth,
    height obj < limit ->
    _get_pyqt_objects limit lines obj depth = Some (lines ++ listing depth obj).
Proof.
  induction limit as [|limit IH]; intros obj lines depth Hh; [lia|].
  rewrite get_pyqt_objects_S, listing_findChildren.
  assert (Hall : Forall (fun k => height k < limit) (findChildren obj)).
  { apply List.Forall_forall. intros k Hk.
    pose proof (height_findChildren obj k Hk). lia. }
  unfold pyqt_loop. revert lines.
  induction Hall as [|k objs Hk _ IHo]; intros lines.
  - cbn. now rewrite app_nil_r.
  - cbn [fold_left]. rewrite (IH k _ _ Hk). rewrite IHo.
    cbn [flat_map]. rewrite Nat.add_1_r. unfold pyqt_line.
    f_equal. rewrite <- !app_assoc. reflexivity.
Qed.

Lemma get_pyqt_objects_overflow (limit : nat) :
  forall obj lines depth,
    limit <= height obj -> _get_pyqt_objects limit lines obj depth = None.
Proof.
  induction limit as [|limit IH]; intros obj lines depth Hh; [reflexivity|].
  rewrite get_pyqt_objects_S.
  assert (Hex : exists pre k post,
            findChildren obj = pre ++ k :: post /\ limit <= height k).
  { clear IH lines depth.
    induction obj as [r|r k ks IHk IHks] using qobject_induction.
    - cbn in Hh. lia.
    - rewrite height_cons in Hh. rewrite findChildren_cons.
      destruct (Nat.le_gt_cases (S limit) (S (height k))) as [Hle|Hgt].
      + exists [], k, (findChildren k ++ findChildren (QObject r ks)).
        split; [reflexivity|lia].
      + destruct IHks as (pre & k' & post & Heq & Hk'); [lia|].
        exists (k :: findChildren k ++ pre), k', post. split; [|exact Hk'].
        rewrite Heq. cbn [app]. now rewrite <- app_assoc. }
  destruct Hex as (pre & k & post & -> & Hk).
  pose proof (pyqt_loop_None limit depth post) as Hnone.
  unfold pyqt_loop in *. rewrite fold_left_app. cbn [fold_left].
  match goal with |- context [fold_left ?f pre (Some lines)] =>
    destruct (fold_left f pre (Some lines)) as [ls|]
  end.
  - rewrite (IH k _ _ Hk). exact Hnone.
  - exact Hnone.
Qed.

Lemma leb_trans (a b c : string) :
  String.leb a b = true -> String.leb b c = true -> String.leb a c = true.
Proof.
  unfold String.leb. intros Hab Hbc.
  destruct (String.compare a b) eqn:Eab; try discriminate;
    destruct (String.compare b c) eqn:Ebc; try discriminate.
  - apply String.compare_eq_iff in Eab, Ebc. subst.
    assert (E : String.compare c c = Eq)
      by now apply OrderedTypeEx.String_as_OT.cmp_eq.
    now rewrite E.
  - apply String.compare_eq_iff in Eab. subst. now rewrite Ebc.
  - apply String.compare_eq_iff in Ebc. subst. now rewrite Eab.
  - apply OrderedTypeEx.String_as_OT.cmp_lt in Eab, Ebc.
    pose proof (OrderedTypeEx.String_as_OT.lt_trans _ _ _ Eab Ebc) as H.
    apply OrderedTypeEx.String_as_OT.cmp_lt in H.
    unfold OrderedTypeEx.String_as_OT.cmp in H. now rewrite H.
Qed.

Lemma leb_false_le (a b : string) :
  String.leb a b = false -> String.leb b a = true.
Proof.
  intros H. destruct (String.leb_total a b) as [H'|H']; congruence.
Qed.

Section Sorted.
Context {A : Type} (key : A -> string).

Lemma insert_sorted_perm (x : A) (l : list A) :
  insert_sorted key x l ≡ₚ x :: l.
Proof.
  induction l as [|y l IH]; [reflexivity|]. cbn [insert_sorted].
  destruct (String.leb (key x) (key y)); [reflexivity|].
  rewrite IH. apply Permutation_swap.
Qed.

Lemma sorted_perm (l : list A) : sorted key l ≡ₚ l.
Proof.
  induction l as [|x l IH]; [reflexivity|]. cbn [sorted].
  rewrite insert_sorted_perm. now rewrite IH.
Qed.

Lemma insert_sorted_sorted (x : A) (l : list A) :
  StronglySorted (key_le key) l ->
  StronglySorted (key_le key) (insert_sorted key x l).
Proof.
  induction 1 as [|y l Hl IH Hy]; cbn [insert_sorted].
  - repeat constructor.
  - destruct (String.leb (key x) (key y)) eqn:Hxy.
    + constructor; [now constructor|]. constructor; [exact Hxy|].
      eapply List.Forall_impl; [|exact Hy]. intros z Hz.
      unfold key_le in *. now apply (leb_trans _ (key y)).
    + constructor; [exact IH|].
      eapply Permutation_Forall; [symmetry; apply insert_sorted_perm|].
      constructor; [|exact Hy]. now apply leb_false_le.
Qed.

Lemma sorted_sorted (l : list A) : StronglySorted (key_le key) (sorted key l).
Proof.
  induction l as [|x l IH]; [constructor|]. now apply insert_sorted_sorted.
Qed.

Lemma sorted_invariant (l l' : list A) :
  NoDup (map key l) -> l ≡ₚ l' -> sorted key l = sorted key l'.
Proof.
  intros Hnd Hperm.
  apply (StronglySorted_unique_strong (key_le key)).
  - intros x1 x2 H1 H2 H12 H21.
    assert (Hk : key x1 = key x2) by now apply String.leb_antisym.
    apply list_elem_of_In in H1, H2.
    apply (Permutation_in _ (sorted_perm l)) in H1.
    apply (Permutation_in _ (sorted_perm l')) in H2.
    apply (Permutation_in _ (Permutation_sym Hperm)) in H2.
    clear - Hnd H1 H2 Hk.
    induction l as [|y l IH]; [destruct H1|].
    cbn [map] in Hnd. apply NoDup_cons in Hnd as [Hy Hnd].
    rewrite list_elem_of_In in Hy.
    destruct H1 as [->|H1]; destruct H2 as [->|H2].
    + reflexivity.
    + exfalso. apply Hy. rewrite Hk. now apply in_map.
    + exfalso. apply Hy. rewrite <- Hk. now apply in_map.
    + now apply IH.
  - apply sorted_sorted.
  - apply sorted_sorted.
  - now rewrite !sorted_perm.
Qed.
End Sorted.

Lemma sorted_invariant_id (l l' : list string) :
  l ≡ₚ l' -> sorted (fun e => e) l = sorted (fun e => e) l'.
Proof.
  intros Hperm.
  apply (StronglySorted_unique_strong (key_le (fun e => e))).
  - intros x1 x2 _ _. apply String.leb_antisym.
  - apply sorted_sorted.
  - apply sorted_sorted.
  - now rewrite !sorted_perm.
Qed.

Lemma listing_complete (o : qobject) :
  forall depth k,
    In k (findChildren o) -> In (pyqt_line depth k) (listing depth o).
Proof.
  intros depth k Hk. rewrite listing_findChildren. apply in_flat_map.
  exists k. split; [exact Hk|]. now left.
Qed.

Lemma listing_sound (o : qobject) :
  forall depth line,
    In line (listing depth o) ->
    exists k d, In k (findChildren o) /\ depth <= d /\ line = pyqt_line d k.
Proof.
  induction o as [r|r k ks IHk IHks] using qobject_induction;
    intros depth line.
  - intros [].
  - rewrite listing_cons, findChildren_cons. cbn [In].
    rewrite !in_app_iff. intros [<-|[Hin|[Hin|Hin]]].
    + exists k, depth. split; [now left|]. split; [lia|reflexivity].
    + destruct (IHk _ _ Hin) as (k' & d & Hk' & Hd & ->).
      exists k', d. split; [right; apply in_app_iff; now left|].
      split; [lia|reflexivity].
    + destruct (IHk _ _ Hin) as (k' & d & Hk' & Hd & ->).
      exists k', d. split; [right; apply in_app_iff; now left|].
      split; [lia|reflexivity].
    + destruct (IHks _ _ Hin) as (k' & d & Hk' & Hd & ->).
      exists k', d. split; [right; apply in_app_iff; now right|].
      split; [lia|reflexivity].
Qed.

Lemma weight_findChildren (o : qobject) :
  weight o
  = length (findChildren o) + list_sum (map weight (findChildren o)).
Proof.
  rewrite <- (length_listing o 0), listing_findChildren.
  generalize (findChildren o). intros l.
  induction l as [|k l IH]; [reflexivity|].
  cbn [flat_map map length list_sum fold_right]. rewrite length_app.
  cbn [length]. rewrite length_listing, IH. unfold list_sum. lia.
Qed.

(** X21: what [_get_pyqt_objects] appends.  With Qt's recursive
    [findChildren], the call ends in [RecursionError] exactly when the
    number of nested calls that the interpreter still allows does not
    exceed the height of the tree below the object.  Otherwise it returns the
    given lines followed by its own: every descendant is listed at the
    given depth, every line is the [repr] of a descendant indented at least
    that far, and the number of lines is the number of descendants plus
    the number of lines that each descendant's own listing has.  So a
    descendant that has children is listed more than once. *)
Theorem pyqt_objects_listing (limit : nat) (lines : list string)
    (obj : qobject) (depth : nat) :
  (limit <= height obj -> _get_pyqt_objects limit lines obj depth = None) /\
  (height obj < limit ->
   exists out,
     _get_pyqt_objects limit lines obj depth = Some (lines ++ out) /\
     length out = weight obj /\
     weight obj
     = length (findChildren obj) + list_sum (map weight (findChildren obj)) /\
     (forall k, In k (findChildren obj) -> In (pyqt_line depth k) out) /\
     (forall line, In line out ->
        exists k d,
          In k (findChildren obj) /\ depth <= d /\ line = pyqt_line d k)).
Proof.
  split; [apply get_pyqt_objects_overflow|].
  intros Hh. exists (listing depth obj).
  split; [now apply get_pyqt_objects_listing|].
  split; [apply length_listing|]. split; [apply weight_findChildren|].
  split; [apply listing_complete | apply listing_sound].
Qed.

Lemma pyqt_objects_listing_witness :
  _get_pyqt_objects 3 [] sample_objects 0 = None /\
  exists out,
    _get_pyqt_objects 4 [] sample_objects 0 = Some out /\
    length out = 8 /\ length (findChildren sample_objects) = 4.
Proof.
  split.
  - apply (proj1 (pyqt_objects_listing 3 [] sample_objects 0)). cbn. lia.
  - destruct (proj2 (pyqt_objects_listing 4 [] sample_objects 0))
      as (out & Hrun & Hlen & _); [cbn; lia|].
    exists out. split; [exact Hrun|]. split; [exact Hlen|reflexivity].
Defined.

Lemma fold_indented (data lines : list string) :
  fold_left (fun lines line => lines ++ [("    " ++ line)%string]) data lines
  = lines ++ indented data.
Proof.
  revert lines. induction data as [|line data IH]; intros lines.
  - cbn. now rewrite app_nil_r.
  - cbn [fold_left indented map]. rewrite IH. unfold indented.
    now rewrite <- app_assoc.
Qed.

Lemma map_pair_id {A B} (l : list (A * B)) :
  map (fun '(a, b) => (a, b)) l = l.
Proof. induction l as [|[a b] l IH]; [reflexivity|]. cbn. now rewrite IH. Qed.

Lemma registered_fold (blocks : list (string * list string))
    (lines : list string) :
  fold_left
    (fun lines '(name, data) =>
       let lines := lines ++ [""] in
       let lines := lines ++ [(name ++ " object registry - " ++
                               format_len data ++ " objects:")%string] in
       fold_left (fun lines line => lines ++ [("    " ++ line)%string])
         data lines)
    blocks lines
  = lines ++ flat_map registry_block blocks.
Proof.
  revert lines. induction blocks as [|[name data] blocks IH]; intros lines.
  - cbn. now rewrite app_nil_r.
  - cbn [fold_left flat_map]. cbv beta iota zeta.
    rewrite fold_indented, IH.
    unfold registry_block, format_len, format_nat. cbn [fst snd].
    rewrite <- !app_assoc. reflexivity.
Qed.

Lemma registered_objects_blocks (meta : list (string * list string)) :
  _get_registered_objects meta
  = flat_map registry_block (sorted fst meta).
Proof.
  unfold _get_registered_objects. rewrite map_pair_id.
  now rewrite registered_fold.
Qed.

Lemma length_blocks (blocks : list (string * list string)) :
  length (flat_map registry_block blocks)
  = list_sum (map (fun b => 2 + length (snd b)) blocks).
Proof.
  induction blocks as [|b blocks IH]; [reflexivity|].
  cbn [flat_map map]. rewrite length_app, IH. unfold registry_block, indented.
  cbn [length]. rewrite length_map. unfold list_sum. cbn [fold_right]. lia.
Qed.

(** X22: [_get_registered_objects] lists the registries by name.  The
    listing consists of one block for each registry (an empty line, a
    header with the name and the number of objects, one indented line for
    each object), the blocks are in ascending order of the registry names,
    the number of lines is the number of objects plus two for each
    registry, and with distinct names the listing does not depend on the
    order in which [meta_registry] yields the registries. *)
Theorem registered_objects_by_name (meta : list (string * list string)) :
  exists blocks,
    blocks ≡ₚ meta /\
    StronglySorted (key_le fst) blocks /\
    _get_registered_objects meta = flat_map registry_block blocks /\
    length (_get_registered_objects meta)
    = list_sum (map (fun b => 2 + length (snd b)) meta) /\
    (forall meta',
       NoDup (map fst meta) -> meta ≡ₚ meta' ->
       _get_registered_objects meta' = _get_registered_objects meta).
Proof.
  exists (sorted fst meta).
  split; [apply sorted_perm|]. split; [apply sorted_sorted|].
  split; [apply registered_objects_blocks|]. split.
  - rewrite registered_objects_blocks, length_blocks.
    apply Permutation_list_sum, Permutation_map, sorted_perm.
  - intros meta' Hnd Hperm. rewrite !registered_objects_blocks.
    now rewrite (sorted_invariant fst meta meta' Hnd Hperm).
Qed.

Lemma registered_objects_by_name_witness :
  _get_registered_objects [("window", ["x"; "y"]); ("global", ["z"])]
  = [""; "global object registry - 1 objects:"; "    z";
     ""; "window object registry - 2 objects:"; "    x"; "    y"] /\
  _get_registered_objects [("global", ["z"]); ("window", ["x"; "y"])]
  = _get_registered_objects [("window", ["x"; "y"]); ("global", ["z"])].
Proof.
  destruct (registered_objects_by_name
              [("window", ["x"; "y"]); ("global", ["z"])])
    as (blocks & _ & _ & _ & _ & Hsame).
  split; [reflexivity|].
  apply Hsame.
  - cbn. repeat constructor; rewrite ?list_elem_of_In; cbn; intuition congruence.
  - apply Permutation_swap.
Defined.

(** X23: the report of [get_all_objects].  It is [None] (the
    [RecursionError] of [_get_pyqt_objects]) exactly when the number of
    nested calls that the interpreter still allows does not exceed the
    height of the object tree.  Otherwise it is
    the lines joined by newlines: an empty line, the widget header with the
    number of widgets, the widgets sorted and indented, the object header,
    the indented object lines, an empty line and the registries.  The
    number in the object header is the number of lines, which is at least
    the number of objects.  The report does not depend on the order in
    which Qt returns the widgets nor, for distinct names, on the order of
    the registries. *)
Theorem all_objects_report (limit : nat) (allWidgets : list string)
    (self : qobject) (meta : list (string * list string)) :
  (limit <= height self ->
   get_all_objects limit allWidgets self meta = None) /\
  (height self < limit ->
   get_all_objects limit allWidgets self meta
   = Some (String.concat nl
       ([""] ++
        ("Qt widgets - " ++ format_nat (length allWidgets) ++ " objects")%string
        :: indented (_get_widgets allWidgets) ++
        ("Qt objects - " ++ format_nat (weight self) ++ " objects:")%string
        :: indented (listing 0 self) ++
        [""] ++ _get_registered_objects meta)) /\
   length (findChildren self) <= weight self /\
   (forall allWidgets' meta',
      allWidgets ≡ₚ allWidgets' ->
      NoDup (map fst meta) -> meta ≡ₚ meta' ->
      get_all_objects limit allWidgets' self meta'
      = get_all_objects limit allWidgets self meta)).
Proof.
  split.
  - intros Hh. unfold get_all_objects.
    now rewrite (get_pyqt_objects_overflow limit self [] 0 Hh).
  - intros Hh.
    assert (Hrun : forall ws m,
      get_all_objects limit ws self m
      = Some (String.concat nl
          ([""] ++
           ("Qt widgets - " ++ format_nat (length ws) ++ " objects")%string
           :: indented (_get_widgets ws) ++
           ("Qt objects - " ++ format_nat (weight self) ++ " objects:")%string
           :: indented (listing 0 self) ++
           [""] ++ _get_registered_objects m))).
    { intros ws m. unfold get_all_objects.
      rewrite (get_pyqt_objects_listing limit self [] 0 Hh).
      cbv zeta. cbn [app]. unfold format_len, format_nat, indented.
      rewrite !length_map, length_listing.
      assert (Hlen : length (_get_widgets ws) = length ws).
      { unfold _get_widgets. rewrite map_id.
        apply Permutation_length, sorted_perm. }
      rewrite Hlen. rewrite <- !app_assoc. reflexivity. }
    split; [apply Hrun|]. split; [apply length_findChildren|].
    intros ws' m' Hws Hnd Hm. rewrite !Hrun.
    unfold _get_widgets.
    rewrite (sorted_invariant_id allWidgets ws' Hws).
    rewrite (Permutation_length Hws).
    rewrite !registered_objects_blocks.
    now rewrite (sorted_invariant fst meta m' Hnd Hm).
Qed.

Lemma all_objects_report_witness :
  get_all_objects 3 ["w2"; "w1"] sample_objects [("global", ["z"])] = None /\
  get_all_objects 4 ["w2"; "w1"] sample_objects [("global", ["z"])]
  = get_all_objects 4 ["w1"; "w2"] sample_objects [("global", ["z"])].
Proof.
  destruct (all_objects_report 3 ["w2"; "w1"] sample_objects
              [("global", ["z"])]) as (Hnone & _).
  destruct (all_objects_report 4 ["w1"; "w2"] sample_objects
              [("global", ["z"])]) as (_ & Hsome).
  split; [apply Hnone; cbn; lia|].
  destruct Hsome as (_ & _ & Hsame); [cbn; lia|].
  apply Hsame.
  - apply Permutation_swap.
  - cbn. repeat constructor. rewrite list_elem_of_In. intros [].
  - reflexivity.
Defined.
